(** * Excel-val: the validation rules of the metadata checker scripts

    A shallow embedding of the pandas-based validation scripts
    ([App.py], [app1.py], [Flask.py], [Flask2.py], [Flask3.py]) and the
    properties of their rule engines.

    The scripts load a spreadsheet with [dtype=str] and then run a fixed
    series of vectorised checks over the resulting [DataFrame].  The
    rule engines are embedded from the loaded frame on; the module
    [Files] adds the choice of a reader from the name of the file
    ([Fileformat.py] and the first lines of each [validate_file]), with
    the readers of pandas as parameters.

    The pandas operations are modelled as pandas 2 defines them on the
    [object] columns that [dtype=str] produces:
    - an empty cell is [NaN]; [isnull] sees it, [== v] is false on it;
    - [duplicated], [unique] and [isin] hash their values, so all [NaN]
      count as one value there; [DataFrame.duplicated] answers an empty
      mask for a frame without rows or without columns before it looks
      for its column;
    - a [.str] method returns [NaN] for an empty cell, and the result
      is then an [object] series;
    - [&] and [|] fill [NaN] with [False]; unary [~] does not, and
      raises [TypeError] on an [object] series that holds [NaN];
    - [astype(str)] turns [NaN] into the text nan;
    - [Series.str.match] is [re.match], so a pattern [^r$] also takes a
      string that ends in one newline after a match of [r]. *)

From Stdlib Require Import List String Ascii NArith Arith Bool Lia.
Import ListNotations.
Open Scope string_scope.
Open Scope list_scope.
Open Scope nat_scope.

(* ================================================================= *)
(** * Python values *)

(** A Python [str] is a sequence of Unicode code points. *)
Definition pystr := list N.

(** The string literals of the scripts are ASCII. *)
Definition py (s : string) : pystr := map N_of_ascii (list_ascii_of_string s).

Fixpoint pystr_eqb (a b : pystr) : bool :=
  match a, b with
  | [], [] => true
  | x :: a', y :: b' => N.eqb x y && pystr_eqb a' b'
  | _, _ => false
  end.

Definition mem (c : pystr) (l : list pystr) : bool := existsb (pystr_eqb c) l.

(** Exceptions the scripts can raise from the rule engine. *)
Inductive exn :=
| ValueError (missing_cols : list pystr)   (* App.py line 23 *)
| KeyError (column : pystr)                (* df[col] on a missing column *)
| TypeError                                (* bad operand type for unary ~ *)
| IndexingError.                           (* df[mask], mask not aligned *)

Inductive outcome (A : Type) :=
| Returns (a : A)
| Raises (e : exn).
Arguments Returns {A} a.
Arguments Raises {A} e.

(** The part of the Unicode character database that [str.isdigit] and
    the [\d] and [\s] classes of [re] consult for code points outside
    ASCII.  It belongs to the Python runtime, so the rules are stated
    over an arbitrary table. *)
Record UnicodeDB := {
  uni_isdigit : N -> bool;   (* str.isdigit on a non-ASCII character *)
  uni_decimal : N -> bool;   (* category Nd: [\d] on a non-ASCII character *)
  uni_isspace : N -> bool    (* [\s] on a non-ASCII character *)
}.

Definition in_range (lo hi c : N) : bool := N.leb lo c && N.leb c hi.

Definition ascii_digit (c : N) : bool := in_range 48 57 c.

(** ASCII white space as [re] sees it in a [str] pattern:
    tab, LF, VT, FF, CR, FS, GS, RS, US and space. *)
Definition ascii_space (c : N) : bool :=
  in_range 9 13 c || in_range 28 32 c.

Definition is_ascii (c : N) : bool := N.leb c 127.

Section Python.
Variable U : UnicodeDB.

Definition isdigit_char (c : N) : bool :=
  if is_ascii c then ascii_digit c else uni_isdigit U c.

(** [str.isdigit]: at least one character and all of them digits. *)
Definition py_isdigit (s : pystr) : bool :=
  match s with
  | [] => false
  | _ => forallb isdigit_char s
  end.

(** ** Regular expressions

    The patterns of the scripts use character classes, concatenation,
    alternation, [*] and bounded repetition; they are matched here by
    derivatives. *)
Inductive regex :=
| Void
| Eps
| Cls (p : N -> bool)
| Cat (a b : regex)
| Alt (a b : regex)
| Star (a : regex).

Fixpoint nullable (r : regex) : bool :=
  match r with
  | Void => false
  | Eps => true
  | Cls _ => false
  | Cat a b => nullable a && nullable b
  | Alt a b => nullable a || nullable b
  | Star _ => true
  end.

Fixpoint deriv (c : N) (r : regex) : regex :=
  match r with
  | Void => Void
  | Eps => Void
  | Cls p => if p c then Eps else Void
  | Cat a b =>
      if nullable a then Alt (Cat (deriv c a) b) (deriv c b)
      else Cat (deriv c a) b
  | Alt a b => Alt (deriv c a) (deriv c b)
  | Star a => Cat (deriv c a) (Star a)
  end.

Definition fullmatch (r : regex) (s : pystr) : bool :=
  nullable (fold_left (fun r c => deriv c r) s r).

(** [re.match] with a pattern [^r$]: [^] is the start of the string and
    [$] is the end of the string or the position just before a newline
    that ends it. *)
Definition re_match (r : regex) (s : pystr) : bool :=
  fullmatch r s ||
  match rev s with
  | 10%N :: s' => fullmatch r (rev s')
  | _ => false
  end.

(** The strings of a pattern, to reason about the matcher. *)
Inductive matches : regex -> pystr -> Prop :=
| MEps : matches Eps []
| MCls p c : p c = true -> matches (Cls p) [c]
| MCat a b s1 s2 :
    matches a s1 -> matches b s2 -> matches (Cat a b) (s1 ++ s2)
| MAltL a b s : matches a s -> matches (Alt a b) s
| MAltR a b s : matches b s -> matches (Alt a b) s
| MStar0 a : matches (Star a) []
| MStarS a s1 s2 :
    matches a s1 -> matches (Star a) s2 -> matches (Star a) (s1 ++ s2).

(** One character given by its code point, a set of characters, a
    range, a sequence and a choice. *)
Definition code (n : N) : regex := Cls (N.eqb n).
Definition chr (a : string) : regex := Cls (fun c => existsb (N.eqb c) (py a)).
Fixpoint seqs (l : list regex) : regex :=
  match l with
  | [] => Eps
  | [r] => r
  | r :: l' => Cat r (seqs l')
  end.
Fixpoint alts (l : list regex) : regex :=
  match l with
  | [] => Void
  | [r] => r
  | r :: l' => Alt r (alts l')
  end.
Definition rng (lo hi : string) : regex :=
  Cls (fun c => match py lo, py hi with
                | [l], [h] => in_range l h c
                | _, _ => false
                end).

(** [\d] and [\s] in a [str] pattern *)
Definition is_decimal (c : N) : bool :=
  if is_ascii c then ascii_digit c else uni_decimal U c.
Definition is_space (c : N) : bool :=
  if is_ascii c then ascii_space c else uni_isspace U c.
Definition re_d : regex := Cls is_decimal.
Definition re_s : regex := Cls is_space.

(** [re.findall(r'[^\x00-\x7F]', s)] joined back into one string: every
    match is a single character, so the result is the subsequence of the
    characters outside ASCII. *)
Definition find_non_english_chars (s : pystr) : pystr :=
  filter (fun c => negb (is_ascii c)) s.

End Python.

(* ================================================================= *)
(** * The pandas operations the scripts use *)

(** A cell of a frame.  A frame read with [dtype=str] holds strings and
    [NaN] (an empty cell); the flag columns [App.py] adds hold booleans. *)
Inductive cell :=
| NaN
| Str (s : pystr)
| Bool (b : bool).

Definition Series := list cell.
Definition mask := list bool.

(** A frame: a [RangeIndex] of [nrows] labels and the columns in order.
    In a frame that pandas builds every column has [nrows] cells; [at_]
    reads a position that a column lacks as [NaN], so that every record
    is a frame. *)
Record DataFrame := {
  nrows : nat;
  cols : list (pystr * Series)
}.

Definition columns (df : DataFrame) : list pystr := map fst (cols df).

Fixpoint lookup (c : pystr) (l : list (pystr * Series)) : option Series :=
  match l with
  | [] => None
  | (k, s) :: l' => if pystr_eqb c k then Some s else lookup c l'
  end.

(** [df.at[i, c]] *)
Definition at_ (df : DataFrame) (i : nat) (c : pystr) : cell :=
  match lookup c (cols df) with
  | Some s => nth i s NaN
  | None => NaN
  end.

(** [df[c]], aligned with the index of the frame. *)
Definition getcol (df : DataFrame) (c : pystr) : Series :=
  map (fun i => at_ df i c) (seq 0 (nrows df)).

Fixpoint replace_col (c : pystr) (s : Series) (l : list (pystr * Series))
  : list (pystr * Series) :=
  match l with
  | [] => [(c, s)]
  | (k, s') :: l' =>
      if pystr_eqb c k then (k, s) :: l' else (k, s') :: replace_col c s l'
  end.

(** [df[c] = s]: replaces the column when it exists, appends it otherwise. *)
Definition setcol (df : DataFrame) (c : pystr) (s : Series) : DataFrame :=
  {| nrows := nrows df; cols := replace_col c s (cols df) |}.

(** [str(x)] *)
Definition str_ (x : cell) : pystr :=
  match x with
  | NaN => py "nan"
  | Str s => s
  | Bool true => py "True"
  | Bool false => py "False"
  end.

(** [pd.isna(x)] / [pd.notna(x)] *)
Definition isna (x : cell) : bool :=
  match x with NaN => true | _ => false end.

(** [x == y] on cells as Python compares them: [NaN] equals nothing. *)
Definition py_eq (x y : cell) : bool :=
  match x, y with
  | Str a, Str b => pystr_eqb a b
  | Bool a, Bool b => Bool.eqb a b
  | _, _ => false
  end.

(** Equality of the hash tables behind [duplicated], [unique] and
    [isin]: as [py_eq], and all [NaN] are one key. *)
Definition hash_eq (x y : cell) : bool :=
  match x, y with
  | NaN, NaN => true
  | _, _ => py_eq x y
  end.

(** [s.isin(values)] *)
Definition isin (values : list cell) (s : Series) : mask :=
  map (fun x => existsb (hash_eq x) values) s.

Definition count (x : cell) (s : Series) : nat :=
  List.length (filter (hash_eq x) s).

(** [s.duplicated(keep=False)]: every member of a group of two or more. *)
Definition duplicated (s : Series) : mask :=
  map (fun x => 2 <=? count x s) s.

(** [s.unique()]: the distinct values in order of first appearance. *)
Fixpoint unique_from (seen : list cell) (s : Series) : list cell :=
  match s with
  | [] => []
  | x :: s' =>
      if existsb (hash_eq x) seen then unique_from seen s'
      else x :: unique_from (x :: seen) s'
  end.
Definition unique (s : Series) : list cell := unique_from [] s.

(** [s == v] for a scalar [v] *)
Definition eq_scalar (s : Series) (v : cell) : mask :=
  map (fun x => py_eq x v) s.

(** The labels of a boolean selection: [df[m].index.tolist()],
    [df.index[m].tolist()]. *)
Fixpoint index_from (k : nat) (m : mask) : list nat :=
  match m with
  | [] => []
  | b :: m' => if b then k :: index_from (S k) m' else index_from (S k) m'
  end.
Definition index_where (m : mask) : list nat := index_from 0 m.

(** The values of a boolean selection: [s[m].tolist()]. *)
Fixpoint select {A : Type} (m : mask) (s : list A) : list A :=
  match m, s with
  | b :: m', x :: s' => if b then x :: select m' s' else select m' s'
  | _, _ => []
  end.

(** [~s].  On a [bool] series this is the element-wise negation.  A
    string method applied to a column with an empty cell gives an
    [object] series holding [NaN] there, and [~] applied to it raises
    [TypeError: bad operand type for unary ~: 'float']. *)
Fixpoint all_bool (s : Series) : option mask :=
  match s with
  | [] => Some []
  | Bool b :: s' =>
      match all_bool s' with Some m => Some (b :: m) | None => None end
  | _ :: _ => None
  end.

Definition invert (s : Series) : outcome mask :=
  match all_bool s with
  | Some m => Returns (map negb m)
  | None => Raises TypeError
  end.

(** Truth value of a cell in [&] and [|]: [NaN] is filled with [False]. *)
Definition truth (x : cell) : bool :=
  match x with Bool b => b | _ => false end.

(** [a & b] on two series *)
Fixpoint and_ (a b : Series) : mask :=
  match a, b with
  | x :: a', y :: b' => (truth x && truth y) :: and_ a' b'
  | _, _ => []
  end.

(** [a | b] on two boolean series *)
Fixpoint or_ (a b : mask) : mask :=
  match a, b with
  | x :: a', y :: b' => (x || y) :: or_ a' b'
  | _, _ => []
  end.

(** [s.astype(str)] *)
Definition astype_str (s : Series) : Series := map (fun x => Str (str_ x)) s.

(** A mask over the rows given by a test on the row label: the shape of
    every [any(axis=1)] / [all(axis=1)] reduction. *)
Definition row_mask (df : DataFrame) (p : nat -> bool) : mask :=
  map p (seq 0 (nrows df)).

(** A column without an empty cell: every cell is a string. *)
Definition is_str (x : cell) : bool :=
  match x with Str _ => true | _ => false end.

Definition strings (df : DataFrame) (c : pystr) : bool :=
  forallb (fun i => is_str (at_ df i c)) (seq 0 (nrows df)).

(** The frame has every column of [cs]. *)
Definition has_columns (cs : list pystr) (df : DataFrame) : bool :=
  forallb (fun c => mem c (columns df)) cs.

Section StrMethods.
Variable U : UnicodeDB.

(** [s.str.isdigit()] on a cell once [NaN] counts as [False]. *)
Definition digits (x : cell) : bool :=
  match x with Str v => py_isdigit U v | _ => false end.

(** [s.str.isdigit()]: [NaN] where the element is not a string. *)
Definition str_isdigit (s : Series) : Series :=
  map (fun x => match x with Str v => Bool (py_isdigit U v) | _ => NaN end) s.

(** [s.str.match(pat)] for a pattern [^r$] *)
Definition cell_match (r : regex) (x : cell) : cell :=
  match x with Str v => Bool (re_match r v) | _ => NaN end.
Definition str_match (r : regex) (s : Series) : Series :=
  map (cell_match r) s.

(** [s.str.match(pat, na=False)] *)
Definition str_match_na_false (r : regex) (s : Series) : mask :=
  map (fun x => match x with Str v => re_match r v | _ => false end) s.

End StrMethods.

(** ** Exceptions and the frame as state

    The scripts assign to columns of the frame while they validate, and
    an exception leaves the assignments made so far in place: the frame
    is threaded through, also past a [raise]. *)
Definition M (A : Type) : Type := DataFrame -> outcome A * DataFrame.

Definition ret {A : Type} (a : A) : M A := fun df => (Returns a, df).
Definition raise {A : Type} (e : exn) : M A := fun df => (Raises e, df).
Definition bind {A B : Type} (m : M A) (k : A -> M B) : M B :=
  fun df =>
    match m df with
    | (Returns a, df') => k a df'
    | (Raises e, df') => (Raises e, df')
    end.
Definition frame : M DataFrame := fun df => (Returns df, df).
Definition assign (c : pystr) (s : Series) : M unit :=
  fun df => (Returns tt, setcol df c s).
Definition lift {A : Type} (o : outcome A) : M A := fun df => (o, df).

Notation "x <- m ;; k" := (bind m (fun x => k))
  (at level 61, m at next level, right associativity).
Notation "m ;;; k" := (bind m (fun _ => k))
  (at level 61, right associativity).

(** [df[c]] where the script does not guard the access. *)
Definition column (c : pystr) : M Series :=
  fun df =>
    if mem c (columns df) then (Returns (getcol df c), df)
    else (Raises (KeyError c), df).

(** ** Report values

    The reports are nested [dict]s and [list]s, kept as Python builds
    them. *)
#[local] Unset Elimination Schemes.
Inductive pyval :=
| Int (n : nat)
| Val (x : cell)                       (* a [str], or [nan] for an empty cell *)
| PyList (l : list pyval)
| Dict (d : list (string * pyval)).
#[local] Set Elimination Schemes.

Fixpoint assoc (k : string) (d : list (string * pyval)) : option pyval :=
  match d with
  | [] => None
  | (k', v) :: d' => if String.eqb k k' then Some v else assoc k d'
  end.

(** [d[k]] *)
Definition get (k : string) (d : pyval) : option pyval :=
  match d with
  | Dict l => assoc k l
  | _ => None
  end.

Definition keys (d : pyval) : list string :=
  match d with
  | Dict l => map fst l
  | _ => []
  end.

Definition names (l : list pystr) : pyval := PyList (map (fun c => Val (Str c)) l).

(** [[row + 2 for row in rows]] *)
Definition row_numbers (rows : list nat) : pyval :=
  PyList (map (fun row => Int (row + 2)) rows).

(* ================================================================= *)
(** * App.py: [validate_excel] *)

Module App.

Definition required_columns : list pystr := map py
  [ "GTI"; "Entity"; "Title Name"; "Other title names"; "Duration";
    "Producers"; "Directors"; "Production Company Name"; "Year of Production";
    "Countries"; "Languages"; "Is Version Original"; "Age Rating ID";
    "Content Descriptors"; "Violence Impact"; "Drug Use Impact";
    "Themes Impact"; "Language Impact"; "Nudity Impact"; "Sex Impact";
    "ACB Rated"; "Different Version Production Exists"; "Rating Date" ].

Definition text_columns : list pystr := map py
  [ "Title Name"; "Producers"; "Directors"; "Production Company Name" ].

Definition valid_age_ratings : list cell :=
  map (fun s => Str (py s)) [ "2"; "9"; "154"; "147" ].

Definition impact_columns : list pystr := map py
  [ "Violence Impact"; "Drug Use Impact"; "Themes Impact";
    "Language Impact"; "Nudity Impact"; "Sex Impact" ].

Definition impact_values : list cell :=
  map (fun s => Str (py s)) [ "None"; "Low"; "Medium"; "High" ].

(** The flag columns the function adds to the frame, in order. *)
Definition flag_columns : list pystr := map py
  [ "GTI_Duplicate"; "Non_English_Found"; "Invalid_Country_Language";
    "Invalid_Age_Rating"; "Invalid_Date_Format"; "Impact_Column_Blank";
    "Impact_Column_Invalid" ].

(** The printed report: row number to the messages of the row. *)
Definition report := list (nat * list pystr).

Definition when (b : bool) (msg : pystr) : list pystr :=
  if b then [msg] else [].

Definition msg_missing : pystr := py "Missing required values".
Definition msg_duplicate (gti : cell) : pystr :=
  py "Duplicate GTI '" ++ str_ gti ++ py "'".
Definition msg_non_english : pystr :=
  py "Non-English characters found in text fields".
Definition msg_country_language : pystr :=
  py "Non-numeric value found in 'Countries' or 'Languages'".
Definition msg_age_rating (v : cell) : pystr :=
  py "Invalid Age Rating ID '" ++ str_ v ++ py "' (Allowed: 2, 9, 154, 147)".
Definition msg_date : pystr :=
  py "Invalid date format in 'Rating Date' (Expected: MM/DD/YYYY)".
Definition msg_impact_blank : pystr :=
  py "Impact columns cannot be blank (Allowed: 'None', 'Low', 'Medium', 'High')".
Definition msg_impact_invalid : pystr :=
  py "Impact column contains invalid values (Allowed: 'None', 'Low', 'Medium', 'High')".

(** [x.isna() | (x == '')] on one cell, and on a frame cell by cell *)
Definition blank (x : cell) : bool := isna x || py_eq x (Str []).

Section Rules.
Variable U : UnicodeDB.

(** The pattern of line 35: any number of characters among [a-z], [A-Z],
    [0-9], [\s], [. , & ( )], the two quote characters (the double quote
    is code point 34) and [-], between [^] and [$]. *)
Definition english_regex : regex :=
  Star (alts [ rng "a" "z"; rng "A" "Z"; rng "0" "9"; re_s U;
               chr ".,&()'"; code 34; chr "-" ]).

(** The pattern of line 47:
    [^(0[1-9]|1[0-2])/(0[1-9]|[12][0-9]|3[01])/\d{4}$] *)
Definition date_regex : regex :=
  seqs [ Alt (Cat (chr "0") (rng "1" "9")) (Cat (chr "1") (rng "0" "2"));
         chr "/";
         alts [ Cat (chr "0") (rng "1" "9");
                Cat (chr "12") (rng "0" "9");
                Cat (chr "3") (chr "01") ];
         chr "/";
         re_d U; re_d U; re_d U; re_d U ].

(** The messages of row [i], in the order of lines 72 to 87. *)
Definition row_errors (df : DataFrame)
    (missing_values dup non_english country_language age date
     impact_blank impact_invalid : mask) (i : nat) : list pystr :=
  when (nth i missing_values false) msg_missing ++
  when (nth i dup false) (msg_duplicate (at_ df i (py "GTI"))) ++
  when (nth i non_english false) msg_non_english ++
  when (nth i country_language false) msg_country_language ++
  when (nth i age false) (msg_age_rating (at_ df i (py "Age Rating ID"))) ++
  when (nth i date false) msg_date ++
  when (nth i impact_blank false) msg_impact_blank ++
  when (nth i impact_invalid false) msg_impact_invalid.

Definition validate_excel : M report :=
  df <- frame ;;
  (* lines 21-23 *)
  let missing_cols :=
    filter (fun col => negb (mem col (columns df))) required_columns in
  match missing_cols with
  | _ :: _ => raise (ValueError missing_cols)
  | [] =>
  (* lines 26-27 *)
  let gti := getcol df (py "GTI") in
  let duplicate_gtis := select (duplicated gti) gti in
  let dup := isin duplicate_gtis gti in
  assign (py "GTI_Duplicate") (map Bool dup) ;;;
  df <- frame ;;
  (* lines 30-32 *)
  let required_non_blank_columns :=
    filter (fun col => negb (pystr_eqb col (py "Other title names")))
           required_columns in
  let missing_values :=
    row_mask df (fun i =>
      existsb (fun c => blank (at_ df i c)) required_non_blank_columns) in
  (* lines 35-37 *)
  let non_english :=
    row_mask df (fun i =>
      existsb (fun c => py_eq (cell_match english_regex (at_ df i c))
                              (Bool false))
              text_columns) in
  assign (py "Non_English_Found") (map Bool non_english) ;;;
  df <- frame ;;
  (* line 40 *)
  not_countries <- lift (invert (str_isdigit U (getcol df (py "Countries")))) ;;
  not_languages <- lift (invert (str_isdigit U (getcol df (py "Languages")))) ;;
  let country_language := or_ not_countries not_languages in
  assign (py "Invalid_Country_Language") (map Bool country_language) ;;;
  df <- frame ;;
  (* lines 43-44 *)
  let age := map negb (isin valid_age_ratings (getcol df (py "Age Rating ID"))) in
  assign (py "Invalid_Age_Rating") (map Bool age) ;;;
  df <- frame ;;
  (* lines 47-48 *)
  date <- lift (invert (str_match date_regex (getcol df (py "Rating Date")))) ;;
  assign (py "Invalid_Date_Format") (map Bool date) ;;;
  df <- frame ;;
  (* lines 51-53 *)
  let impact_blank :=
    row_mask df (fun i =>
      existsb (fun c => blank (at_ df i c)) impact_columns) in
  assign (py "Impact_Column_Blank") (map Bool impact_blank) ;;;
  df <- frame ;;
  let impact_invalid :=
    map negb (row_mask df (fun i =>
      forallb (fun c => existsb (hash_eq (at_ df i c)) impact_values)
              impact_columns)) in
  assign (py "Impact_Column_Invalid") (map Bool impact_invalid) ;;;
  df <- frame ;;
  (* lines 56-65 *)
  let flagged :=
    or_ (or_ (or_ (or_ (or_ (or_ (or_ missing_values dup) non_english)
      country_language) age) date) impact_blank) impact_invalid in
  (* lines 68-92 *)
  ret (map (fun index =>
              (index + 1,
               row_errors df missing_values dup non_english country_language
                          age date impact_blank impact_invalid index))
           (index_where flagged))
  end.

(** ** The flags of a row, read off the loaded frame

    The flag of each rule as a test on row [i] of the frame that was
    loaded, for the statements about the report. *)

(** Line 40 and line 48 apply [~] to the result of a string method:
    they need the three columns free of empty cells. *)
Definition no_empty_cell (df : DataFrame) : bool :=
  strings df (py "Countries") && strings df (py "Languages") &&
  strings df (py "Rating Date").

Definition missing_value (df : DataFrame) (i : nat) : bool :=
  existsb (fun c => blank (at_ df i c))
    (filter (fun col => negb (pystr_eqb col (py "Other title names")))
            required_columns).

Definition gti_duplicate (df : DataFrame) (i : nat) : bool :=
  let gti := getcol df (py "GTI") in
  existsb (hash_eq (at_ df i (py "GTI"))) (select (duplicated gti) gti).

Definition non_english_found (df : DataFrame) (i : nat) : bool :=
  existsb (fun c => py_eq (cell_match english_regex (at_ df i c)) (Bool false))
          text_columns.

Definition invalid_country_language (df : DataFrame) (i : nat) : bool :=
  negb (digits U (at_ df i (py "Countries"))) ||
  negb (digits U (at_ df i (py "Languages"))).

Definition invalid_age_rating (df : DataFrame) (i : nat) : bool :=
  negb (existsb (hash_eq (at_ df i (py "Age Rating ID"))) valid_age_ratings).

Definition invalid_date_format (df : DataFrame) (i : nat) : bool :=
  negb (match at_ df i (py "Rating Date") with
        | Str v => re_match date_regex v
        | _ => false
        end).

Definition impact_column_blank (df : DataFrame) (i : nat) : bool :=
  existsb (fun c => blank (at_ df i c)) impact_columns.

Definition impact_column_invalid (df : DataFrame) (i : nat) : bool :=
  negb (forallb (fun c => existsb (hash_eq (at_ df i c)) impact_values)
                impact_columns).

Definition flagged (df : DataFrame) (i : nat) : bool :=
  missing_value df i || gti_duplicate df i || non_english_found df i ||
  invalid_country_language df i || invalid_age_rating df i ||
  invalid_date_format df i || impact_column_blank df i ||
  impact_column_invalid df i.

Definition messages (df : DataFrame) (i : nat) : list pystr :=
  when (missing_value df i) msg_missing ++
  when (gti_duplicate df i) (msg_duplicate (at_ df i (py "GTI"))) ++
  when (non_english_found df i) msg_non_english ++
  when (invalid_country_language df i) msg_country_language ++
  when (invalid_age_rating df i)
       (msg_age_rating (at_ df i (py "Age Rating ID"))) ++
  when (invalid_date_format df i) msg_date ++
  when (impact_column_blank df i) msg_impact_blank ++
  when (impact_column_invalid df i) msg_impact_invalid.

(** A frame that differs from the loaded one at most in flag columns. *)
Definition agrees (df' df : DataFrame) : Prop :=
  nrows df' = nrows df /\
  forall i c, mem c flag_columns = false -> at_ df' i c = at_ df i c.

(** The frame once all seven flag columns are assigned. *)
Definition flagged_frame (df : DataFrame) : DataFrame :=
  let n := seq 0 (nrows df) in
  let put c (p : nat -> bool) d := setcol d (py c) (map (fun i => Bool (p i)) n) in
  put "Impact_Column_Invalid" (impact_column_invalid df)
  (put "Impact_Column_Blank" (impact_column_blank df)
  (put "Invalid_Date_Format" (invalid_date_format df)
  (put "Invalid_Age_Rating" (invalid_age_rating df)
  (put "Invalid_Country_Language" (invalid_country_language df)
  (put "Non_English_Found" (non_english_found df)
  (put "GTI_Duplicate" (gti_duplicate df) df)))))).

End Rules.
End App.

(* ================================================================= *)
(** * Flask2.py: [validate_file] *)

Module Flask2.
Section Rules.
Variable U : UnicodeDB.

(** [r'^\d{2}/\d{2}/\d{4}$'] *)
Definition date_format : regex :=
  seqs [ re_d U; re_d U; chr "/"; re_d U; re_d U; chr "/";
         re_d U; re_d U; re_d U; re_d U ].

Definition valid_age_ratings : list cell :=
  map (fun v => Str (py v)) [ "2"; "9"; "154"; "147" ].

(** Rule 1, lines 33-41 *)
Definition blank_cells (df : DataFrame) : list pyval :=
  let columns_to_check :=
    filter (fun col => negb (pystr_eqb col (py "Other Title Name(s)")))
           (columns df) in
  let blank_cells :=
    row_mask df (fun i => existsb (fun c => isna (at_ df i c)) columns_to_check) in
  if existsb (fun b => b) blank_cells then
    map (fun row =>
           let missing_columns :=
             filter (fun c => isna (at_ df row c)) (columns df) in
           Dict [ ("row", Int (row + 2)); ("columns", names missing_columns) ])
        (index_where blank_cells)
  else [].

(** Rule 2, lines 44-52 *)
Definition non_english_characters (df : DataFrame) : list pyval :=
  let non_english_mask i c :=
    let x := at_ df i c in
    if negb (isna x) then find_non_english_chars (str_ x) else [] in
  flat_map (fun index =>
    flat_map (fun col =>
      match non_english_mask index col with
      | [] => []
      | non_english_chars =>
          [ Dict [ ("row", Int (index + 2)); ("column", Val (Str col));
                   ("invalid_chars", Val (Str non_english_chars)) ] ]
      end) (columns df)) (seq 0 (nrows df)).

(** Rule 3, lines 55-62 *)
Definition duplicate_gti (df : DataFrame) : list pyval :=
  if mem (py "GTI") (columns df) then
    let gti_col := getcol df (py "GTI") in
    let duplicate_gtis := select (duplicated gti_col) gti_col in
    map (fun gti =>
           let duplicate_rows := index_where (eq_scalar gti_col gti) in
           Dict [ ("GTI", Val gti); ("rows", row_numbers duplicate_rows) ])
        (unique duplicate_gtis)
  else [].

(** Rule 4, lines 65-72 *)
Definition invalid_country_language (df : DataFrame) : outcome (list pyval) :=
  if mem (py "Countries") (columns df) && mem (py "Languages") (columns df) then
    match invert (str_isdigit U (getcol df (py "Countries"))) with
    | Raises e => Raises e
    | Returns not_countries =>
    match invert (str_isdigit U (getcol df (py "Languages"))) with
    | Raises e => Raises e
    | Returns not_languages =>
        let invalid_rows := index_where (or_ not_countries not_languages) in
        Returns (map (fun row =>
                   Dict [ ("row", Int (row + 2));
                          ("Countries", Val (at_ df row (py "Countries")));
                          ("Languages", Val (at_ df row (py "Languages"))) ])
                 invalid_rows)
    end end
  else Returns [].

(** Rule 5, lines 75-82 *)
Definition invalid_age_rating (df : DataFrame) : list pyval :=
  if mem (py "Age Rating ID") (columns df) then
    let invalid_rows :=
      index_where (map negb (isin valid_age_ratings
                                  (getcol df (py "Age Rating ID")))) in
    map (fun row =>
           Dict [ ("row", Int (row + 2));
                  ("Age Rating ID", Val (at_ df row (py "Age Rating ID"))) ])
        invalid_rows
  else [].

(** Rule 6, lines 85-92 *)
Definition invalid_date_format (df : DataFrame) : outcome (list pyval) :=
  if mem (py "Rating Date") (columns df) then
    match invert (str_match date_format
                    (astype_str (getcol df (py "Rating Date")))) with
    | Raises e => Raises e
    | Returns m =>
        Returns (map (fun row =>
                   Dict [ ("row", Int (row + 2));
                          ("Rating Date", Val (at_ df row (py "Rating Date"))) ])
                 (index_where m))
    end
  else Returns [].

(** The function from line 20 on: the frame is loaded. *)
Definition validate_file (df : DataFrame) : outcome pyval :=
  let r1 := blank_cells df in
  let r2 := non_english_characters df in
  let r3 := duplicate_gti df in
  match invalid_country_language df with
  | Raises e => Raises e
  | Returns r4 =>
  let r5 := invalid_age_rating df in
  match invalid_date_format df with
  | Raises e => Raises e
  | Returns r6 =>
      Returns (Dict [ ("errors", Dict [
        ("blank_cells", PyList r1);
        ("non_english_characters", PyList r2);
        ("duplicate_gti", PyList r3);
        ("invalid_country_language", PyList r4);
        ("invalid_age_rating", PyList r5);
        ("invalid_date_format", PyList r6) ]) ])
  end end.

(** ** The rules as tests on the rows

    Rule 4 applies [~] to the result of a string method: it can run when
    Countries and Languages hold no empty cell, or when one of the two
    columns does not exist. *)
Definition numbers_filled (df : DataFrame) : bool :=
  negb (mem (py "Countries") (columns df) && mem (py "Languages") (columns df))
  || (strings df (py "Countries") && strings df (py "Languages")).

Definition country_language_rows (df : DataFrame) : list pyval :=
  if mem (py "Countries") (columns df) && mem (py "Languages") (columns df) then
    map (fun row =>
           Dict [ ("row", Int (row + 2));
                  ("Countries", Val (at_ df row (py "Countries")));
                  ("Languages", Val (at_ df row (py "Languages"))) ])
        (filter (fun i => negb (digits U (at_ df i (py "Countries"))) ||
                          negb (digits U (at_ df i (py "Languages"))))
                (seq 0 (nrows df)))
  else [].

Definition date_rows (df : DataFrame) : list pyval :=
  if mem (py "Rating Date") (columns df) then
    map (fun row =>
           Dict [ ("row", Int (row + 2));
                  ("Rating Date", Val (at_ df row (py "Rating Date"))) ])
        (filter (fun i => negb (re_match date_format
                                         (str_ (at_ df i (py "Rating Date")))))
                (seq 0 (nrows df)))
  else [].

Definition errors (df : DataFrame) : pyval :=
  Dict [ ("blank_cells", PyList (blank_cells df));
         ("non_english_characters", PyList (non_english_characters df));
         ("duplicate_gti", PyList (duplicate_gti df));
         ("invalid_country_language", PyList (country_language_rows df));
         ("invalid_age_rating", PyList (invalid_age_rating df));
         ("invalid_date_format", PyList (date_rows df)) ].

(** The cluster of an identifier. *)
Definition has_gti (v : cell) (e : pyval) : bool :=
  match get "GTI" e with
  | Some (Val x) => hash_eq x v
  | _ => false
  end.

(** The violation of a row number. *)
Definition on_row (r : nat) (e : pyval) : bool :=
  match get "row" e with
  | Some (Int r') => Nat.eqb r' r
  | _ => false
  end.

End Rules.
End Flask2.

(* ================================================================= *)
(** * app1.py: [validate_file] *)

Module app1.
Section Rules.
Variable U : UnicodeDB.

(** The pattern of line 36: any number of characters among [A-Z], [a-z],
    [0-9], [\s], [. , ! ? ; :], the two quote characters and [-],
    between [^] and [$]. *)
Definition english : regex :=
  Star (alts [ rng "A" "Z"; rng "a" "z"; rng "0" "9"; re_s U;
               chr ".,!?;:'"; code 34; chr "-" ]).

(** [r'^\d{2}/\d{2}/\d{4}$'] *)
Definition date_format : regex :=
  seqs [ re_d U; re_d U; chr "/"; re_d U; re_d U; chr "/";
         re_d U; re_d U; re_d U; re_d U ].

Definition valid_age_ratings : list cell :=
  map (fun v => Str (py v)) [ "2"; "9"; "154"; "147" ].

(** Rule 1, lines 29-33 *)
Definition blank_cells (df : DataFrame) : list pyval :=
  let blank_cells :=
    row_mask df (fun i => existsb (fun c => isna (at_ df i c)) (columns df)) in
  if existsb (fun b => b) blank_cells then
    let blank_rows := index_where blank_cells in
    let blank_columns :=
      filter (fun c => existsb isna (getcol df c)) (columns df) in
    map (fun row =>
           Dict [ ("row", Int (row + 2)); ("columns", names blank_columns) ])
        blank_rows
  else [].

(** Rule 2, lines 36-41 *)
Definition non_english_chars (df : DataFrame) : list pyval :=
  let non_english_mask i c :=
    let x := at_ df i c in
    if negb (isna x) then re_match english (str_ x) else true in
  let non_english_rows :=
    index_where (map negb
      (row_mask df (fun i => forallb (non_english_mask i) (columns df)))) in
  flat_map (fun row =>
    let invalid_columns :=
      filter (fun c => negb (non_english_mask row c)) (columns df) in
    map (fun col =>
           Dict [ ("row", Int (row + 2)); ("column", Val (Str col));
                  ("value", Val (Str (str_ (at_ df row col)))) ])
        invalid_columns) non_english_rows.

(** Rule 3, lines 44-48 *)
Definition duplicate_gtis (df : DataFrame) : list pyval :=
  let gti_col := getcol df (py "GTI") in
  let duplicate_gtis := select (duplicated gti_col) gti_col in
  match duplicate_gtis with
  | [] => []
  | _ :: _ =>
      map (fun gti =>
             let duplicate_rows := index_where (eq_scalar gti_col gti) in
             Dict [ ("GTI", Val (Str (str_ gti)));
                    ("rows", row_numbers duplicate_rows) ])
          (unique duplicate_gtis)
  end.

(** Rule 4, lines 51-54 *)
Definition invalid_country_language (df : DataFrame) : list pyval :=
  let invalid_country_language_mask :=
    map negb (and_ (str_isdigit U (getcol df (py "Countries")))
                   (str_isdigit U (getcol df (py "Languages")))) in
  let invalid_country_language_rows :=
    index_where invalid_country_language_mask in
  map (fun row =>
         Dict [ ("row", Int (row + 2));
                ("Countries", Val (Str (str_ (at_ df row (py "Countries")))));
                ("Languages", Val (Str (str_ (at_ df row (py "Languages"))))) ])
      invalid_country_language_rows.

(** Rule 5, lines 57-61 *)
Definition invalid_age_rating (df : DataFrame) : list pyval :=
  let invalid_age_rating_mask :=
    map negb (isin valid_age_ratings (getcol df (py "Age Rating ID"))) in
  map (fun row =>
         Dict [ ("row", Int (row + 2));
                ("Age Rating ID",
                 Val (Str (str_ (at_ df row (py "Age Rating ID"))))) ])
      (index_where invalid_age_rating_mask).

(** Rule 6, lines 64-69; line 65 assigns to the frame. *)
Definition invalid_date_format : M (list pyval) :=
  rating_date <- column (py "Rating Date") ;;
  assign (py "Rating Date") (astype_str rating_date) ;;;
  df <- frame ;;
  let invalid_date_mask :=
    map negb (str_match_na_false date_format (getcol df (py "Rating Date"))) in
  ret (map (fun row =>
              Dict [ ("row", Int (row + 2));
                     ("Rating Date",
                      Val (Str (str_ (at_ df row (py "Rating Date"))))) ])
           (index_where invalid_date_mask)).

(** The columns the function reads without a test that they exist. *)
Definition accessed_columns : list pystr := map py
  [ "GTI"; "Countries"; "Languages"; "Age Rating ID"; "Rating Date" ].

(** Line 44, [df[df.duplicated('GTI', keep=False)]], on a frame that may
    lack the column.  [duplicated] answers a mask without labels for an
    empty frame (no rows, or no columns) before it looks for the column:
    a frame without rows is selected with it and gives no row, a frame
    with rows and no columns cannot be aligned with it and
    [IndexingError] is raised.  On a frame that is not empty the missing
    column raises [KeyError]. *)
Definition selected_duplicates : M Series :=
  df <- frame ;;
  if nrows df =? 0 then ret []
  else
    match columns df with
    | [] => raise IndexingError
    | _ :: _ =>
        gti_col <- column (py "GTI") ;;
        ret (select (duplicated gti_col) gti_col)
    end.

(** The function from line 18 on: the frame is loaded. *)
Definition validate_file : M pyval :=
  df <- frame ;;
  let r1 := blank_cells df in
  let r2 := non_english_chars df in
  _ <- selected_duplicates ;;
  let r3 := duplicate_gtis df in
  _ <- column (py "Countries") ;;
  _ <- column (py "Languages") ;;
  let r4 := invalid_country_language df in
  _ <- column (py "Age Rating ID") ;;
  let r5 := invalid_age_rating df in
  r6 <- invalid_date_format ;;
  ret (Dict [ ("blank_cells", PyList r1);
              ("non_english_chars", PyList r2);
              ("duplicate_gtis", PyList r3);
              ("invalid_country_language", PyList r4);
              ("invalid_age_rating", PyList r5);
              ("invalid_date_format", PyList r6) ]).

End Rules.
End app1.

(* ================================================================= *)
(** * Flask.py: [validate_file]

    Rules 1 and 3 to 6 have the text of [app1.py], each behind a test
    that its columns exist; rule 2 extracts the characters outside
    ASCII. *)

Module Flask.
Section Rules.
Variable U : UnicodeDB.

(** Rule 2, lines 50-64.  Line 54 selects from the frame with a boolean
    frame, which masks cells and keeps every row, so the loop of line 56
    visits all rows. *)
Definition non_english_chars (df : DataFrame) : list pyval :=
  let non_english_mask i c :=
    let x := at_ df i c in
    if negb (isna x) then find_non_english_chars (str_ x) else [] in
  let non_english_rows := seq 0 (nrows df) in
  flat_map (fun row =>
    let invalid_columns :=
      filter (fun c => negb (pystr_eqb (non_english_mask row c) []))
             (columns df) in
    map (fun col =>
           Dict [ ("row", Int (row + 2)); ("column", Val (Str col));
                  ("value", Val (Str (str_ (at_ df row col))));
                  ("invalid_chars", Val (Str (non_english_mask row col))) ])
        invalid_columns) non_english_rows.

(** Rule 6, lines 97-106 *)
Definition invalid_date_format : M (list pyval) :=
  df <- frame ;;
  if mem (py "Rating Date") (columns df) then app1.invalid_date_format U
  else ret [].

(** The function from line 33 on: the frame is loaded. *)
Definition validate_file : M pyval :=
  df <- frame ;;
  let r1 := app1.blank_cells df in
  let r2 := non_english_chars df in
  let r3 :=
    if mem (py "GTI") (columns df) then app1.duplicate_gtis df else [] in
  let r4 :=
    if mem (py "Countries") (columns df) && mem (py "Languages") (columns df)
    then app1.invalid_country_language U df else [] in
  let r5 :=
    if mem (py "Age Rating ID") (columns df)
    then app1.invalid_age_rating df else [] in
  r6 <- invalid_date_format ;;
  ret (Dict [ ("blank_cells", PyList r1);
              ("non_english_chars", PyList r2);
              ("duplicate_gtis", PyList r3);
              ("invalid_country_language", PyList r4);
              ("invalid_age_rating", PyList r5);
              ("invalid_date_format", PyList r6) ]).

End Rules.
End Flask.

(* ================================================================= *)
(** * Flask3.py: [validate_file]

    The rules of [Flask2.py] rewritten: rule 1 looks at the six impact
    columns only, rules 4 to 6 test [notna()] first, and rule 2 walks
    the stacked index of a boolean frame through [zip] with a starred
    argument.  [DataFrame.map] is the method of pandas 2.1 and later;
    [stack] drops the cells that [where] has emptied. *)

Module Flask3.

(** The exceptions of lines 33 to 106. *)
Inductive error :=
| NotEnoughValues            (* ValueError: not enough values to unpack *)
| TooManyValues              (* ValueError: too many values to unpack *)
| NoSuchColumn (row : nat)   (* KeyError: [df.at] with a row label as column *)
| NotANumber                 (* TypeError: a column label plus 2 *)
| BadOperand.                (* TypeError: bad operand type for unary ~ *)

Inductive result (A : Type) :=
| Done (a : A)
| Fails (e : error).
Arguments Done {A} a.
Arguments Fails {A} e.

(** A label of the stacked index: of a row or of a column. *)
Inductive label :=
| Row (i : nat)
| Col (c : pystr).

Section Rules.
Variable U : UnicodeDB.

(** [str.isnumeric] on a character outside ASCII, from the Unicode
    character database. *)
Variable uni_isnumeric : N -> bool.

Definition isnumeric_char (c : N) : bool :=
  if is_ascii c then ascii_digit c else uni_isnumeric c.

(** [str.isnumeric]: at least one character and all of them numeric. *)
Definition py_isnumeric (s : pystr) : bool :=
  match s with
  | [] => false
  | _ => forallb isnumeric_char s
  end.

(** [s.str.isnumeric()] and [s.notna()] *)
Definition str_isnumeric (s : Series) : Series :=
  map (fun x => match x with Str v => Bool (py_isnumeric v) | _ => NaN end) s.
Definition notna (s : Series) : Series :=
  map (fun x => Bool (negb (isna x))) s.

(** [r'^\d{2}/\d{2}/\d{4}$'] *)
Definition date_format : regex :=
  seqs [ re_d U; re_d U; chr "/"; re_d U; re_d U; chr "/";
         re_d U; re_d U; re_d U; re_d U ].

Definition valid_age_ratings : list cell :=
  map (fun v => Str (py v)) [ "2"; "9"; "154"; "147" ].

Definition non_blank_columns : list pystr := map py
  [ "Violence Impact"; "Drug Use Impact"; "Themes Impact";
    "Language Impact"; "Nudity Impact"; "Sex Impact" ].

(** Rule 1, lines 50-56 *)
Definition blank_cells (df : DataFrame) : list pyval :=
  flat_map (fun col =>
    if mem col non_blank_columns then
      let blank_rows := index_where (map isna (getcol df col)) in
      map (fun row =>
             Dict [ ("row", Int (row + 2)); ("column", Val (Str col));
                    ("message",
                     Val (Str (py "Cannot be blank (None is allowed)."))) ])
          blank_rows
    else []) (columns df).

(** Rule 2, lines 59-63.  The mask of line 59 on one cell. *)
Definition non_english_mask (df : DataFrame) (i : nat) (c : pystr) : bool :=
  let x := at_ df i c in
  if negb (isna x) then existsb (fun ch => negb (is_ascii ch)) (str_ x)
  else false.

(** [non_english_mask.where(non_english_mask).stack().index.to_list()]:
    the (row, column) pairs of the cells that are [True], row by row. *)
Definition stacked (df : DataFrame) : list (nat * pystr) :=
  flat_map (fun i =>
    flat_map (fun c => if non_english_mask df i c then [(i, c)] else [])
             (columns df)) (seq 0 (nrows df)).

(** [zip] applied to the pairs as its arguments (the starred call of
    line 60): the tuple of the first components and the tuple of the
    second ones; nothing for no pairs. *)
Definition zip_star (pairs : list (nat * pystr)) : list (list label) :=
  match pairs with
  | [] => []
  | _ => [ map (fun p => Row (fst p)) pairs; map (fun p => Col (snd p)) pairs ]
  end.

(** The loop of lines 60-63 over the tuples [zip] yields: each tuple is
    unpacked into [row, col], then [row + 2] and [df.at[row, col]] are
    evaluated.  The columns of a loaded frame are labelled by strings. *)
Fixpoint non_english_loop (df : DataFrame) (tuples : list (list label))
    (acc : list pyval) : result (list pyval) :=
  match tuples with
  | [] => Done acc
  | [] :: _ | [_] :: _ => Fails NotEnoughValues
  | [row; col] :: tuples' =>
      match row, col with
      | Col _, _ => Fails NotANumber
      | Row _, Row label => Fails (NoSuchColumn label)
      | Row row, Col col =>
          non_english_loop df tuples'
            (acc ++ [ Dict [ ("row", Int (row + 2)); ("column", Val (Str col));
                             ("value", Val (at_ df row col)) ] ])
      end
  | _ :: _ => Fails TooManyValues
  end.

Definition non_english_chars (df : DataFrame) : result (list pyval) :=
  non_english_loop df (zip_star (stacked df)) [].

(** Rule 3, lines 66-72 *)
Definition duplicate_gti (df : DataFrame) : list pyval :=
  if mem (py "GTI") (columns df) then
    let gti_col := getcol df (py "GTI") in
    let duplicate_gtis := select (duplicated gti_col) gti_col in
    map (fun gti =>
           let duplicate_rows := index_where (eq_scalar gti_col gti) in
           Dict [ ("GTI", Val gti); ("rows", row_numbers duplicate_rows);
                  ("value", Val gti) ])
        (unique duplicate_gtis)
  else [].

(** Rule 4, lines 75-84 *)
Definition invalid_country_language (df : DataFrame) : list pyval :=
  if mem (py "Countries") (columns df) && mem (py "Languages") (columns df) then
    let countries := getcol df (py "Countries") in
    let languages := getcol df (py "Languages") in
    let invalid_country_language_mask :=
      map negb
        (and_ (map Bool
                 (and_ (map Bool (and_ (notna countries)
                                       (str_isnumeric countries)))
                       (notna languages)))
              (str_isnumeric languages)) in
    map (fun row =>
           Dict [ ("row", Int (row + 2));
                  ("Countries", Val (at_ df row (py "Countries")));
                  ("Languages", Val (at_ df row (py "Languages"))) ])
        (index_where invalid_country_language_mask)
  else [].

(** Rule 5, lines 87-94 *)
Definition invalid_age_rating (df : DataFrame) : list pyval :=
  if mem (py "Age Rating ID") (columns df) then
    let age := getcol df (py "Age Rating ID") in
    let invalid_age_rating_mask :=
      and_ (notna age) (map Bool (map negb (isin valid_age_ratings age))) in
    map (fun row =>
           Dict [ ("row", Int (row + 2));
                  ("Age Rating ID", Val (at_ df row (py "Age Rating ID"))) ])
        (index_where invalid_age_rating_mask)
  else [].

(** Rule 6, lines 97-104 *)
Definition invalid_date_format (df : DataFrame) : result (list pyval) :=
  if mem (py "Rating Date") (columns df) then
    let rating_date := getcol df (py "Rating Date") in
    match invert (str_match date_format (astype_str rating_date)) with
    | Raises _ => Fails BadOperand
    | Returns not_matched =>
        let invalid_date_mask := and_ (notna rating_date) (map Bool not_matched) in
        Done (map (fun row =>
                Dict [ ("row", Int (row + 2));
                       ("Rating Date", Val (at_ df row (py "Rating Date"))) ])
              (index_where invalid_date_mask))
    end
  else Done [].

(** The function from line 33 on: the frame is loaded. *)
Definition validate_file (df : DataFrame) : result pyval :=
  let r1 := blank_cells df in
  match non_english_chars df with
  | Fails e => Fails e
  | Done r2 =>
  let r3 := duplicate_gti df in
  let r4 := invalid_country_language df in
  let r5 := invalid_age_rating df in
  match invalid_date_format df with
  | Fails e => Fails e
  | Done r6 =>
      Done (Dict [ ("errors", Dict [
                      ("blank_cells", PyList r1);
                      ("non_english_chars", PyList r2);
                      ("duplicate_gti", PyList r3);
                      ("invalid_country_language", PyList r4);
                      ("invalid_age_rating", PyList r5);
                      ("invalid_date_format", PyList r6) ]);
                   ("warnings", Dict []) ])
  end end.

End Rules.
End Flask3.

(* ================================================================= *)
(** * File names and loading

    How the scripts choose a reader from the name of the file, and the
    test [allowed_file] of the upload routes.  [pathlib] and [os.path]
    are modelled as CPython 3.11 defines them on a POSIX system. *)

Module Files.

(** [c.lower()] for an ASCII character *)
Definition ascii_lower (c : N) : N :=
  if in_range 65 90 c then (c + 32)%N else c.

(** [s.rfind(c)] for one character; [None] is the result -1. *)
Fixpoint rfind (c : N) (s : pystr) : option nat :=
  match s with
  | [] => None
  | x :: s' =>
      match rfind c s' with
      | Some i => Some (S i)
      | None => if N.eqb x c then Some 0 else None
      end
  end.

(** [s.rsplit(c, 1)] *)
Definition rsplit1 (c : N) (s : pystr) : list pystr :=
  match rfind c s with
  | Some i => [ firstn i s; skipn (S i) s ]
  | None => [ s ]
  end.

(** [s.split(c)] *)
Fixpoint split (c : N) (s : pystr) : list pystr :=
  match s with
  | [] => [ [] ]
  | x :: s' =>
      if N.eqb x c then [] :: split c s'
      else match split c s' with
           | h :: t => (x :: h) :: t
           | [] => [ [x] ]
           end
  end.

(** [Path(p).name]: the last component of [p] that is neither empty
    nor a single dot, or the empty string. *)
Definition path_name (p : pystr) : pystr :=
  last (filter (fun x => negb (pystr_eqb x []) && negb (pystr_eqb x (py ".")))
               (split 47 p)) [].

(** [Path(p).suffix]: with [i = name.rfind('.')], the text [name[i:]]
    when [0 < i < len(name) - 1]. *)
Definition suffix (p : pystr) : pystr :=
  let name := path_name p in
  match rfind 46 name with
  | Some i =>
      if (0 <? i) && (i <? List.length name - 1) then skipn i name else []
  | None => []
  end.

(** [os.path.splitext(p)[-1]]: from the last dot, when it lies after the
    last slash and a character other than a dot stands between the
    two. *)
Definition splitext_ext (p : pystr) : pystr :=
  let filenameIndex :=
    match rfind 47 p with Some sepIndex => S sepIndex | None => 0 end in
  match rfind 46 p with
  | Some dotIndex =>
      if (filenameIndex <=? dotIndex) &&
         existsb (fun c => negb (N.eqb c 46))
                 (firstn (dotIndex - filenameIndex) (skipn filenameIndex p))
      then skipn dotIndex p
      else []
  | None => []
  end.

(** [os.path.join(a, b)] *)
Definition join (a b : pystr) : pystr :=
  match b with
  | 47%N :: _ => b
  | _ =>
      match a with
      | [] => b
      | _ => if N.eqb (last a 0%N) 47 then a ++ b else a ++ 47%N :: b
      end
  end.

(** [Flask3.py] lines 119-123: the path under which [upload_file] saves
    an accepted upload and hands it to [validate_file]. *)
Definition upload_path (filename : pystr) : pystr :=
  join (py "uploads") filename.

(** What a reader of pandas delivers: a frame, or an exception with its
    message. *)
Inductive read_result :=
| Loaded (df : DataFrame)
| ReadError (message : pystr).

(** The keyword arguments of a call, as written. *)
Definition kwargs := list (string * string).

(** How a call of a script ends when it starts from a path. *)
Inductive failure :=
| ReaderRaised (message : pystr)   (* an exception of a reader, not caught *)
| UnsupportedFormat                (* the [ValueError] of the last branch *)
| RuleRaised (e : exn)
| RuleFailed (e : Flask3.error).

Inductive run (A : Type) :=
| Ok (a : A)
| Failed (f : failure).
Arguments Ok {A} a.
Arguments Failed {A} f.

Section Loading.

(** [str.lower] on a string with a character outside ASCII, from the
    Unicode character database. *)
Variable uni_lower : pystr -> pystr.

(** The readers [pd.read_excel] and [pd.read_csv]. *)
Variable read_excel : kwargs -> pystr -> read_result.
Variable read_csv : kwargs -> pystr -> read_result.

Variable U : UnicodeDB.
Variable uni_isnumeric : N -> bool.

(** [s.lower()] *)
Definition lower (s : pystr) : pystr :=
  if forallb is_ascii s then map ascii_lower s else uni_lower s.

Definition ALLOWED_EXTENSIONS : list pystr := [ py "xlsx"; py "csv" ].

(** [Flask.py] lines 18-19, [Flask3.py] lines 16-17.  [None] stands for
    the [IndexError] of an index 1 that the split lacks. *)
Definition allowed_file (filename : pystr) : option bool :=
  if existsb (N.eqb 46) filename then
    match nth_error (rsplit1 46 filename) 1 with
    | Some ext => Some (mem (lower ext) ALLOWED_EXTENSIONS)
    | None => None
    end
  else Some false.

(** [Fileformat.py]: [load_file] *)
Definition load_file (file_path : pystr) : run DataFrame :=
  let ext := lower (splitext_ext file_path) in
  if pystr_eqb ext (py ".xlsx") then
    match read_excel [ ("dtype", "str") ] file_path with
    | Loaded df => Ok df
    | ReadError m => Failed (ReaderRaised m)
    end
  else if pystr_eqb ext (py ".csv") then
    match read_csv [ ("dtype", "str") ] file_path with
    | Loaded df => Ok df
    | ReadError m => Failed (ReaderRaised m)
    end
  else Failed UnsupportedFormat.

(** The branch on [Path(file_path).suffix.lower()] with which every
    [validate_file] starts; [csv_arguments] are the keyword arguments
    the script passes to [pd.read_csv].  [None]: the last branch. *)
Definition load (csv_arguments : kwargs) (file_path : pystr)
  : option read_result :=
  let file_extension := lower (suffix file_path) in
  if pystr_eqb file_extension (py ".xlsx") then
    Some (read_excel [ ("dtype", "str") ] file_path)
  else if pystr_eqb file_extension (py ".csv") then
    Some (read_csv csv_arguments file_path)
  else None.

(** [app1.py]: [validate_file], lines 6-75 *)
Definition app1_validate_file (file_path : pystr) : run pyval :=
  match load [ ("dtype", "str") ] file_path with
  | None => Failed UnsupportedFormat
  | Some (ReadError m) => Failed (ReaderRaised m)
  | Some (Loaded df) =>
      match fst (app1.validate_file U df) with
      | Returns r => Ok r
      | Raises e => Failed (RuleRaised e)
      end
  end.

(** [Flask.py]: [validate_file], lines 22-108 *)
Definition flask_validate_file (file_path : pystr) : run pyval :=
  match load [ ("dtype", "str"); ("encoding", "latin1"); ("errors", "replace") ]
             file_path with
  | None =>
      Ok (Dict [ ("error",
                  Val (Str (py
                    "Unsupported file format. Only .xlsx and .csv are supported."))) ])
  | Some (ReadError m) => Failed (ReaderRaised m)
  | Some (Loaded df) =>
      match fst (Flask.validate_file U df) with
      | Returns r => Ok r
      | Raises e => Failed (RuleRaised e)
      end
  end.

(** [Flask2.py]: [validate_file], lines 6-95; the readers run inside
    [try], and [except Exception] returns the message. *)
Definition flask2_validate_file (file_path : pystr) : run pyval :=
  match load [ ("dtype", "str"); ("encoding", "utf-8"); ("errors", "ignore") ]
             file_path with
  | None =>
      Ok (Dict [ ("error",
                  Val (Str (py
                    "Unsupported file format. Only .xlsx and .csv are allowed."))) ])
  | Some (ReadError m) => Ok (Dict [ ("error", Val (Str m)) ])
  | Some (Loaded df) =>
      match Flask2.validate_file U df with
      | Returns r => Ok r
      | Raises e => Failed (RuleRaised e)
      end
  end.

(** [Flask3.py]: [validate_file], lines 19-106 *)
Definition flask3_validate_file (file_path : pystr) : run pyval :=
  match load [ ("dtype", "str"); ("encoding", "utf-8"); ("errors", "ignore") ]
             file_path with
  | None =>
      Ok (Dict [ ("error",
                  Val (Str (py
                    "Unsupported file format. Only .xlsx and .csv are allowed."))) ])
  | Some (ReadError m) => Ok (Dict [ ("error", Val (Str m)) ])
  | Some (Loaded df) =>
      match Flask3.validate_file U uni_isnumeric df with
      | Flask3.Done r => Ok r
      | Flask3.Fails e => Failed (RuleFailed e)
      end
  end.

End Loading.
End Files.

(* ================================================================= *)
(** * Sample data *)

(** A frame from a header and rows, as a loader delivers it. *)
Definition from_rows (header : list string) (rows : list (list cell))
  : DataFrame :=
  {| nrows := List.length rows;
     cols := map (fun j => (py (nth j header EmptyString), map (fun r => nth j r NaN) rows))
                 (seq 0 (List.length header)) |}.

(** A cell that holds the text [v]. *)
Definition txt (v : string) : cell := Str (py v).

(** A Unicode table that knows no digits or spaces outside ASCII. *)
Definition ascii_only : UnicodeDB :=
  {| uni_isdigit := fun _ => false;
     uni_decimal := fun _ => false;
     uni_isspace := fun _ => false |}.

Definition app_header : list string :=
  [ "GTI"; "Entity"; "Title Name"; "Other title names"; "Duration";
    "Producers"; "Directors"; "Production Company Name"; "Year of Production";
    "Countries"; "Languages"; "Is Version Original"; "Age Rating ID";
    "Content Descriptors"; "Violence Impact"; "Drug Use Impact";
    "Themes Impact"; "Language Impact"; "Nudity Impact"; "Sex Impact";
    "ACB Rated"; "Different Version Production Exists"; "Rating Date" ].

(** A row that breaks no rule, given its identifier, age rating and
    rating date. *)
Definition good_row (gti age date : cell) : list cell :=
  [ gti; txt "Film"; txt "A Title"; NaN; txt "90";
    txt "P. Roe"; txt "D. Doe"; txt "Studio & Co"; txt "2020";
    txt "36"; txt "12"; txt "Yes"; age;
    txt "None"; txt "None"; txt "Low"; txt "Medium"; txt "High"; txt "None"; txt "None";
    txt "Yes"; txt "No"; date ].

(** Frames for the examples. *)

(** Two good rows but for the age rating of the first, which is 10. *)
Definition age_ten_frame : DataFrame :=
  from_rows app_header
    [ good_row (txt "A1") (txt "10") (txt "01/15/2024");
      good_row (txt "A2") (txt "2") (txt "02/30/2024") ].

(** Five good rows whose age ratings are 2, 9, 154, 147 and 10. *)
Definition age_ratings_frame : DataFrame :=
  from_rows app_header
    [ good_row (txt "A1") (txt "2") (txt "01/15/2024");
      good_row (txt "A2") (txt "9") (txt "01/16/2024");
      good_row (txt "A3") (txt "154") (txt "01/17/2024");
      good_row (txt "A4") (txt "147") (txt "01/18/2024");
      good_row (txt "A5") (txt "10") (txt "01/19/2024") ].

(** A frame without the columns GTI and Rating Date. *)
Definition no_gti_frame : DataFrame :=
  from_rows [ "Entity"; "Title Name" ] [ [ txt "Film"; txt "A Title" ] ].

(** One good row but for its rating date, which is empty. *)
Definition absent_date_frame : DataFrame :=
  from_rows app_header [ good_row (txt "A1") (txt "2") NaN ].

(** An empty sheet under the full header. *)
Definition empty_frame : DataFrame := from_rows app_header [].

(** The report of [app1.validate_file] on a frame that has the columns
    it reads. *)
Definition app1_report (U : UnicodeDB) (df : DataFrame) : pyval :=
  let df' := setcol df (py "Rating Date")
                    (astype_str (getcol df (py "Rating Date"))) in
  Dict [ ("blank_cells", PyList (app1.blank_cells df));
         ("non_english_chars", PyList (app1.non_english_chars U df));
         ("duplicate_gtis", PyList (app1.duplicate_gtis df));
         ("invalid_country_language", PyList (app1.invalid_country_language U df));
         ("invalid_age_rating", PyList (app1.invalid_age_rating df));
         ("invalid_date_format",
          PyList (map (fun row =>
              Dict [ ("row", Int (row + 2));
                     ("Rating Date",
                      Val (Str (str_ (at_ df' row (py "Rating Date"))))) ])
            (index_where (map negb (str_match_na_false (app1.date_format U)
                                      (getcol df' (py "Rating Date"))))))) ].

(** A cell that [str.isdigit] rejects: empty, the empty string, or a
    string with a character that is not a digit. *)
Definition not_all_digits (U : UnicodeDB) (x : cell) : Prop :=
  x = NaN \/ x = Str [] \/
  exists v ch, x = Str v /\ In ch v /\ isdigit_char U ch = false.

(** Letters in Countries in the first row, an empty Languages cell in
    the second. *)
Definition bad_numbers_frame : DataFrame :=
  from_rows [ "GTI"; "Countries"; "Languages"; "Age Rating ID"; "Rating Date" ]
    [ [ txt "A1"; txt "AU"; txt "12"; txt "2"; txt "01/15/2024" ];
      [ txt "A2"; txt "36"; NaN; txt "9"; txt "02/30/2024" ] ].

(** The entry of Python's Unicode table for U+00B2, the superscript two:
    [str.isdigit] takes it for a digit, and it is no decimal digit (its
    category is No, not Nd). *)
Definition superscript_two : N := 178.

Definition superscript_table : UnicodeDB :=
  {| uni_isdigit := N.eqb superscript_two;
     uni_decimal := fun _ => false;
     uni_isspace := fun _ => false |}.

(** One row whose Countries cell is the superscript two. *)
Definition superscript_frame : DataFrame :=
  from_rows [ "GTI"; "Countries"; "Languages"; "Age Rating ID"; "Rating Date" ]
    [ [ txt "A1"; Str [ superscript_two ]; txt "12"; txt "2";
        txt "01/15/2024" ] ].

(** A sheet without rows and without the column GTI. *)
Definition header_only_frame : DataFrame :=
  from_rows [ "Countries"; "Languages"; "Age Rating ID"; "Rating Date" ] [].


(** The report of [Flask.validate_file]. *)
Definition flask_report (U : UnicodeDB) (df : DataFrame) : pyval :=
  let df' := if mem (py "Rating Date") (columns df)
             then setcol df (py "Rating Date")
                         (astype_str (getcol df (py "Rating Date")))
             else df in
  Dict [ ("blank_cells", PyList (app1.blank_cells df));
         ("non_english_chars", PyList (Flask.non_english_chars df));
         ("duplicate_gtis",
          PyList (if mem (py "GTI") (columns df)
                  then app1.duplicate_gtis df else []));
         ("invalid_country_language",
          PyList (if mem (py "Countries") (columns df) &&
                     mem (py "Languages") (columns df)
                  then app1.invalid_country_language U df else []));
         ("invalid_age_rating",
          PyList (if mem (py "Age Rating ID") (columns df)
                  then app1.invalid_age_rating df else []));
         ("invalid_date_format",
          PyList (if mem (py "Rating Date") (columns df)
                  then map (fun row =>
                         Dict [ ("row", Int (row + 2));
                                ("Rating Date",
                                 Val (Str (str_ (at_ df' row (py "Rating Date"))))) ])
                       (index_where (map negb
                          (str_match_na_false (app1.date_format U)
                             (getcol df' (py "Rating Date")))))
                  else [])) ].



(** The identifier X in rows 3, 7 and 9 of ten rows (counted from 0). *)
Definition gti_row (g : string) : list cell := [ txt g; txt "36"; txt "12" ].
Definition triple_frame : DataFrame :=
  from_rows [ "GTI"; "Countries"; "Languages" ]
    [ gti_row "G0"; gti_row "G1"; gti_row "G2"; gti_row "X"; gti_row "G4";
      gti_row "G5"; gti_row "G6"; gti_row "X"; gti_row "G8"; gti_row "X" ].

(** Two rows without an identifier and two rows that share one. *)
Definition absent_gti_frame : DataFrame :=
  from_rows [ "GTI"; "Countries"; "Languages" ]
    [ [ NaN; txt "36"; txt "12" ]; gti_row "X";
      [ NaN; txt "36"; txt "12" ]; gti_row "X" ].


(** Row 0 lacks only its other title names, row 1 lacks them and its
    identifier, row 2 lacks nothing. *)
Definition blank_frame : DataFrame :=
  from_rows [ "GTI"; "Title Name"; "Other Title Name(s)" ]
    [ [ txt "A1"; txt "One"; NaN ];
      [ NaN; txt "Two"; NaN ];
      [ txt "A3"; txt "Three"; txt "Drei" ] ].

(** ** The date format in the words of the specification

    MM/DD/YYYY where MM is 01 to 12 and DD is 01 to 31: two decimal
    digits that read as a number from 1 to 12, a slash, two decimal
    digits that read as a number from 1 to 31, a slash, and four
    digits. *)
Definition two_digit_number (a b : N) : N := (10 * (a - 48) + (b - 48))%N.

Definition in_words (lo hi : N) (a b : N) : bool :=
  ascii_digit a && ascii_digit b &&
  N.leb lo (two_digit_number a b) && N.leb (two_digit_number a b) hi.

Definition mm_dd_yyyy (U : UnicodeDB) (t : pystr) : bool :=
  match t with
  | [m1; m2; s1; d1; d2; s2; y1; y2; y3; y4] =>
      in_words 1 12 m1 m2 && N.eqb s1 47 &&
      in_words 1 31 d1 d2 && N.eqb s2 47 &&
      is_decimal U y1 && is_decimal U y2 && is_decimal U y3 && is_decimal U y4
  | _ => false
  end.

(** The date pattern of the other scripts in words: two digits, a slash,
    two digits, a slash, four digits. *)
Definition dd_dd_dddd (U : UnicodeDB) (t : pystr) : bool :=
  match t with
  | [a; b; s1; c; d; s2; y1; y2; y3; y4] =>
      is_decimal U a && is_decimal U b && N.eqb s1 47 &&
      is_decimal U c && is_decimal U d && N.eqb s2 47 &&
      is_decimal U y1 && is_decimal U y2 && is_decimal U y3 && is_decimal U y4
  | _ => false
  end.

(** ** The rules in words, for the properties of the reports *)

(** A list of row numbers that grows strictly. *)
Fixpoint ascending (l : list nat) : bool :=
  match l with
  | a :: (b :: _) as t => Nat.ltb a b && ascending t
  | _ => true
  end.

(** A character the pattern of [App.py] line 35 admits: a letter [a-z]
    or [A-Z], a digit, white space, one of [. , & ( ) '], the double
    quote (code point 34) or the hyphen. *)
Definition app_english_char (U : UnicodeDB) (c : N) : bool :=
  in_range 97 122 c || in_range 65 90 c || in_range 48 57 c || is_space U c ||
  existsb (N.eqb c) (py ".,&()'") || N.eqb c 34 || N.eqb c 45.

(** A character the pattern of [app1.py] line 36 admits: a letter, a
    digit, white space, one of [. , ! ? ; : '], the double quote or the
    hyphen. *)
Definition app1_english_char (U : UnicodeDB) (c : N) : bool :=
  in_range 65 90 c || in_range 97 122 c || in_range 48 57 c || is_space U c ||
  existsb (N.eqb c) (py ".,!?;:'") || N.eqb c 34 || N.eqb c 45.

(** Every character of every cell is ASCII. *)
Definition ascii_frame (df : DataFrame) : bool :=
  forallb (fun i =>
    forallb (fun c => forallb is_ascii (str_ (at_ df i c))) (columns df))
    (seq 0 (nrows df)).

(** ** The rules of [Flask3.py] as tests on the rows *)

(** A cell that holds a numeric string. *)
Definition flask3_numeric (uni_isnumeric : N -> bool) (x : cell) : bool :=
  match x with Str v => Flask3.py_isnumeric uni_isnumeric v | _ => false end.

Definition flask3_country_language_rows (uni_isnumeric : N -> bool)
    (df : DataFrame) : list pyval :=
  if mem (py "Countries") (columns df) && mem (py "Languages") (columns df) then
    map (fun row =>
           Dict [ ("row", Int (row + 2));
                  ("Countries", Val (at_ df row (py "Countries")));
                  ("Languages", Val (at_ df row (py "Languages"))) ])
        (filter (fun i =>
                   negb (flask3_numeric uni_isnumeric (at_ df i (py "Countries")) &&
                         flask3_numeric uni_isnumeric (at_ df i (py "Languages"))))
                (seq 0 (nrows df)))
  else [].

Definition flask3_age_rows (df : DataFrame) : list pyval :=
  if mem (py "Age Rating ID") (columns df) then
    map (fun row =>
           Dict [ ("row", Int (row + 2));
                  ("Age Rating ID", Val (at_ df row (py "Age Rating ID"))) ])
        (filter (fun i =>
                   negb (isna (at_ df i (py "Age Rating ID"))) &&
                   negb (existsb (hash_eq (at_ df i (py "Age Rating ID")))
                                 Flask3.valid_age_ratings))
                (seq 0 (nrows df)))
  else [].

Definition flask3_date_rows (U : UnicodeDB) (df : DataFrame) : list pyval :=
  if mem (py "Rating Date") (columns df) then
    map (fun row =>
           Dict [ ("row", Int (row + 2));
                  ("Rating Date", Val (at_ df row (py "Rating Date"))) ])
        (filter (fun i =>
                   negb (isna (at_ df i (py "Rating Date"))) &&
                   negb (re_match (Flask3.date_format U)
                                  (str_ (at_ df i (py "Rating Date")))))
                (seq 0 (nrows df)))
  else [].

(** The report of [Flask3.validate_file]. *)
Definition flask3_report (U : UnicodeDB) (uni_isnumeric : N -> bool)
    (df : DataFrame) : pyval :=
  Dict [ ("errors", Dict [
            ("blank_cells", PyList (Flask3.blank_cells df));
            ("non_english_chars", PyList []);
            ("duplicate_gti", PyList (Flask3.duplicate_gti df));
            ("invalid_country_language",
             PyList (flask3_country_language_rows uni_isnumeric df));
            ("invalid_age_rating", PyList (flask3_age_rows df));
            ("invalid_date_format", PyList (flask3_date_rows U df)) ]);
         ("warnings", Dict []) ].

(** ** More sample data *)

(** A row under the header of [App.py] given its identifier, its title
    and its Violence Impact; the other cells break no rule. *)
Definition app_row (gti title violence : cell) : list cell :=
  [ gti; txt "Film"; title; NaN; txt "90";
    txt "P. Roe"; txt "D. Doe"; txt "Studio & Co"; txt "2020";
    txt "36"; txt "12"; txt "Yes"; txt "2";
    txt "None"; violence; txt "Low"; txt "Medium"; txt "High"; txt "None"; txt "None";
    txt "Yes"; txt "No"; txt "01/15/2024" ].

(** Two rows with the same identifier: the first without a Violence
    Impact, the second with an accented title and the impact Severe. *)
Definition impact_frame : DataFrame :=
  from_rows app_header
    [ app_row (txt "A1") (txt "A Title") NaN;
      app_row (txt "A1") (Str (py "Am" ++ [233%N] ++ py "lie")) (txt "Severe") ].

(** A month 13 and a day 45, an empty age rating and date, and an ISO
    date. *)
Definition loose_date_frame : DataFrame :=
  from_rows [ "GTI"; "Countries"; "Languages"; "Age Rating ID"; "Rating Date" ]
    [ [ txt "A1"; txt "36"; txt "12"; txt "2"; txt "13/45/2024" ];
      [ txt "A2"; txt "36"; txt "12"; NaN; NaN ];
      [ txt "A3"; txt "36"; txt "12"; txt "10"; txt "2024-01-15" ] ].

(** A row without identifier and without Violence Impact. *)
Definition blank_impact_frame : DataFrame :=
  from_rows [ "GTI"; "Violence Impact" ] [ [ NaN; NaN ] ].

(** Tables of the Unicode database that know nothing outside ASCII. *)
Definition ascii_numeric : N -> bool := fun _ => false.
Definition ascii_lowering : pystr -> pystr := fun s => s.

(** Readers: [pd.read_csv] has no parameter [errors] and refuses the
    keyword; otherwise each reader delivers the sample frame. *)
Definition sample_read_excel : Files.kwargs -> pystr -> Files.read_result :=
  fun _ _ => Files.Loaded bad_numbers_frame.
Definition sample_read_csv : Files.kwargs -> pystr -> Files.read_result :=
  fun arguments _ =>
    if existsb (String.eqb "errors") (map fst arguments)
    then Files.ReadError
           (py "read_csv() got an unexpected keyword argument 'errors'")
    else Files.Loaded bad_numbers_frame.

(* ================================================================= *)
(** * Facts about the pandas operations *)

Lemma pystr_eqb_eq (a b : pystr) : pystr_eqb a b = true <-> a = b.
Proof.
  revert b; induction a as [|x a IH]; intros [|y b]; simpl; split;
    try discriminate; try reflexivity.
  - intros H. apply andb_true_iff in H as [Hx Hab].
    apply N.eqb_eq in Hx. apply IH in Hab. congruence.
  - intros H. injection H as -> ->. rewrite N.eqb_refl. simpl. now apply IH.
Qed.

Lemma pystr_eqb_refl (a : pystr) : pystr_eqb a a = true.
Proof. now apply pystr_eqb_eq. Qed.

Lemma pystr_eqb_neq (a b : pystr) : pystr_eqb a b = false <-> a <> b.
Proof.
  split.
  - intros H E. apply pystr_eqb_eq in E. congruence.
  - intros H. destruct (pystr_eqb a b) eqn:E; [|reflexivity].
    apply pystr_eqb_eq in E. contradiction.
Qed.

Lemma mem_In (c : pystr) (l : list pystr) : mem c l = true <-> In c l.
Proof.
  unfold mem. rewrite existsb_exists. split.
  - intros [x [Hx E]]. apply pystr_eqb_eq in E. now subst.
  - intros H. exists c. split; [assumption | apply pystr_eqb_refl].
Qed.

Lemma py_eq_Str (x : cell) (v : pystr) : py_eq x (Str v) = true <-> x = Str v.
Proof.
  destruct x as [|w|b]; simpl; split; try discriminate.
  - intros H. apply pystr_eqb_eq in H. now subst.
  - intros H. injection H as ->. apply pystr_eqb_refl.
Qed.

Lemma py_eq_NaN_l (y : cell) : py_eq NaN y = false.
Proof. reflexivity. Qed.

Lemma hash_eq_eq (x y : cell) : hash_eq x y = true <-> x = y.
Proof.
  destruct x as [|v|b], y as [|w|c]; simpl; split;
    try discriminate; try reflexivity.
  - intros H. apply pystr_eqb_eq in H. now subst.
  - intros H. injection H as ->. apply pystr_eqb_refl.
  - intros H. apply Bool.eqb_prop in H. now subst.
  - intros H. injection H as ->. apply Bool.eqb_reflx.
Qed.

Lemma hash_eq_refl (x : cell) : hash_eq x x = true.
Proof. now apply hash_eq_eq. Qed.

Lemma hash_eq_sym (x y : cell) : hash_eq x y = hash_eq y x.
Proof.
  destruct (hash_eq x y) eqn:E1, (hash_eq y x) eqn:E2; try reflexivity.
  - apply hash_eq_eq in E1. subst. rewrite hash_eq_refl in E2. discriminate.
  - apply hash_eq_eq in E2. subst. rewrite hash_eq_refl in E1. discriminate.
Qed.

Lemma existsb_hash_eq_In (x : cell) (l : list cell) :
  existsb (hash_eq x) l = true <-> In x l.
Proof.
  rewrite existsb_exists. split.
  - intros [y [Hy E]]. apply hash_eq_eq in E. now subst.
  - intros H. exists x. split; [assumption | apply hash_eq_refl].
Qed.

(** Boolean selections *)

Lemma index_from_map_seq (p : nat -> bool) (n k : nat) :
  index_from k (map p (seq k n)) = filter p (seq k n).
Proof.
  revert k; induction n as [|n IH]; intros k; simpl; [reflexivity|].
  rewrite IH. reflexivity.
Qed.

Lemma index_where_map_seq (p : nat -> bool) (n : nat) :
  index_where (map p (seq 0 n)) = filter p (seq 0 n).
Proof. apply index_from_map_seq. Qed.

Lemma index_where_row_mask (df : DataFrame) (p : nat -> bool) :
  index_where (row_mask df p) = filter p (seq 0 (nrows df)).
Proof. apply index_where_map_seq. Qed.

Lemma map_getcol {A : Type} (f : cell -> A) (df : DataFrame) (c : pystr) :
  map f (getcol df c) = map (fun i => f (at_ df i c)) (seq 0 (nrows df)).
Proof. unfold getcol. apply map_map. Qed.

Lemma select_map {A : Type} (p : A -> bool) (l : list A) :
  select (map p l) l = filter p l.
Proof.
  induction l as [|x l IH]; simpl; [reflexivity|]. now rewrite IH.
Qed.

Lemma or_map {A : Type} (f g : A -> bool) (l : list A) :
  or_ (map f l) (map g l) = map (fun x => f x || g x) l.
Proof.
  induction l as [|x l IH]; simpl; [reflexivity|]. now rewrite IH.
Qed.

Lemma and_map {A : Type} (f g : A -> cell) (l : list A) :
  and_ (map f l) (map g l) = map (fun x => truth (f x) && truth (g x)) l.
Proof.
  induction l as [|x l IH]; simpl; [reflexivity|]. now rewrite IH.
Qed.

Lemma nth_map_seq {A : Type} (f : nat -> A) (n i : nat) (d : A) :
  i < n -> nth i (map f (seq 0 n)) d = f i.
Proof.
  intros H. rewrite (nth_indep _ d (f 0)) by (rewrite length_map, length_seq; lia).
  rewrite (map_nth f (seq 0 n) 0 i). now rewrite seq_nth.
Qed.

Lemma filter_eqb_seq (i n : nat) :
  i < n -> filter (Nat.eqb i) (seq 0 n) = [i].
Proof.
  intros H.
  assert (G : forall k m, k <= i < k + m -> filter (Nat.eqb i) (seq k m) = [i]).
  { intros k m; revert k; induction m as [|m IH]; intros k Hk; [lia|].
    simpl. destruct (Nat.eqb i k) eqn:E.
    - apply Nat.eqb_eq in E. subst k. f_equal.
      clear. assert (Z : forall j m', i < j -> filter (Nat.eqb i) (seq j m') = []).
      { intros j m'; revert j; induction m' as [|m' IH']; intros j Hj; simpl;
          [reflexivity|].
        destruct (Nat.eqb i j) eqn:E; [apply Nat.eqb_eq in E; lia|].
        apply IH'. lia. }
      apply Z. lia.
    - apply Nat.eqb_neq in E. apply IH. lia. }
  apply G. lia.
Qed.

Lemma filter_eqb_filter_seq (p : nat -> bool) (i n : nat) :
  i < n ->
  filter (Nat.eqb i) (filter p (seq 0 n)) = if p i then [i] else [].
Proof.
  intros H.
  assert (E : filter (Nat.eqb i) (filter p (seq 0 n))
              = filter p (filter (Nat.eqb i) (seq 0 n))).
  { generalize (seq 0 n). intros l. induction l as [|x l IH]; simpl; [reflexivity|].
    destruct (p x) eqn:Px, (Nat.eqb i x) eqn:Ex; simpl;
      rewrite ?Px, ?Ex, ?IH; reflexivity. }
  rewrite E, filter_eqb_seq by assumption. simpl. reflexivity.
Qed.

(** [~] on a series of booleans *)

Lemma all_bool_map {A : Type} (f : A -> bool) (l : list A) :
  all_bool (map (fun x => Bool (f x)) l) = Some (map f l).
Proof.
  induction l as [|x l IH]; simpl; [reflexivity|]. now rewrite IH.
Qed.

Lemma all_bool_NaN (s : Series) : In NaN s -> all_bool s = None.
Proof.
  induction s as [|x s IH]; simpl; [contradiction|].
  intros [->|H]; [reflexivity|].
  destruct x; try reflexivity. now rewrite IH.
Qed.

Lemma strings_at (df : DataFrame) (c : pystr) (i : nat) :
  strings df c = true -> i < nrows df -> exists v, at_ df i c = Str v.
Proof.
  unfold strings. rewrite forallb_forall. intros H Hi.
  specialize (H i). rewrite in_seq in H.
  destruct (at_ df i c) as [|v|b]; try (discriminate H; lia).
  now exists v.
Qed.

Section StrFacts.
Variable U : UnicodeDB.

Lemma truth_isdigit (x : cell) :
  truth (match x with Str v => Bool (py_isdigit U v) | _ => NaN end) = digits U x.
Proof. destruct x; reflexivity. Qed.

Lemma invert_str_method (f : pystr -> bool) (df : DataFrame) (c : pystr) :
  strings df c = true ->
  invert (map (fun x => match x with Str v => Bool (f v) | _ => NaN end)
              (getcol df c))
  = Returns (map (fun i => negb (match at_ df i c with
                                 | Str v => f v
                                 | _ => false
                                 end))
                 (seq 0 (nrows df))).
Proof.
  intros H. unfold invert. rewrite map_getcol.
  assert (E : map (fun i => match at_ df i c with
                            | Str v => Bool (f v)
                            | _ => NaN
                            end) (seq 0 (nrows df))
              = map (fun i => Bool (match at_ df i c with
                                    | Str v => f v
                                    | _ => false
                                    end)) (seq 0 (nrows df))).
  { apply map_ext_in. intros i Hi. apply in_seq in Hi.
    destruct (strings_at df c i H) as [v Hv]; [lia|]. now rewrite Hv. }
  rewrite E, all_bool_map, map_map. reflexivity.
Qed.

Lemma invert_isdigit (df : DataFrame) (c : pystr) :
  strings df c = true ->
  invert (str_isdigit U (getcol df c))
  = Returns (map (fun i => negb (digits U (at_ df i c))) (seq 0 (nrows df))).
Proof. intros H. unfold str_isdigit. now rewrite invert_str_method. Qed.

Lemma invert_match (r : regex) (df : DataFrame) (c : pystr) :
  strings df c = true ->
  invert (str_match r (getcol df c))
  = Returns (map (fun i => negb (match at_ df i c with
                                 | Str v => re_match r v
                                 | _ => false
                                 end))
                 (seq 0 (nrows df))).
Proof.
  intros H. unfold str_match, cell_match. now rewrite invert_str_method.
Qed.

End StrFacts.

(* ================================================================= *)
(** * The matcher and the strings of a pattern *)

Lemma matches_void_inv (s : pystr) : ~ matches Void s.
Proof. intros H. inversion H. Qed.

Lemma matches_eps_inv (s : pystr) : matches Eps s -> s = [].
Proof. intros H. now inversion H. Qed.

Lemma matches_cls_inv (p : N -> bool) (s : pystr) :
  matches (Cls p) s -> exists c, s = [c] /\ p c = true.
Proof. intros H. inversion H; subst. eauto. Qed.

Lemma matches_cat_inv (a b : regex) (s : pystr) :
  matches (Cat a b) s ->
  exists s1 s2, s = s1 ++ s2 /\ matches a s1 /\ matches b s2.
Proof. intros H. inversion H; subst. eauto. Qed.

Lemma matches_alt_inv (a b : regex) (s : pystr) :
  matches (Alt a b) s -> matches a s \/ matches b s.
Proof. intros H. inversion H; subst; auto. Qed.

Lemma nullable_matches (r : regex) : nullable r = true <-> matches r [].
Proof.
  induction r as [| |p|a IHa b IHb|a IHa b IHb|a IHa]; simpl.
  - split; [discriminate | intros H; now apply matches_void_inv in H].
  - split; [intros _; constructor | reflexivity].
  - split; [discriminate|]. intros H.
    apply matches_cls_inv in H as [c [H _]]. discriminate.
  - rewrite andb_true_iff, IHa, IHb. split.
    + intros [Ha Hb]. exact (MCat a b [] [] Ha Hb).
    + intros H. apply matches_cat_inv in H as [s1 [s2 [E [Ha Hb]]]].
      symmetry in E. apply app_eq_nil in E as [-> ->]. now split.
  - rewrite orb_true_iff, IHa, IHb. split.
    + intros [H|H]; [now apply MAltL | now apply MAltR].
    + apply matches_alt_inv.
  - split; [intros _; constructor | reflexivity].
Qed.

Lemma matches_star_cons (a : regex) (c : N) (s : pystr) :
  matches (Star a) (c :: s) ->
  exists s1 s2, s = s1 ++ s2 /\ matches a (c :: s1) /\ matches (Star a) s2.
Proof.
  intros H. remember (Star a) as r eqn:Er. remember (c :: s) as t eqn:Et.
  revert s Er Et.
  induction H as [|p x Hp|a1 b1 s1 s2 H1 _ H2 _|a1 b1 s1 H1 _|a1 b1 s1 H1 _
                  |a1|a1 s1 s2 H1 _ H2 IH2]; intros s Er Et;
    try discriminate.
  injection Er as ->. destruct s1 as [|x s1]; simpl in Et.
  - now apply IH2.
  - injection Et as -> <-. exists s1, s2. auto.
Qed.

Lemma deriv_matches (c : N) (r : regex) (s : pystr) :
  matches (deriv c r) s <-> matches r (c :: s).
Proof.
  revert s. induction r as [| |p|a IHa b IHb|a IHa b IHb|a IHa]; intros s; simpl.
  - split; intros H; now apply matches_void_inv in H.
  - split; intros H; [now apply matches_void_inv in H|].
    apply matches_eps_inv in H. discriminate.
  - destruct (p c) eqn:E; split; intros H.
    + apply matches_eps_inv in H. subst. now constructor.
    + apply matches_cls_inv in H as [c' [H _]]. injection H as _ ->. constructor.
    + now apply matches_void_inv in H.
    + apply matches_cls_inv in H as [c' [H Hp]]. injection H as <- _. congruence.
  - assert (G : matches (Cat (deriv c a) b) s \/
                (nullable a = true /\ matches (deriv c b) s)
                <-> matches (Cat a b) (c :: s)).
    { split.
      - intros [H|[Hn H]].
        + apply matches_cat_inv in H as [s1 [s2 [-> [Ha Hb]]]].
          apply IHa in Ha. exact (MCat a b (c :: s1) s2 Ha Hb).
        + apply nullable_matches in Hn. apply IHb in H.
          exact (MCat a b [] (c :: s) Hn H).
      - intros H. apply matches_cat_inv in H as [s1 [s2 [E [Ha Hb]]]].
        destruct s1 as [|x s1]; simpl in E.
        + subst s2. right. split; [now apply nullable_matches | now apply IHb].
        + injection E as <- ->. left. apply IHa in Ha. now constructor. }
    rewrite <- G. destruct (nullable a) eqn:En.
    + split.
      * intros H. apply matches_alt_inv in H as [H|H]; [now left | right; now split].
      * intros [H|[_ H]]; [now apply MAltL | now apply MAltR].
    + split; [intros H; now left | intros [H|[H _]]; [assumption | discriminate]].
  - split; intros H; apply matches_alt_inv in H as [H|H];
      try (apply MAltL; now apply IHa); apply MAltR; now apply IHb.
  - split.
    + intros H. apply matches_cat_inv in H as [s1 [s2 [-> [Ha Hb]]]].
      apply IHa in Ha. exact (MStarS a (c :: s1) s2 Ha Hb).
    + intros H. apply matches_star_cons in H as [s1 [s2 [-> [Ha Hb]]]].
      apply IHa in Ha. now constructor.
Qed.

Lemma fullmatch_matches (r : regex) (s : pystr) :
  fullmatch r s = true <-> matches r s.
Proof.
  unfold fullmatch. revert r. induction s as [|c s IH]; intros r; simpl.
  - apply nullable_matches.
  - rewrite IH. apply deriv_matches.
Qed.

(** The matcher as boolean equations *)
Lemma bool_eq_iff (a b : bool) : (a = true <-> b = true) -> a = b.
Proof.
  destruct a, b; intros [H1 H2]; try reflexivity.
  - symmetry. now apply H1.
  - now apply H2.
Qed.

Lemma fullmatch_cons (r : regex) (c : N) (s : pystr) :
  fullmatch r (c :: s) = fullmatch (deriv c r) s.
Proof. reflexivity. Qed.

Lemma fullmatch_Void (s : pystr) : fullmatch Void s = false.
Proof. induction s; simpl; auto. Qed.

Lemma fullmatch_Eps (s : pystr) : fullmatch Eps s = match s with [] => true | _ => false end.
Proof. destruct s; [reflexivity|]. rewrite fullmatch_cons. simpl. apply fullmatch_Void. Qed.

Lemma fullmatch_Alt (a b : regex) (s : pystr) :
  fullmatch (Alt a b) s = fullmatch a s || fullmatch b s.
Proof.
  apply bool_eq_iff. rewrite orb_true_iff, !fullmatch_matches. split.
  - apply matches_alt_inv.
  - intros [H|H]; [now apply MAltL | now apply MAltR].
Qed.

Lemma fullmatch_Cls (p : N -> bool) (s : pystr) :
  fullmatch (Cls p) s = match s with [c] => p c | _ => false end.
Proof.
  destruct s as [|c s]; [reflexivity|]. rewrite fullmatch_cons. simpl.
  destruct (p c); [rewrite fullmatch_Eps | rewrite fullmatch_Void]; now destruct s.
Qed.

Lemma fullmatch_Cat_Cls (p : N -> bool) (r : regex) (s : pystr) :
  fullmatch (Cat (Cls p) r) s =
  match s with c :: s' => p c && fullmatch r s' | [] => false end.
Proof.
  apply bool_eq_iff. rewrite fullmatch_matches. split.
  - intros H. apply matches_cat_inv in H as [s1 [s2 [-> [Ha Hb]]]].
    apply matches_cls_inv in Ha as [c [-> Hp]]. simpl.
    apply andb_true_iff. split; [assumption | now apply fullmatch_matches].
  - destruct s as [|c s']; [discriminate|]. intros H.
    apply andb_true_iff in H as [Hp Hr]. apply fullmatch_matches in Hr.
    exact (MCat (Cls p) r [c] s' (MCls p c Hp) Hr).
Qed.

Lemma fullmatch_Cat_assoc (a b r : regex) (s : pystr) :
  fullmatch (Cat (Cat a b) r) s = fullmatch (Cat a (Cat b r)) s.
Proof.
  apply bool_eq_iff. rewrite !fullmatch_matches. split; intros H.
  - apply matches_cat_inv in H as [s12 [s3 [-> [H12 H3]]]].
    apply matches_cat_inv in H12 as [s1 [s2 [-> [H1 H2]]]].
    rewrite <- app_assoc. constructor; [assumption | now constructor].
  - apply matches_cat_inv in H as [s1 [s23 [-> [H1 H23]]]].
    apply matches_cat_inv in H23 as [s2 [s3 [-> [H2 H3]]]].
    rewrite app_assoc. constructor; [now constructor | assumption].
Qed.

Lemma fullmatch_Cat_Alt (a b r : regex) (s : pystr) :
  fullmatch (Cat (Alt a b) r) s = fullmatch (Cat a r) s || fullmatch (Cat b r) s.
Proof.
  apply bool_eq_iff. rewrite orb_true_iff, !fullmatch_matches. split.
  - intros H. apply matches_cat_inv in H as [s1 [s2 [-> [H1 H2]]]].
    apply matches_alt_inv in H1 as [H1|H1]; [left | right]; now constructor.
  - intros [H|H]; apply matches_cat_inv in H as [s1 [s2 [-> [H1 H2]]]];
      (constructor; [|assumption]); [now apply MAltL | now apply MAltR].
Qed.

Lemma fullmatch_Star_chars (r : regex) (s : pystr) :
  (forall t, matches r t -> exists c, t = [c]) ->
  fullmatch (Star r) s = forallb (fun c => fullmatch r [c]) s.
Proof.
  intros Hr. apply bool_eq_iff. rewrite fullmatch_matches, forallb_forall. split.
  - intros H. remember (Star r) as q eqn:Eq. revert Eq.
    induction H as [|p x Hp|a1 b1 s1 s2 H1 _ H2 _|a1 b1 s1 H1 _|a1 b1 s1 H1 _
                    |a1|a1 s1 s2 H1 _ H2 IH2]; intros Eq; try discriminate.
    + intros x [].
    + injection Eq as ->. destruct (Hr _ H1) as [c ->].
      intros x [<-|Hx]; [now apply fullmatch_matches | now apply IH2].
  - induction s as [|c s IH]; intros H; [constructor|].
    apply (MStarS r [c] s).
    + apply fullmatch_matches. apply H. now left.
    + apply IH. intros x Hx. apply H. now right.
Qed.

Ltac bool_to_prop :=
  rewrite ?orb_true_iff, ?andb_true_iff, ?orb_true_iff, ?andb_true_iff,
    ?N.leb_le, ?N.eqb_eq.

Lemma month_class (a b : N) :
  (N.eqb a 48 && in_range 49 57 b) || (N.eqb a 49 && in_range 48 50 b)
  = in_words 1 12 a b.
Proof.
  apply bool_eq_iff. unfold in_words, ascii_digit, in_range, two_digit_number.
  repeat bool_to_prop. lia.
Qed.

Lemma day_class (a b : N) :
  (N.eqb a 48 && in_range 49 57 b) ||
  ((N.eqb a 49 || N.eqb a 50) && in_range 48 57 b) ||
  (N.eqb a 51 && (N.eqb b 48 || N.eqb b 49))
  = in_words 1 31 a b.
Proof.
  apply bool_eq_iff. unfold in_words, ascii_digit, in_range, two_digit_number.
  repeat bool_to_prop. lia.
Qed.

Ltac eval_literals :=
  repeat match goal with
  | |- context [py ?s] =>
      let v := eval vm_compute in (py s) in change (py s) with v
  end.

Ltac fm_step :=
  rewrite ?fullmatch_Cat_Alt, ?fullmatch_Cat_assoc, ?fullmatch_Cat_Cls,
    ?fullmatch_Cls.

Ltac fm_nil := cbn [mm_dd_yyyy]; rewrite ?andb_false_r; reflexivity.

Lemma date_regex_fullmatch (U : UnicodeDB) (t : pystr) :
  fullmatch (App.date_regex U) t = mm_dd_yyyy U t.
Proof.
  unfold App.date_regex, seqs, alts, chr, rng.
  change (re_d U) with (Cls (is_decimal U)).
  eval_literals. cbv beta iota. cbn [existsb].
  fm_step.
  destruct t as [|m1 t]; [fm_nil|]. fm_step.
  destruct t as [|m2 t]; [fm_nil|]. fm_step.
  destruct t as [|s1 t]; [fm_nil|]. fm_step.
  destruct t as [|d1 t]; [fm_nil|]. fm_step.
  destruct t as [|d2 t]; [fm_nil|]. fm_step.
  destruct t as [|s2 t]; [fm_nil|]. fm_step.
  destruct t as [|y1 t]; [fm_nil|]. fm_step.
  destruct t as [|y2 t]; [fm_nil|]. fm_step.
  destruct t as [|y3 t]; [fm_nil|]. fm_step.
  destruct t as [|y4 t]; [fm_nil|]. fm_step.
  destruct t as [|z t].
  - cbn [mm_dd_yyyy]. rewrite <- month_class, <- day_class.
    rewrite !orb_false_r.
    destruct (N.eqb s1 47), (N.eqb s2 47), (is_decimal U y1), (is_decimal U y2),
      (is_decimal U y3), (is_decimal U y4);
      rewrite ?andb_false_r, ?andb_true_r, ?orb_false_r; try reflexivity.
    destruct (N.eqb m1 48), (in_range 49 57 m2), (N.eqb m1 49), (in_range 48 50 m2);
      cbn [andb orb]; rewrite ?orb_false_r, ?orb_assoc; try reflexivity.
    all: repeat match goal with
         | |- context [N.eqb ?a ?b] => destruct (N.eqb a b)
         | |- context [in_range ?a ?b ?c] => destruct (in_range a b c)
         end; reflexivity.
  - cbn [mm_dd_yyyy]. destruct t; cbn; rewrite ?andb_false_r; reflexivity.
Qed.

Lemma date_regex_spec (U : UnicodeDB) (t : pystr) :
  re_match (App.date_regex U) t = true <->
  mm_dd_yyyy U t = true \/
  exists t', t = t' ++ [10%N] /\ mm_dd_yyyy U t' = true.
Proof.
  unfold re_match. rewrite orb_true_iff, date_regex_fullmatch.
  split; (intros [H|H]; [now left | right]).
  - destruct (rev t) as [|c r] eqn:E; [discriminate|].
    destruct (N.eqb_spec c 10) as [->|Hc].
    + exists (rev r). split.
      * rewrite <- (rev_involutive t), E. reflexivity.
      * now rewrite <- date_regex_fullmatch.
    + exfalso. destruct c as [|p]; [discriminate|].
      do 4 (destruct p as [p|p|]; try discriminate). now apply Hc.
  - destruct H as [t' [-> H]]. rewrite rev_app_distr. simpl.
    now rewrite rev_involutive, date_regex_fullmatch.
Qed.

(* ================================================================= *)
(** * App.py: the schema check *)

Lemma filter_nil_forall {A : Type} (p : A -> bool) (l : list A) :
  filter p l = [] -> forall x, In x l -> p x = false.
Proof.
  intros H x Hx. destruct (p x) eqn:E; [|reflexivity].
  assert (G : In x (filter p l)) by (apply filter_In; auto).
  rewrite H in G. contradiction.
Qed.

Lemma schema_check_fails (U : UnicodeDB) (df : DataFrame) (m : pystr) ms :
  filter (fun col => negb (mem col (columns df))) App.required_columns = m :: ms ->
  App.validate_excel U df = (Raises (ValueError (m :: ms)), df).
Proof.
  intros E. unfold App.validate_excel, bind, frame. now rewrite E.
Qed.

(** C2.  When a required column is missing from the frame,
    [validate_excel] raises one [ValueError] that carries exactly the
    required columns that are missing, all of them; no report is
    produced and no rule has run: the frame has received none of the
    flag columns the rules assign. *)
Theorem schema_error_names_every_missing_column
    (U : UnicodeDB) (df : DataFrame) :
  (exists c, In c App.required_columns /\ ~ In c (columns df)) ->
  exists missing,
    App.validate_excel U df = (Raises (ValueError missing), df) /\
    missing = filter (fun col => negb (mem col (columns df)))
                     App.required_columns /\
    (forall c, In c missing <->
               In c App.required_columns /\ ~ In c (columns df)).
Proof.
  intros [c [Hreq Hmiss]].
  exists (filter (fun col => negb (mem col (columns df))) App.required_columns).
  assert (Hin : forall c', In c' (filter (fun col => negb (mem col (columns df)))
                                         App.required_columns) <->
                           In c' App.required_columns /\ ~ In c' (columns df)).
  { intros c'. rewrite filter_In, negb_true_iff. split; intros [H1 H2];
      (split; [assumption|]).
    - intros H. apply mem_In in H. congruence.
    - destruct (mem c' (columns df)) eqn:E; [|reflexivity].
      apply mem_In in E. contradiction. }
  split; [|split; [reflexivity | exact Hin]].
  destruct (filter (fun col => negb (mem col (columns df))) App.required_columns)
    as [|m ms] eqn:E.
  - exfalso. apply (proj2 (Hin c)). now split.
  - now apply schema_check_fails.
Qed.

(** ** Assignments to other columns *)

Lemma lookup_replace_other (c f : pystr) (s : Series) (l : list (pystr * Series)) :
  pystr_eqb c f = false -> lookup c (replace_col f s l) = lookup c l.
Proof.
  intros H. induction l as [|[k s'] l IH]; simpl.
  - now rewrite H.
  - destruct (pystr_eqb f k) eqn:E; simpl.
    + apply pystr_eqb_eq in E. subst k. now rewrite H.
    + now rewrite IH.
Qed.

Lemma at_setcol_other (df : DataFrame) (f c : pystr) (s : Series) (i : nat) :
  pystr_eqb c f = false -> at_ (setcol df f s) i c = at_ df i c.
Proof.
  intros H. unfold at_, setcol. simpl. now rewrite lookup_replace_other.
Qed.

Lemma nrows_setcol (df : DataFrame) (f : pystr) (s : Series) :
  nrows (setcol df f s) = nrows df.
Proof. reflexivity. Qed.

Lemma getcol_setcol_other (df : DataFrame) (f c : pystr) (s : Series) :
  pystr_eqb c f = false -> getcol (setcol df f s) c = getcol df c.
Proof.
  intros H. unfold getcol. rewrite nrows_setcol.
  apply map_ext. intros i. now apply at_setcol_other.
Qed.

Lemma lookup_replace_same (f : pystr) (s : Series) (l : list (pystr * Series)) :
  lookup f (replace_col f s l) = Some s.
Proof.
  induction l as [|[k s'] l IH]; simpl.
  - now rewrite pystr_eqb_refl.
  - destruct (pystr_eqb f k) eqn:E; simpl; rewrite E; [reflexivity | exact IH].
Qed.

Lemma at_setcol_same (df : DataFrame) (f : pystr) (s : Series) (i : nat) :
  at_ (setcol df f s) i f = nth i s NaN.
Proof. unfold at_, setcol. simpl. now rewrite lookup_replace_same. Qed.

Lemma columns_replace_present (f : pystr) (s : Series) (l : list (pystr * Series)) :
  In f (map fst l) -> map fst (replace_col f s l) = map fst l.
Proof.
  induction l as [|[k s'] l IH]; simpl; [contradiction|].
  intros H. destruct (pystr_eqb f k) eqn:E; simpl; [reflexivity|].
  f_equal. apply IH. destruct H as [H|H]; [|assumption].
  subst k. rewrite pystr_eqb_refl in E. discriminate.
Qed.

Lemma columns_replace_absent (f : pystr) (s : Series) (l : list (pystr * Series)) :
  ~ In f (map fst l) -> map fst (replace_col f s l) = map fst l ++ [f].
Proof.
  induction l as [|[k s'] l IH]; simpl; [reflexivity|].
  intros H. destruct (pystr_eqb f k) eqn:E; simpl.
  - apply pystr_eqb_eq in E. subst k. exfalso. apply H. now left.
  - f_equal. apply IH. intros G. apply H. now right.
Qed.

Lemma columns_setcol_present (df : DataFrame) (f : pystr) (s : Series) :
  In f (columns df) -> columns (setcol df f s) = columns df.
Proof. apply columns_replace_present. Qed.

Lemma columns_setcol_absent (df : DataFrame) (f : pystr) (s : Series) :
  ~ In f (columns df) -> columns (setcol df f s) = columns df ++ [f].
Proof. apply columns_replace_absent. Qed.

Lemma columns_setcol_incl (df : DataFrame) (f : pystr) (s : Series) (c : pystr) :
  In c (columns df) -> In c (columns (setcol df f s)).
Proof.
  intros H. destruct (in_dec (list_eq_dec N.eq_dec) f (columns df)) as [Hf|Hf].
  - now rewrite columns_setcol_present.
  - rewrite columns_setcol_absent by assumption. apply in_or_app. now left.
Qed.

Lemma columns_setcol_self (df : DataFrame) (f : pystr) (s : Series) :
  In f (columns (setcol df f s)).
Proof.
  destruct (in_dec (list_eq_dec N.eq_dec) f (columns df)) as [Hf|Hf].
  - now rewrite columns_setcol_present.
  - rewrite columns_setcol_absent by assumption. apply in_or_app. right. now left.
Qed.

Lemma has_columns_filter (cs : list pystr) (df : DataFrame) :
  has_columns cs df = true ->
  filter (fun col => negb (mem col (columns df))) cs = [].
Proof.
  unfold has_columns. induction cs as [|c cs IH]; simpl; [reflexivity|].
  intros H. apply andb_true_iff in H as [H1 H2]. rewrite H1. simpl. now apply IH.
Qed.

Lemma has_columns_In (cs : list pystr) (df : DataFrame) (c : pystr) :
  has_columns cs df = true -> In c cs -> In c (columns df).
Proof.
  unfold has_columns. rewrite forallb_forall. intros H Hc.
  apply mem_In. now apply H.
Qed.

(* ================================================================= *)
(** * App.py: the report of a frame that passes the schema check *)

Lemma agrees_refl df : App.agrees df df.
Proof. split; auto. Qed.

Lemma agrees_setcol df' df f s :
  mem f App.flag_columns = true -> App.agrees df' df -> App.agrees (setcol df' f s) df.
Proof.
  intros Hf [Hn Ha]. split; [exact Hn|].
  intros i c Hc. rewrite at_setcol_other; [now apply Ha|].
  apply pystr_eqb_neq. intros ->. congruence.
Qed.

Lemma agrees_getcol df' df c :
  App.agrees df' df -> mem c App.flag_columns = false -> getcol df' c = getcol df c.
Proof.
  intros [Hn Ha] Hc. unfold getcol. rewrite Hn. apply map_ext. intros i. now apply Ha.
Qed.

Lemma agrees_existsb df' df (f : cell -> bool) (l : list pystr) i :
  App.agrees df' df -> forallb (fun c => negb (mem c App.flag_columns)) l = true ->
  existsb (fun c => f (at_ df' i c)) l = existsb (fun c => f (at_ df i c)) l.
Proof.
  intros [Hn Ha] Hl. induction l as [|c l IH]; simpl; [reflexivity|].
  simpl in Hl. apply andb_true_iff in Hl as [H1 H2].
  apply negb_true_iff in H1. rewrite (Ha i c H1), IH by assumption. reflexivity.
Qed.

Lemma agrees_forallb df' df (f : cell -> bool) (l : list pystr) i :
  App.agrees df' df -> forallb (fun c => negb (mem c App.flag_columns)) l = true ->
  forallb (fun c => f (at_ df' i c)) l = forallb (fun c => f (at_ df i c)) l.
Proof.
  intros [Hn Ha] Hl. induction l as [|c l IH]; simpl; [reflexivity|].
  simpl in Hl. apply andb_true_iff in Hl as [H1 H2].
  apply negb_true_iff in H1. rewrite (Ha i c H1), IH by assumption. reflexivity.
Qed.

Lemma row_mask_agrees df' df (p' p : nat -> bool) :
  nrows df' = nrows df -> (forall i, p' i = p i) ->
  row_mask df' p' = map p (seq 0 (nrows df)).
Proof. intros Hn Hp. unfold row_mask. rewrite Hn. now apply map_ext. Qed.

Lemma validate_excel_returns (U : UnicodeDB) (df : DataFrame) :
  has_columns App.required_columns df = true ->
  App.no_empty_cell df = true ->
  App.validate_excel U df =
    (Returns (map (fun i => (i + 1, App.messages U df i))
                  (filter (App.flagged U df) (seq 0 (nrows df)))),
     App.flagged_frame U df).
Proof.
  intros Hc He.
  unfold App.no_empty_cell in He.
  apply andb_true_iff in He as [He Hd]. apply andb_true_iff in He as [HC HL].
  unfold App.validate_excel, bind, frame, assign, lift, ret.
  rewrite (has_columns_filter _ _ Hc).
  cbv zeta.
  rewrite !getcol_setcol_other by (vm_compute; reflexivity).
  rewrite (invert_isdigit U df _ HC), (invert_isdigit U df _ HL).
  rewrite !getcol_setcol_other by (vm_compute; reflexivity).
  rewrite (invert_match _ df _ Hd).
  set (n := seq 0 (nrows df)).
  set (g := getcol df (py "GTI")).
  set (DUP := isin (select (duplicated g) g) g).
  set (df1 := setcol df (py "GTI_Duplicate") (map Bool DUP)).
  set (MV := row_mask df1 (fun i => existsb (fun c => App.blank (at_ df1 i c)) (filter _ App.required_columns))).
  set (NE := row_mask df1 _).
  set (df2 := setcol df1 (py "Non_English_Found") (map Bool NE)).
  set (CL := or_ _ _).
  set (df3 := setcol df2 (py "Invalid_Country_Language") (map Bool CL)).
  set (AGE := map negb _).
  set (df4 := setcol df3 (py "Invalid_Age_Rating") (map Bool AGE)).
  set (DT := map (fun i => negb match at_ df i (py "Rating Date") with Str v => _ | _ => false end) n).
  set (df5 := setcol df4 (py "Invalid_Date_Format") (map Bool DT)).
  set (IB := row_mask df5 _).
  set (df6 := setcol df5 (py "Impact_Column_Blank") (map Bool IB)).
  set (II := map negb (row_mask df6 _)).
  set (df7 := setcol df6 (py "Impact_Column_Invalid") (map Bool II)).
  assert (A1 : App.agrees df1 df) by (apply agrees_setcol; [vm_compute; reflexivity | apply agrees_refl]).
  assert (A2 : App.agrees df2 df) by (apply agrees_setcol; [vm_compute; reflexivity | exact A1]).
  assert (A3 : App.agrees df3 df) by (apply agrees_setcol; [vm_compute; reflexivity | exact A2]).
  assert (A4 : App.agrees df4 df) by (apply agrees_setcol; [vm_compute; reflexivity | exact A3]).
  assert (A5 : App.agrees df5 df) by (apply agrees_setcol; [vm_compute; reflexivity | exact A4]).
  assert (A6 : App.agrees df6 df) by (apply agrees_setcol; [vm_compute; reflexivity | exact A5]).
  assert (A7 : App.agrees df7 df) by (apply agrees_setcol; [vm_compute; reflexivity | exact A6]).
  assert (E1 : DUP = map (App.gti_duplicate df) n).
  { subst DUP g. unfold isin. rewrite map_getcol. reflexivity. }
  assert (E2 : MV = map (App.missing_value df) n).
  { subst MV. apply row_mask_agrees; [apply A1|]. intros i.
    apply (agrees_existsb df1 df App.blank); [exact A1 | vm_compute; reflexivity]. }
  assert (E3 : NE = map (App.non_english_found U df) n).
  { subst NE. apply row_mask_agrees; [apply A1|]. intros i.
    apply (agrees_existsb df1 df (fun x => py_eq (cell_match (App.english_regex U) x) (Bool false)));
      [exact A1 | vm_compute; reflexivity]. }
  assert (E4 : CL = map (App.invalid_country_language U df) n).
  { subst CL. apply or_map. }
  assert (E5 : AGE = map (App.invalid_age_rating df) n).
  { subst AGE. unfold isin. rewrite map_getcol, map_map. reflexivity. }
  assert (E6 : DT = map (App.invalid_date_format U df) n) by reflexivity.
  assert (E7 : IB = map (App.impact_column_blank df) n).
  { subst IB. apply row_mask_agrees; [apply A5|]. intros i.
    apply (agrees_existsb df5 df App.blank); [exact A5 | vm_compute; reflexivity]. }
  assert (E8 : II = map (App.impact_column_invalid df) n).
  { subst II. rewrite (row_mask_agrees df6 df _
      (fun i => forallb (fun c => existsb (hash_eq (at_ df i c)) App.impact_values) App.impact_columns)).
    - now rewrite map_map.
    - apply A6.
    - intros i. apply (agrees_forallb df6 df (fun x => existsb (hash_eq x) App.impact_values));
        [exact A6 | vm_compute; reflexivity]. }
  f_equal.
  - f_equal. rewrite E1, E2, E3, E4, E5, E6, E7, E8.
    rewrite !or_map. subst n. rewrite index_where_map_seq.
    unfold App.flagged. clearbody df7.
    apply map_ext_in. intros i Hi.
    apply filter_In in Hi as [Hi _]. apply in_seq in Hi.
    unfold App.row_errors, App.messages.
    rewrite !nth_map_seq by lia.
    rewrite (proj2 A7 i (py "GTI")) by (vm_compute; reflexivity).
    rewrite (proj2 A7 i (py "Age Rating ID")) by (vm_compute; reflexivity).
    reflexivity.
  - subst df7 df6 df5 df4 df3 df2 df1. rewrite E1, E3, E4, E5, E6, E7, E8.
    unfold App.flagged_frame. rewrite !map_map. reflexivity.
Qed.

(* ================================================================= *)
(** * App.py: the age rating rule *)

Lemma In_when (b : bool) (m x : pystr) : In x (App.when b m) <-> b = true /\ x = m.
Proof.
  destruct b; simpl; split; try tauto.
  - intros [H|[]]. now split.
  - intros [_ ->]. now left.
  - intros [H _]. discriminate.
Qed.

Lemma age_message_only_from_age_rule U df i w :
  In (App.msg_age_rating w) (App.messages U df i) ->
  App.invalid_age_rating df i = true /\
  App.msg_age_rating w = App.msg_age_rating (at_ df i (py "Age Rating ID")).
Proof.
  unfold App.messages. rewrite !in_app_iff, !In_when.
  intros [H|[H|[H|[H|[H|[H|[H|H]]]]]]]; destruct H as [Hb He];
    try (exfalso; vm_compute in He; discriminate He).
  now split.
Qed.

Lemma age_rating_rule_on_report U df i :
  has_columns App.required_columns df = true ->
  App.no_empty_cell df = true ->
  i < nrows df ->
  exists report,
    fst (App.validate_excel U df) = Returns report /\
    (In (at_ df i (py "Age Rating ID")) App.valid_age_ratings ->
     forall msgs w, In (i + 1, msgs) report -> ~ In (App.msg_age_rating w) msgs) /\
    (~ In (at_ df i (py "Age Rating ID")) App.valid_age_ratings ->
     exists msgs, In (i + 1, msgs) report /\
                  In (App.msg_age_rating (at_ df i (py "Age Rating ID"))) msgs) /\
    (forall msgs w, In (i + 1, msgs) report -> In (App.msg_age_rating w) msgs ->
       App.msg_age_rating w = App.msg_age_rating (at_ df i (py "Age Rating ID"))).
Proof.
  intros Hc He Hi. rewrite (validate_excel_returns U df Hc He). simpl fst.
  eexists. split; [reflexivity|].
  assert (Hrow : forall msgs, In (i + 1, msgs)
             (map (fun j => (j + 1, App.messages U df j))
                  (filter (App.flagged U df) (seq 0 (nrows df)))) ->
           msgs = App.messages U df i).
  { intros msgs H. apply in_map_iff in H as [j [Hj _]].
    injection Hj as Hj <-. f_equal. lia. }
  split; [|split].
  - intros Hv msgs w Hin Hm. apply Hrow in Hin. subst msgs.
    apply age_message_only_from_age_rule in Hm as [Hb _].
    unfold App.invalid_age_rating in Hb. apply negb_true_iff in Hb.
    apply existsb_hash_eq_In in Hv. congruence.
  - intros Hv. exists (App.messages U df i).
    assert (Hb : App.invalid_age_rating df i = true).
    { unfold App.invalid_age_rating. apply negb_true_iff.
      destruct (existsb _ _) eqn:E; [|reflexivity].
      apply existsb_hash_eq_In in E. contradiction. }
    split.
    + apply in_map_iff. exists i. split; [reflexivity|].
      apply filter_In. split; [apply in_seq; lia|].
      unfold App.flagged. rewrite Hb. rewrite !orb_true_r. reflexivity.
    + unfold App.messages. rewrite !in_app_iff, !In_when. tauto.
  - intros msgs w Hin Hm. apply Hrow in Hin. subst msgs.
    now apply age_message_only_from_age_rule in Hm as [_ Hm].
Qed.

Lemma valid_age_ratings_exact :
  App.valid_age_ratings = [ txt "2"; txt "9"; txt "154"; txt "147" ].
Proof. reflexivity. Qed.

Lemma msg_age_rating_text (v : cell) :
  App.msg_age_rating v
  = py "Invalid Age Rating ID '" ++ str_ v ++ py "' (Allowed: 2, 9, 154, 147)".
Proof. reflexivity. Qed.

Lemma msg_age_rating_quotes (v w : cell) :
  App.msg_age_rating w = App.msg_age_rating v -> str_ w = str_ v.
Proof.
  rewrite !msg_age_rating_text. intros H.
  apply app_inv_head in H. now apply app_inv_tail in H.
Qed.

(** C5.  On a frame that passes the schema check and on which the
    string rules can run, [validate_excel] prints a report in which row
    [i] (under the row number [i + 1]) has no age rating message when
    its Age Rating ID cell is one of the texts 2, 9, 154 and 147, and
    otherwise has the message Invalid Age Rating ID 'v' (Allowed: 2, 9,
    154, 147) where v is the text of that cell; an age rating message
    under the row's number quotes no other value. *)
Theorem age_rating_rule (U : UnicodeDB) (df : DataFrame) (i : nat) :
  has_columns App.required_columns df = true ->
  App.no_empty_cell df = true ->
  i < nrows df ->
  exists report,
    fst (App.validate_excel U df) = Returns report /\
    (In (at_ df i (py "Age Rating ID"))
        [ txt "2"; txt "9"; txt "154"; txt "147" ] ->
     forall msgs w,
       In (i + 1, msgs) report ->
       ~ In (py "Invalid Age Rating ID '" ++ str_ w ++
             py "' (Allowed: 2, 9, 154, 147)") msgs) /\
    (~ In (at_ df i (py "Age Rating ID"))
          [ txt "2"; txt "9"; txt "154"; txt "147" ] ->
     exists msgs,
       In (i + 1, msgs) report /\
       In (py "Invalid Age Rating ID '" ++
           str_ (at_ df i (py "Age Rating ID")) ++
           py "' (Allowed: 2, 9, 154, 147)") msgs) /\
    (forall msgs w,
       In (i + 1, msgs) report ->
       In (py "Invalid Age Rating ID '" ++ str_ w ++
           py "' (Allowed: 2, 9, 154, 147)") msgs ->
       str_ w = str_ (at_ df i (py "Age Rating ID"))).
Proof.
  intros Hc He Hi.
  destruct (age_rating_rule_on_report U df i Hc He Hi)
    as [report [Hr [Hgood [Hbad Hquote]]]].
  rewrite valid_age_ratings_exact in Hgood, Hbad.
  exists report. split; [exact Hr|]. split; [|split].
  - intros Hv msgs w Hin. rewrite <- msg_age_rating_text. now apply Hgood.
  - intros Hv. destruct (Hbad Hv) as [msgs [Hin Hm]].
    exists msgs. split; [exact Hin|]. now rewrite <- msg_age_rating_text.
  - intros msgs w Hin Hm. apply msg_age_rating_quotes.
    apply (Hquote msgs w Hin). now rewrite msg_age_rating_text.
Qed.

Lemma age_rating_rule_witness :
  has_columns App.required_columns age_ratings_frame = true /\
  App.no_empty_cell age_ratings_frame = true /\
  4 < nrows age_ratings_frame /\
  getcol age_ratings_frame (py "Age Rating ID")
    = [ txt "2"; txt "9"; txt "154"; txt "147"; txt "10" ] /\
  fst (App.validate_excel ascii_only age_ratings_frame)
    = Returns [ (5, [ py "Invalid Age Rating ID '10' (Allowed: 2, 9, 154, 147)" ]) ] /\
  exists report,
    fst (App.validate_excel ascii_only age_ratings_frame) = Returns report /\
    exists msgs,
      In (4 + 1, msgs) report /\
      In (py "Invalid Age Rating ID '10' (Allowed: 2, 9, 154, 147)") msgs.
Proof.
  assert (Hc : has_columns App.required_columns age_ratings_frame = true)
    by (vm_compute; reflexivity).
  assert (He : App.no_empty_cell age_ratings_frame = true)
    by (vm_compute; reflexivity).
  assert (Hi : 4 < nrows age_ratings_frame) by (vm_compute; lia).
  split; [exact Hc|]. split; [exact He|]. split; [exact Hi|].
  split; [vm_compute; reflexivity|]. split; [vm_compute; reflexivity|].
  destruct (age_rating_rule ascii_only age_ratings_frame 4 Hc He Hi)
    as [report [Hr [_ [Hbad _]]]].
  exists report. split; [exact Hr|].
  apply Hbad. intros H. apply existsb_hash_eq_In in H.
  vm_compute in H. discriminate H.
Defined.

Lemma schema_error_witness :
  (exists c, In c App.required_columns /\ ~ In c (columns no_gti_frame)) /\
  exists missing,
    App.validate_excel ascii_only no_gti_frame
      = (Raises (ValueError missing), no_gti_frame) /\
    In (py "GTI") missing /\ In (py "Rating Date") missing.
Proof.
  assert (H : exists c, In c App.required_columns /\ ~ In c (columns no_gti_frame)).
  { exists (py "GTI"). split.
    - apply mem_In. vm_compute. reflexivity.
    - intros G. apply mem_In in G. vm_compute in G. discriminate G. }
  split; [exact H|].
  destruct (schema_error_names_every_missing_column ascii_only no_gti_frame H)
    as [missing [Hv [_ Hm]]].
  exists missing. split; [exact Hv|].
  split; apply Hm; (split; [apply mem_In; vm_compute; reflexivity
                           | intros G; apply mem_In in G; vm_compute in G;
                             discriminate G]).
Defined.

(* ================================================================= *)
(** * App.py: when the function returns *)

Lemma strings_false (df : DataFrame) (c : pystr) :
  strings df c = false ->
  exists i, i < nrows df /\ is_str (at_ df i c) = false.
Proof.
  unfold strings. intros H.
  destruct (forallb_forall (fun i => is_str (at_ df i c)) (seq 0 (nrows df))) as [_ G].
  destruct (existsb (fun i => negb (is_str (at_ df i c))) (seq 0 (nrows df))) eqn:E.
  - apply existsb_exists in E as [i [Hi Hb]]. apply in_seq in Hi.
    exists i. split; [lia|]. now apply negb_true_iff in Hb.
  - rewrite G in H; [discriminate|]. intros i Hi.
    destruct (is_str (at_ df i c)) eqn:Es; [reflexivity|].
    assert (X : existsb (fun i => negb (is_str (at_ df i c))) (seq 0 (nrows df)) = true).
    { apply existsb_exists. exists i. split; [assumption|]. now rewrite Es. }
    congruence.
Qed.

Lemma invert_str_method_raises (f : pystr -> bool) (df : DataFrame) (c : pystr) :
  strings df c = false ->
  invert (map (fun x => match x with Str v => Bool (f v) | _ => NaN end)
              (getcol df c)) = Raises TypeError.
Proof.
  intros H. apply strings_false in H as [i [Hi Hs]].
  unfold invert. rewrite all_bool_NaN; [reflexivity|].
  rewrite map_getcol. apply in_map_iff. exists i. split.
  - destruct (at_ df i c); try reflexivity. discriminate.
  - apply in_seq. lia.
Qed.

Lemma validate_excel_type_error (U : UnicodeDB) (df : DataFrame) :
  has_columns App.required_columns df = true ->
  App.no_empty_cell df = false ->
  fst (App.validate_excel U df) = Raises TypeError.
Proof.
  intros Hc He.
  unfold App.validate_excel, bind, frame, assign, lift, ret.
  rewrite (has_columns_filter _ _ Hc).
  cbv zeta.
  rewrite !getcol_setcol_other by (vm_compute; reflexivity).
  destruct (strings df (py "Countries")) eqn:HC.
  2:{ unfold str_isdigit. rewrite (invert_str_method_raises _ df _ HC). reflexivity. }
  rewrite (invert_isdigit U df _ HC).
  destruct (strings df (py "Languages")) eqn:HL.
  2:{ unfold str_isdigit. rewrite (invert_str_method_raises _ df _ HL). reflexivity. }
  rewrite (invert_isdigit U df _ HL).
  rewrite !getcol_setcol_other by (vm_compute; reflexivity).
  destruct (strings df (py "Rating Date")) eqn:HD.
  - unfold App.no_empty_cell in He. rewrite HC, HL, HD in He. discriminate.
  - unfold str_match, cell_match. rewrite (invert_str_method_raises _ df _ HD). reflexivity.
Qed.

Lemma has_columns_false (cs : list pystr) (df : DataFrame) :
  has_columns cs df = false -> exists c, In c cs /\ ~ In c (columns df).
Proof.
  unfold has_columns. induction cs as [|c cs IH]; simpl; [discriminate|].
  destruct (mem c (columns df)) eqn:E; simpl.
  - intros H. destruct (IH H) as [c' [H1 H2]]. exists c'. auto.
  - intros _. exists c. split; [now left|]. intros G. apply mem_In in G. congruence.
Qed.

Lemma validate_excel_returns_inv (U : UnicodeDB) (df df' : DataFrame) r :
  App.validate_excel U df = (Returns r, df') ->
  has_columns App.required_columns df = true /\
  App.no_empty_cell df = true /\
  r = map (fun i => (i + 1, App.messages U df i))
          (filter (App.flagged U df) (seq 0 (nrows df))) /\
  df' = App.flagged_frame U df.
Proof.
  intros H.
  destruct (has_columns App.required_columns df) eqn:Hc.
  2:{ apply has_columns_false in Hc as [c [Hreq Hmiss]].
      destruct (filter (fun col => negb (mem col (columns df)))
                       App.required_columns) as [|m ms] eqn:E.
      - pose proof (filter_nil_forall _ _ E c Hreq) as G.
        apply negb_false_iff, mem_In in G. contradiction.
      - rewrite (schema_check_fails U df m ms E) in H. discriminate. }
  destruct (App.no_empty_cell df) eqn:He.
  2:{ pose proof (validate_excel_type_error U df Hc He) as G.
      rewrite H in G. discriminate. }
  rewrite (validate_excel_returns U df Hc He) in H.
  injection H as <- <-. auto.
Qed.

(* ================================================================= *)
(** * What validation does to the frame *)

Lemma columns_setcol_iff (df : DataFrame) (f : pystr) (s : Series) (c : pystr) :
  In c (columns (setcol df f s)) <-> In c (columns df) \/ c = f.
Proof.
  destruct (in_dec (list_eq_dec N.eq_dec) f (columns df)) as [Hf|Hf].
  - rewrite columns_setcol_present by assumption. split; [auto|].
    intros [H| ->]; assumption.
  - rewrite columns_setcol_absent by assumption. rewrite in_app_iff. simpl.
    split; intros [H|H]; auto.
    + destruct H as [H|[]]; auto.
Qed.

Lemma flagged_frame_agrees (U : UnicodeDB) (df : DataFrame) :
  App.agrees (App.flagged_frame U df) df.
Proof.
  unfold App.flagged_frame. cbv zeta.
  repeat (apply agrees_setcol; [vm_compute; reflexivity|]).
  apply agrees_refl.
Qed.

Lemma flagged_frame_columns (U : UnicodeDB) (df : DataFrame) (c : pystr) :
  In c (columns (App.flagged_frame U df)) <->
  In c (columns df) \/ In c App.flag_columns.
Proof.
  unfold App.flagged_frame. cbv zeta. rewrite !columns_setcol_iff.
  unfold App.flag_columns. simpl. intuition.
Qed.

(** ** app1.py: when the function returns *)

Lemma column_present (c : pystr) (df : DataFrame) :
  mem c (columns df) = true -> column c df = (Returns (getcol df c), df).
Proof. intros H. unfold column. now rewrite H. Qed.

Lemma column_absent (c : pystr) (df : DataFrame) :
  mem c (columns df) = false -> column c df = (Raises (KeyError c), df).
Proof. intros H. unfold column. now rewrite H. Qed.

Lemma selected_duplicates_present (df : DataFrame) :
  mem (py "GTI") (columns df) = true ->
  exists s, app1.selected_duplicates df = (Returns s, df).
Proof.
  intros H. unfold app1.selected_duplicates, bind, frame, ret.
  destruct (nrows df =? 0); [eexists; reflexivity|].
  destruct (columns df) as [|c l] eqn:E; [discriminate H|].
  rewrite <- E in H. rewrite (column_present _ _ H). eexists; reflexivity.
Qed.

Lemma selected_duplicates_frame (df : DataFrame) :
  snd (app1.selected_duplicates df) = df.
Proof.
  unfold app1.selected_duplicates, bind, frame, ret, raise.
  destruct (nrows df =? 0); [reflexivity|].
  destruct (columns df) as [|c l] eqn:E; [reflexivity|].
  unfold column. destruct (mem (py "GTI") (columns df)); reflexivity.
Qed.

Lemma app1_validate_file_returns (U : UnicodeDB) (df : DataFrame) :
  has_columns app1.accessed_columns df = true ->
  app1.validate_file U df =
    (Returns (app1_report U df),
     setcol df (py "Rating Date") (astype_str (getcol df (py "Rating Date")))).
Proof.
  unfold has_columns, app1.accessed_columns. simpl forallb.
  rewrite !andb_true_iff. intros [H1 [H2 [H3 [H4 [H5 _]]]]].
  unfold app1.validate_file, app1.invalid_date_format, bind, frame, assign, ret.
  destruct (selected_duplicates_present df H1) as [s ->].
  rewrite (column_present _ _ H2),
          (column_present _ _ H3), (column_present _ _ H4),
          (column_present _ _ H5).
  reflexivity.
Qed.

Lemma app1_validate_file_returns_inv (U : UnicodeDB) (df df' : DataFrame) r :
  app1.validate_file U df = (Returns r, df') ->
  mem (py "Rating Date") (columns df) = true /\
  df' = setcol df (py "Rating Date") (astype_str (getcol df (py "Rating Date"))).
Proof.
  unfold app1.validate_file, app1.invalid_date_format, bind, frame, assign, ret.
  pose proof (selected_duplicates_frame df) as Hs.
  destruct (app1.selected_duplicates df) as [[s|e] d]; simpl in Hs; subst d;
    [|discriminate].
  destruct (mem (py "Countries") (columns df)) eqn:H2;
    [rewrite (column_present _ _ H2) | rewrite (column_absent _ _ H2); discriminate].
  destruct (mem (py "Languages") (columns df)) eqn:H3;
    [rewrite (column_present _ _ H3) | rewrite (column_absent _ _ H3); discriminate].
  destruct (mem (py "Age Rating ID") (columns df)) eqn:H4;
    [rewrite (column_present _ _ H4) | rewrite (column_absent _ _ H4); discriminate].
  destruct (mem (py "Rating Date") (columns df)) eqn:H5;
    [rewrite (column_present _ _ H5) | rewrite (column_absent _ _ H5); discriminate].
  intros H. split; [reflexivity|]. now injection H as _ <-.
Qed.

(** C4.  A frame that passes the schema check with one good row whose
    Rating Date cell is empty: [validate_excel] raises [TypeError] at
    line 48 and prints no report, so the empty date is not recorded as
    a violation. *)
Theorem absent_rating_date_raises (U : UnicodeDB) :
  has_columns App.required_columns absent_date_frame = true /\
  at_ absent_date_frame 0 (py "Rating Date") = NaN /\
  fst (App.validate_excel U absent_date_frame) = Raises TypeError.
Proof.
  split; [vm_compute; reflexivity|]. split; [vm_compute; reflexivity|].
  apply validate_excel_type_error; vm_compute; reflexivity.
Qed.

(** The pattern of line 47 on the values the rule is meant to tell
    apart, and on a value with a newline at its end. *)
Lemma date_regex_examples (U : UnicodeDB) :
  re_match (App.date_regex U) (py "02/30/2024") = true /\
  re_match (App.date_regex U) (py "2024/02/01") = false /\
  re_match (App.date_regex U) (py "13/01/2024") = false /\
  re_match (App.date_regex U) (py "01/32/2024") = false /\
  re_match (App.date_regex U) (py "00/10/2024") = false /\
  re_match (App.date_regex U) [] = false /\
  re_match (App.date_regex U) (py "01/15/2024" ++ [10%N]) = true.
Proof. vm_compute. repeat split. Qed.

(** An empty string in the Rating Date column is flagged; the looser
    pattern of the other scripts takes 13/01/2024 for a date. *)
Lemma date_rule_on_strings (U : UnicodeDB) (df : DataFrame) (i : nat) (v : pystr) :
  at_ df i (py "Rating Date") = Str v ->
  App.invalid_date_format U df i = negb (re_match (App.date_regex U) v).
Proof. intros H. unfold App.invalid_date_format. now rewrite H. Qed.

Lemma loose_date_format_example (U : UnicodeDB) :
  re_match (Flask2.date_format U) (py "13/01/2024") = true /\
  re_match (Flask2.date_format U) (py "2024/02/01") = false.
Proof. vm_compute. split; reflexivity. Qed.

(** C10, as the code has it.  [App.py] assigns seven flag columns to the
    frame and changes no other column; [app1.py] keeps the columns and
    overwrites the Rating Date column with the text of its cells, which
    leaves a string as it is and turns an empty cell into the text nan. *)
Theorem validation_frame_effect (U : UnicodeDB) (df : DataFrame) :
  (forall r df', App.validate_excel U df = (Returns r, df') ->
     nrows df' = nrows df /\
     (forall i c, ~ In c App.flag_columns -> at_ df' i c = at_ df i c) /\
     (forall c, In c (columns df') <->
                In c (columns df) \/ In c App.flag_columns)) /\
  (forall r df', app1.validate_file U df = (Returns r, df') ->
     nrows df' = nrows df /\
     columns df' = columns df /\
     (forall i c, c <> py "Rating Date" -> at_ df' i c = at_ df i c) /\
     (forall i, i < nrows df ->
        at_ df' i (py "Rating Date")
        = Str (str_ (at_ df i (py "Rating Date"))))).
Proof.
  split.
  - intros r df' H. apply validate_excel_returns_inv in H as [_ [_ [_ ->]]].
    destruct (flagged_frame_agrees U df) as [Hn Ha].
    split; [exact Hn|]. split.
    + intros i c Hc. apply Ha. destruct (mem c App.flag_columns) eqn:E;
        [apply mem_In in E; contradiction | reflexivity].
    + apply flagged_frame_columns.
  - intros r df' H.
    destruct (app1_validate_file_returns_inv U df df' r H) as [Hc ->].
    split; [reflexivity|]. split; [|split].
    + apply columns_setcol_present. now apply mem_In.
    + intros i c Hne. apply at_setcol_other. now apply pystr_eqb_neq.
    + intros i Hi. rewrite at_setcol_same. unfold astype_str.
      rewrite map_getcol.
      now apply (nth_map_seq (fun j => Str (str_ (at_ df j (py "Rating Date"))))).
Qed.

Lemma validation_frame_effect_witness :
  exists r df',
    app1.validate_file ascii_only absent_date_frame = (Returns r, df') /\
    columns df' = columns absent_date_frame /\
    at_ df' 0 (py "GTI") = txt "A1" /\
    at_ df' 0 (py "Rating Date") = txt "nan".
Proof.
  destruct (validation_frame_effect ascii_only absent_date_frame) as [_ H].
  assert (Hc : has_columns app1.accessed_columns absent_date_frame = true)
    by (vm_compute; reflexivity).
  pose proof (app1_validate_file_returns ascii_only absent_date_frame Hc) as E.
  destruct (H _ _ E) as [_ [H1 [H2 H3]]].
  eexists. eexists. split; [exact E|]. split; [exact H1|]. split.
  - rewrite H2; [vm_compute; reflexivity|].
    intros G. vm_compute in G. discriminate G.
  - rewrite H3; [vm_compute; reflexivity | vm_compute; lia].
Defined.

(** Against C10 as the specification words it: after
    [app1.validate_file] the empty Rating Date cell holds the text nan,
    and after [App.validate_excel] the frame has seven more columns. *)
Lemma validation_changes_the_frame :
  (exists r df',
     app1.validate_file ascii_only absent_date_frame = (Returns r, df') /\
     at_ absent_date_frame 0 (py "Rating Date") = NaN /\
     at_ df' 0 (py "Rating Date") = txt "nan") /\
  (exists r df',
     App.validate_excel ascii_only age_ten_frame = (Returns r, df') /\
     List.length (columns age_ten_frame) = 23 /\
     List.length (columns df') = 30 /\
     ~ In (py "GTI_Duplicate") (columns age_ten_frame) /\
     In (py "GTI_Duplicate") (columns df')).
Proof.
  split.
  - eexists. eexists. split; [vm_compute; reflexivity|].
    split; vm_compute; reflexivity.
  - eexists. eexists. split; [vm_compute; reflexivity|].
    split; [vm_compute; reflexivity|]. split; [vm_compute; reflexivity|].
    split.
    + intros G. apply mem_In in G. vm_compute in G. discriminate G.
    + apply mem_In. vm_compute. reflexivity.
Qed.

(* ================================================================= *)
(** * app1.py: the report *)

Lemma not_all_digits_digits U x : not_all_digits U x -> digits U x = false.
Proof.
  intros [->|[->|[v [ch [-> [Hin Hch]]]]]]; try reflexivity.
  simpl. unfold py_isdigit. destruct v as [|a v]; [reflexivity|].
  destruct (forallb (isdigit_char U) (a :: v)) eqn:E; [|reflexivity].
  rewrite forallb_forall in E. rewrite (E ch Hin) in Hch. discriminate.
Qed.

Lemma app1_invalid_country_language_rows U df :
  app1.invalid_country_language U df =
  map (fun row =>
         Dict [ ("row", Int (row + 2));
                ("Countries", Val (Str (str_ (at_ df row (py "Countries")))));
                ("Languages", Val (Str (str_ (at_ df row (py "Languages"))))) ])
      (filter (fun i => negb (digits U (at_ df i (py "Countries")) &&
                              digits U (at_ df i (py "Languages"))))
              (seq 0 (nrows df))).
Proof.
  unfold app1.invalid_country_language, str_isdigit. cbv zeta.
  rewrite !map_getcol, and_map, map_map, index_where_map_seq.
  f_equal. apply filter_ext. intros i. now rewrite !truth_isdigit.
Qed.

(** C8, as the code has it.  [app1.validate_file], rule 4: a row whose
    Countries or Languages cell is empty, is the empty string or holds a
    character that [str.isdigit] does not take for a digit, is reported
    with its row number and the text of both cells, whichever of the two
    is at fault.  The digits of [str.isdigit] are more than the decimal
    digits. *)
Theorem country_language_rule (U : UnicodeDB) (df : DataFrame) (i : nat) :
  has_columns app1.accessed_columns df = true ->
  i < nrows df ->
  not_all_digits U (at_ df i (py "Countries")) \/
  not_all_digits U (at_ df i (py "Languages")) ->
  exists report violations,
    fst (app1.validate_file U df) = Returns report /\
    get "invalid_country_language" report = Some (PyList violations) /\
    In (Dict [ ("row", Int (i + 2));
               ("Countries", Val (Str (str_ (at_ df i (py "Countries")))));
               ("Languages", Val (Str (str_ (at_ df i (py "Languages"))))) ])
       violations.
Proof.
  intros Hc Hi Hbad. rewrite (app1_validate_file_returns U df Hc). simpl fst.
  eexists. eexists. split; [reflexivity|]. split; [reflexivity|].
  rewrite app1_invalid_country_language_rows.
  apply in_map_iff. exists i. split; [reflexivity|].
  apply filter_In. split; [apply in_seq; lia|].
  apply negb_true_iff, andb_false_iff.
  destruct Hbad as [H|H]; [left|right]; now apply not_all_digits_digits.
Qed.

(** C1, as the code has it.  On a frame with the columns it reads,
    [app1.validate_file] returns a report that holds each of its six
    categories as a list, whatever the rows contain; on a sheet without
    rows every list is empty. *)
Theorem report_has_every_category (U : UnicodeDB) (df : DataFrame) :
  has_columns app1.accessed_columns df = true ->
  exists bc ne dg cl ar dt,
    fst (app1.validate_file U df) =
      Returns (Dict [ ("blank_cells", PyList bc);
                      ("non_english_chars", PyList ne);
                      ("duplicate_gtis", PyList dg);
                      ("invalid_country_language", PyList cl);
                      ("invalid_age_rating", PyList ar);
                      ("invalid_date_format", PyList dt) ]) /\
    (nrows df = 0 ->
     bc = [] /\ ne = [] /\ dg = [] /\ cl = [] /\ ar = [] /\ dt = []).
Proof.
  intros Hc. rewrite (app1_validate_file_returns U df Hc). simpl fst.
  unfold app1_report. cbv zeta.
  do 6 eexists. split; [reflexivity|].
  intros Hn.
  unfold app1.blank_cells, app1.non_english_chars, app1.duplicate_gtis,
    app1.invalid_country_language, app1.invalid_age_rating, row_mask, getcol.
  simpl nrows. rewrite Hn. simpl. repeat split; reflexivity.
Qed.

Lemma report_has_every_category_witness :
  has_columns app1.accessed_columns empty_frame = true /\
  fst (app1.validate_file ascii_only empty_frame) =
    Returns (Dict [ ("blank_cells", PyList []);
                    ("non_english_chars", PyList []);
                    ("duplicate_gtis", PyList []);
                    ("invalid_country_language", PyList []);
                    ("invalid_age_rating", PyList []);
                    ("invalid_date_format", PyList []) ]).
Proof.
  assert (Hc : has_columns app1.accessed_columns empty_frame = true)
    by (vm_compute; reflexivity).
  split; [exact Hc|].
  destruct (report_has_every_category ascii_only empty_frame Hc)
    as [bc [ne [dg [cl [ar [dt [E H]]]]]]].
  destruct (H eq_refl) as [-> [-> [-> [-> [-> ->]]]]]. exact E.
Defined.

(** Against C1 as the specification words it: the reports have six
    categories, and none of them is [invalid_impact_value]. *)
Lemma report_has_no_impact_category :
  (exists r,
     fst (app1.validate_file ascii_only age_ten_frame) = Returns r /\
     keys r = [ "blank_cells"; "non_english_chars"; "duplicate_gtis";
                "invalid_country_language"; "invalid_age_rating";
                "invalid_date_format" ] /\
     get "invalid_impact_value" r = None) /\
  (exists r errors,
     Flask2.validate_file ascii_only age_ten_frame = Returns r /\
     get "errors" r = Some errors /\
     keys errors = [ "blank_cells"; "non_english_characters"; "duplicate_gti";
                     "invalid_country_language"; "invalid_age_rating";
                     "invalid_date_format" ] /\
     get "invalid_impact_value" errors = None).
Proof.
  split.
  - eexists. split; [vm_compute; reflexivity|]. split; reflexivity.
  - eexists. eexists. split; [vm_compute; reflexivity|].
    split; [reflexivity|]. split; reflexivity.
Qed.

(** A frame with two rows, one with letters in Countries and one with
    an empty Languages cell. *)
Lemma country_language_rule_witness :
  has_columns app1.accessed_columns bad_numbers_frame = true /\
  1 < nrows bad_numbers_frame /\
  at_ bad_numbers_frame 1 (py "Countries") = txt "36" /\
  at_ bad_numbers_frame 1 (py "Languages") = NaN /\
  exists report violations,
    fst (app1.validate_file ascii_only bad_numbers_frame) = Returns report /\
    get "invalid_country_language" report = Some (PyList violations) /\
    In (Dict [ ("row", Int 3); ("Countries", Val (txt "36"));
               ("Languages", Val (txt "nan")) ]) violations.
Proof.
  assert (Hc : has_columns app1.accessed_columns bad_numbers_frame = true)
    by (vm_compute; reflexivity).
  assert (Hi : 1 < nrows bad_numbers_frame) by (vm_compute; lia).
  split; [exact Hc|]. split; [exact Hi|].
  split; [vm_compute; reflexivity|]. split; [vm_compute; reflexivity|].
  apply (country_language_rule ascii_only bad_numbers_frame 1 Hc Hi).
  right. left. vm_compute. reflexivity.
Defined.

(** Against C8 as the specification words it: the superscript two is no
    decimal digit, [str.isdigit] takes it for a digit, and rule 4 of
    [app1.validate_file] reports no row of a sheet whose Countries cell
    holds it. *)
Lemma superscript_two_passes_rule_4 :
  at_ superscript_frame 0 (py "Countries") = Str [ superscript_two ] /\
  ascii_digit superscript_two = false /\
  uni_decimal superscript_table superscript_two = false /\
  py_isdigit superscript_table [ superscript_two ] = true /\
  exists report,
    fst (app1.validate_file superscript_table superscript_frame)
      = Returns report /\
    get "invalid_country_language" report = Some (PyList []).
Proof.
  split; [vm_compute; reflexivity|]. split; [vm_compute; reflexivity|].
  split; [vm_compute; reflexivity|]. split; [vm_compute; reflexivity|].
  eexists. split; vm_compute; reflexivity.
Qed.

(* ================================================================= *)
(** * Flask.py: characters outside ASCII *)

Lemma flask_validate_file_returns (U : UnicodeDB) (df : DataFrame) :
  fst (Flask.validate_file U df) = Returns (flask_report U df).
Proof.
  unfold Flask.validate_file, Flask.invalid_date_format,
    app1.invalid_date_format, bind, frame, assign, ret, flask_report.
  destruct (mem (py "Rating Date") (columns df)) eqn:E.
  - rewrite (column_present _ _ E). reflexivity.
  - reflexivity.
Qed.

Lemma filter_nonempty {A : Type} (p : A -> bool) (l : list A) (x : A) :
  In x l -> p x = true -> filter p l <> [].
Proof.
  intros Hin Hp E. assert (G : In x (filter p l)) by (apply filter_In; auto).
  rewrite E in G. contradiction.
Qed.

Lemma filter_map_swap {A B : Type} (p : B -> bool) (f : A -> B) (l : list A) :
  filter p (map f l) = map f (filter (fun x => p (f x)) l).
Proof.
  induction l as [|x l IH]; simpl; [reflexivity|].
  destruct (p (f x)); simpl; now rewrite IH.
Qed.


Lemma flat_map_nil {A B : Type} (g : A -> list B) (l : list A) :
  (forall x, In x l -> g x = []) -> flat_map g l = [].
Proof.
  induction l as [|x l IH]; simpl; [reflexivity|].
  intros H. rewrite (H x) by now left. simpl. apply IH. intros y Hy. apply H. now right.
Qed.





(* ================================================================= *)
(** * Flask2.py: the report *)

Lemma flask2_country_language (U : UnicodeDB) (df : DataFrame) :
  Flask2.numbers_filled df = true ->
  Flask2.invalid_country_language U df = Returns (Flask2.country_language_rows U df).
Proof.
  unfold Flask2.numbers_filled, Flask2.invalid_country_language, Flask2.country_language_rows.
  destruct (mem (py "Countries") (columns df) && mem (py "Languages") (columns df));
    [|reflexivity].
  simpl. intros H. apply andb_true_iff in H as [HC HL].
  rewrite (invert_isdigit U df _ HC), (invert_isdigit U df _ HL).
  now rewrite or_map, index_where_map_seq.
Qed.

Lemma flask2_date (U : UnicodeDB) (df : DataFrame) :
  Flask2.invalid_date_format U df = Returns (Flask2.date_rows U df).
Proof.
  unfold Flask2.invalid_date_format, Flask2.date_rows.
  destruct (mem (py "Rating Date") (columns df)); [|reflexivity].
  unfold invert, str_match, astype_str. rewrite map_getcol, map_map.
  simpl cell_match.
  rewrite (all_bool_map (fun i => re_match (Flask2.date_format U)
                                   (str_ (at_ df i (py "Rating Date"))))).
  now rewrite map_map, index_where_map_seq.
Qed.

Lemma flask2_validate_file_returns (U : UnicodeDB) (df : DataFrame) :
  Flask2.numbers_filled df = true ->
  Flask2.validate_file U df = Returns (Dict [ ("errors", Flask2.errors U df) ]).
Proof.
  intros H. unfold Flask2.validate_file.
  rewrite (flask2_country_language U df H), flask2_date. reflexivity.
Qed.

(** ** Rule 3: clusters *)

Lemma unique_from_filter (y : cell) (l seen : list cell) :
  filter (fun x => hash_eq x y) (unique_from seen l) =
  if existsb (hash_eq y) seen then []
  else if existsb (hash_eq y) l then [y] else [].
Proof.
  revert seen. induction l as [|x l IH]; intros seen; simpl.
  - now destruct (existsb (hash_eq y) seen).
  - destruct (existsb (hash_eq x) seen) eqn:Ex.
    + rewrite IH. destruct (existsb (hash_eq y) seen) eqn:Ey; [reflexivity|].
      destruct (hash_eq y x) eqn:E; [|reflexivity].
      apply hash_eq_eq in E. subst. congruence.
    + simpl. rewrite IH. simpl. rewrite (hash_eq_sym x y).
      destruct (hash_eq y x) eqn:E; simpl.
      * apply hash_eq_eq in E. subst. now rewrite Ex.
      * reflexivity.
Qed.

Lemma unique_filter (y : cell) (l : list cell) :
  filter (fun x => hash_eq x y) (unique l) =
  if existsb (hash_eq y) l then [y] else [].
Proof. unfold unique. now rewrite unique_from_filter. Qed.

Lemma unique_from_In (x : cell) (l seen : list cell) :
  In x (unique_from seen l) -> In x l.
Proof.
  revert seen. induction l as [|y l IH]; intros seen; simpl; [auto|].
  destruct (existsb (hash_eq y) seen).
  - intros H. right. now apply (IH seen).
  - intros [->|H]; [now left | right; now apply (IH (y :: seen))].
Qed.

Lemma duplicated_select (g : Series) :
  select (duplicated g) g = filter (fun x => 2 <=? count x g) g.
Proof. unfold duplicated. apply select_map. Qed.

Lemma count_pos_In (x : cell) (g : Series) : 1 <= count x g -> In x g.
Proof.
  unfold count. induction g as [|y g IH]; simpl; [lia|].
  destruct (hash_eq x y) eqn:E.
  - apply hash_eq_eq in E. subst. now left.
  - intros H. right. now apply IH.
Qed.

Lemma cluster_rows (df : DataFrame) (x : cell) :
  index_where (eq_scalar (getcol df (py "GTI")) x)
  = filter (fun i => py_eq (at_ df i (py "GTI")) x) (seq 0 (nrows df)).
Proof. unfold eq_scalar. now rewrite map_getcol, index_where_map_seq. Qed.

(** C3.  [Flask2.validate_file], rule 3: for an identifier that two or
    more rows share, the report has exactly one cluster with that
    identifier, and its rows are the row numbers (label + 2) of all the
    rows that hold it, the first one included, in ascending order. *)
Theorem duplicate_cluster_complete (U : UnicodeDB) (df : DataFrame) (v : pystr) :
  mem (py "GTI") (columns df) = true ->
  2 <= count (Str v) (getcol df (py "GTI")) ->
  filter (Flask2.has_gti (Str v)) (Flask2.duplicate_gti df) =
    [ Dict [ ("GTI", Val (Str v));
             ("rows", row_numbers
                (filter (fun i => py_eq (at_ df i (py "GTI")) (Str v))
                        (seq 0 (nrows df)))) ] ] /\
  (Flask2.numbers_filled df = true ->
   exists errors,
     Flask2.validate_file U df = Returns (Dict [ ("errors", errors) ]) /\
     get "duplicate_gti" errors = Some (PyList (Flask2.duplicate_gti df))).
Proof.
  intros Hg Hv. split.
  - unfold Flask2.duplicate_gti. rewrite Hg. cbv zeta.
    rewrite filter_map_swap.
    rewrite (filter_ext _ (fun x => hash_eq x (Str v))) by (intros x; reflexivity).
    rewrite unique_filter, duplicated_select.
    assert (E : existsb (hash_eq (Str v))
                  (filter (fun x => 2 <=? count x (getcol df (py "GTI")))
                          (getcol df (py "GTI"))) = true).
    { apply existsb_hash_eq_In, filter_In. split.
      - apply count_pos_In. lia.
      - now apply Nat.leb_le. }
    rewrite E. simpl. now rewrite cluster_rows.
  - intros Hf. rewrite (flask2_validate_file_returns U df Hf).
    eexists. split; reflexivity.
Qed.

(** ** Rule 1: blank cells *)

Lemma blank_cells_rows (df : DataFrame) :
  Flask2.blank_cells df =
  map (fun row =>
         Dict [ ("row", Int (row + 2));
                ("columns", names (filter (fun c => isna (at_ df row c))
                                          (columns df))) ])
      (filter (fun i => existsb (fun c => isna (at_ df i c))
                 (filter (fun col => negb (pystr_eqb col (py "Other Title Name(s)")))
                         (columns df)))
              (seq 0 (nrows df))).
Proof.
  unfold Flask2.blank_cells. cbv zeta.
  rewrite index_where_row_mask.
  destruct (existsb (fun b => b) (row_mask df _)) eqn:E; [reflexivity|].
  unfold row_mask in E.
  match goal with |- [] = map _ (filter ?p ?l) =>
    assert (Z : filter p l = []) end.
  { destruct (filter _ (seq 0 (nrows df))) as [|j js] eqn:F; [reflexivity|].
    assert (Hj : In j (j :: js)) by now left. rewrite <- F in Hj.
    apply filter_In in Hj as [Hj1 Hj2].
    assert (X : existsb (fun b => b)
      (map (fun i => existsb (fun c => isna (at_ df i c))
         (filter (fun col => negb (pystr_eqb col (py "Other Title Name(s)")))
                 (columns df))) (seq 0 (nrows df))) = true).
    { apply existsb_exists. eexists. split; [|exact Hj2].
      apply in_map_iff. exists j. split; [reflexivity | exact Hj1]. }
    rewrite X in E. discriminate. }
  now rewrite Z.
Qed.

(** Rule 4 of [Flask2.py] stops the function on an empty Countries or
    Languages cell. *)
Lemma flask2_validate_file_raises (U : UnicodeDB) (df : DataFrame) :
  Flask2.numbers_filled df = false ->
  Flask2.validate_file U df = Raises TypeError.
Proof.
  unfold Flask2.numbers_filled, Flask2.validate_file,
    Flask2.invalid_country_language.
  destruct (mem (py "Countries") (columns df) && mem (py "Languages") (columns df));
    [|discriminate].
  simpl. intros H.
  destruct (strings df (py "Countries")) eqn:HC.
  - rewrite (invert_isdigit U df _ HC).
    destruct (strings df (py "Languages")) eqn:HL; [discriminate|].
    unfold str_isdigit. now rewrite (invert_str_method_raises _ df _ HL).
  - unfold str_isdigit. now rewrite (invert_str_method_raises _ df _ HC).
Qed.

Lemma duplicate_cluster_witness :
  Flask2.numbers_filled triple_frame = true /\
  mem (py "GTI") (columns triple_frame) = true /\
  2 <= count (txt "X") (getcol triple_frame (py "GTI")) /\
  filter (Flask2.has_gti (txt "X")) (Flask2.duplicate_gti triple_frame) =
    [ Dict [ ("GTI", Val (txt "X"));
             ("rows", PyList [ Int 5; Int 9; Int 11 ]) ] ] /\
  exists errors,
    Flask2.validate_file ascii_only triple_frame
      = Returns (Dict [ ("errors", errors) ]) /\
    get "duplicate_gti" errors
      = Some (PyList (Flask2.duplicate_gti triple_frame)).
Proof.
  assert (Hf : Flask2.numbers_filled triple_frame = true)
    by (vm_compute; reflexivity).
  assert (Hg : mem (py "GTI") (columns triple_frame) = true)
    by (vm_compute; reflexivity).
  assert (Hv : 2 <= count (txt "X") (getcol triple_frame (py "GTI")))
    by (vm_compute; lia).
  split; [exact Hf|]. split; [exact Hg|]. split; [exact Hv|].
  destruct (duplicate_cluster_complete ascii_only triple_frame (py "X") Hg Hv)
    as [H1 H2].
  split; [exact H1 | exact (H2 Hf)].
Defined.

(** What rule 3 does emit for the rows without an identifier: a cluster
    for [nan] that lists no row. *)
Lemma absent_identifier_cluster_lists_no_row :
  Flask2.duplicate_gti absent_gti_frame =
    [ Dict [ ("GTI", Val NaN); ("rows", PyList []) ];
      Dict [ ("GTI", Val (txt "X")); ("rows", PyList [ Int 3; Int 5 ]) ] ].
Proof. vm_compute. reflexivity. Qed.

(** [App.py] flags each such row as a duplicate. *)
Lemma app_flags_absent_identifiers (U : UnicodeDB) :
  App.gti_duplicate absent_gti_frame 0 = true /\
  App.gti_duplicate absent_gti_frame 2 = true.
Proof. vm_compute. split; reflexivity. Qed.

(* ================================================================= *)
(** * App.py: the date rule on strings, and the age ratings by example *)

Lemma date_message_only_from_date_rule U df i :
  In App.msg_date (App.messages U df i) <-> App.invalid_date_format U df i = true.
Proof.
  unfold App.messages. rewrite !in_app_iff, !In_when. split.
  - intros [H|[H|[H|[H|[H|[H|[H|H]]]]]]]; destruct H as [Hb He];
      try (exfalso; vm_compute in He; discriminate He).
    exact Hb.
  - intros H. do 5 right. left. now split.
Qed.

(** On a frame on which [validate_excel] reaches its report, row [i]
    gets the date message exactly when the text of its Rating Date cell
    is not MM/DD/YYYY, with or without one newline after it. *)
Lemma date_rule_on_report (U : UnicodeDB) (df : DataFrame) (i : nat) (v : pystr) :
  has_columns App.required_columns df = true ->
  App.no_empty_cell df = true ->
  i < nrows df ->
  at_ df i (py "Rating Date") = Str v ->
  exists report,
    fst (App.validate_excel U df) = Returns report /\
    ((exists msgs, In (i + 1, msgs) report /\ In App.msg_date msgs) <->
     ~ (mm_dd_yyyy U v = true \/
        exists v', v = v' ++ [10%N] /\ mm_dd_yyyy U v' = true)).
Proof.
  intros Hc He Hi Hv. rewrite (validate_excel_returns U df Hc He). simpl fst.
  eexists. split; [reflexivity|].
  rewrite <- date_regex_spec.
  assert (Hflag : App.invalid_date_format U df i = true <->
                  re_match (App.date_regex U) v <> true).
  { unfold App.invalid_date_format. rewrite Hv, negb_true_iff.
    destruct (re_match (App.date_regex U) v); split; congruence. }
  rewrite <- Hflag, <- date_message_only_from_date_rule. split.
  - intros [msgs [Hin Hm]]. apply in_map_iff in Hin as [j [Hj _]].
    injection Hj as Hj <-. assert (j = i) by lia. now subst j.
  - intros Hm. exists (App.messages U df i). split; [|exact Hm].
    apply in_map_iff. exists i. split; [reflexivity|].
    apply filter_In. split; [apply in_seq; lia|].
    apply date_message_only_from_date_rule in Hm.
    unfold App.flagged. rewrite Hm. rewrite !orb_true_r. reflexivity.
Qed.

Lemma age_rating_examples :
  In (txt "2") App.valid_age_ratings /\ In (txt "9") App.valid_age_ratings /\
  In (txt "154") App.valid_age_ratings /\ In (txt "147") App.valid_age_ratings /\
  ~ In (txt "10") App.valid_age_ratings /\ ~ In NaN App.valid_age_ratings /\
  ~ In (txt "002") App.valid_age_ratings.
Proof.
  repeat split;
    try (apply existsb_hash_eq_In; vm_compute; reflexivity);
    intros H; apply existsb_hash_eq_In in H; vm_compute in H; discriminate H.
Qed.

(* ================================================================= *)
(** * app1.py: rule 2 against rule 6 *)

Ltac fm_nil' := cbn [dd_dd_dddd]; rewrite ?andb_false_r; reflexivity.

Lemma loose_date_fullmatch (U : UnicodeDB) (t : pystr) :
  fullmatch (app1.date_format U) t = dd_dd_dddd U t.
Proof.
  unfold app1.date_format, seqs, chr.
  change (re_d U) with (Cls (is_decimal U)).
  eval_literals. cbn [existsb].
  fm_step.
  destruct t as [|a t]; [fm_nil'|]. fm_step.
  destruct t as [|b t]; [fm_nil'|]. fm_step.
  destruct t as [|s1 t]; [fm_nil'|]. fm_step.
  destruct t as [|c t]; [fm_nil'|]. fm_step.
  destruct t as [|d t]; [fm_nil'|]. fm_step.
  destruct t as [|s2 t]; [fm_nil'|]. fm_step.
  destruct t as [|y1 t]; [fm_nil'|]. fm_step.
  destruct t as [|y2 t]; [fm_nil'|]. fm_step.
  destruct t as [|y3 t]; [fm_nil'|]. fm_step.
  destruct t as [|y4 t]; [fm_nil'|]. fm_step.
  destruct t as [|z t].
  - cbn [dd_dd_dddd]. rewrite !orb_false_r, !andb_assoc. reflexivity.
  - cbn [dd_dd_dddd]. rewrite ?andb_false_r. reflexivity.
Qed.

Lemma english_chars (U : UnicodeDB) (t : pystr) :
  fullmatch (app1.english U) t = true ->
  forall c, In c t ->
    fullmatch (alts [ rng "A" "Z"; rng "a" "z"; rng "0" "9"; re_s U;
                      chr ".,!?;:'"; code 34; chr "-" ]) [c] = true.
Proof.
  unfold app1.english. rewrite fullmatch_Star_chars.
  - intros H c Hc. rewrite forallb_forall in H. now apply H.
  - intros u Hu. unfold alts, rng, chr, code, re_s in Hu.
    repeat (apply matches_alt_inv in Hu as [Hu|Hu];
            [apply matches_cls_inv in Hu as [c [-> _]]; now exists c|]).
    apply matches_cls_inv in Hu as [c [-> _]]. now exists c.
Qed.

Lemma slash_is_not_english (U : UnicodeDB) (t : pystr) :
  In 47%N t -> fullmatch (app1.english U) t = false.
Proof.
  intros H. destruct (fullmatch (app1.english U) t) eqn:E; [|reflexivity].
  pose proof (english_chars U t E 47%N H) as G.
  vm_compute in G. discriminate G.
Qed.

Lemma well_formed_date_is_not_english (U : UnicodeDB) (v : pystr) :
  re_match (app1.date_format U) v = true -> re_match (app1.english U) v = false.
Proof.
  unfold re_match. rewrite !loose_date_fullmatch. intros H.
  apply orb_true_iff in H as [H|H].
  - destruct v as [|a [|b [|s1 [|c [|d [|s2 [|y1 [|y2 [|y3 [|y4 [|z t]]]]]]]]]]];
      try discriminate H.
    cbn [dd_dd_dddd] in H. rewrite !andb_true_iff in H.
    destruct H as [[[[[[[[[_ _] Hs] _] _] _] _] _] _] Hy].
    apply N.eqb_eq in Hs. subst s1.
    rewrite slash_is_not_english by (simpl; auto). simpl.
    destruct (N.eqb_spec y4 10) as [->|Hne].
    + vm_compute in Hy. discriminate Hy.
    + destruct y4 as [|p]; [reflexivity|].
      do 4 (destruct p as [p|p|]; try reflexivity). now contradiction Hne.
  - destruct (rev v) as [|x r] eqn:E; [discriminate|].
    destruct (N.eqb_spec x 10) as [->|Hne].
    2:{ destruct x as [|p]; [discriminate|].
        do 4 (destruct p as [p|p|]; try discriminate). now contradiction Hne. }
    assert (Ev : v = rev r ++ [10%N]).
    { rewrite <- (rev_involutive v), E. reflexivity. }
    rewrite loose_date_fullmatch in H.
    assert (Hin : In 47%N (rev r)).
    { destruct (rev r) as [|a [|b [|s1 t]]]; try discriminate H.
      destruct t as [|c [|d [|s2 [|y1 [|y2 [|y3 [|y4 [|z t]]]]]]]]; try discriminate H.
      cbn [dd_dd_dddd] in H. rewrite !andb_true_iff in H.
      destruct H as [[[[[[[[[_ _] Hs] _] _] _] _] _] _] _].
      apply N.eqb_eq in Hs. subst s1. simpl. auto. }
    rewrite (slash_is_not_english U v) by (rewrite Ev; apply in_or_app; now left).
    rewrite (slash_is_not_english U (rev r) Hin). reflexivity.
Qed.

Lemma app1_date_rows (U : UnicodeDB) (df : DataFrame) :
  mem (py "Rating Date") (columns df) = true ->
  get "invalid_date_format" (app1_report U df) =
  Some (PyList (map (fun row =>
      Dict [ ("row", Int (row + 2));
             ("Rating Date",
              Val (Str (str_ (at_ (setcol df (py "Rating Date")
                                     (astype_str (getcol df (py "Rating Date"))))
                                  row (py "Rating Date"))))) ])
    (filter (fun i => negb (re_match (app1.date_format U)
                              (str_ (at_ df i (py "Rating Date")))))
            (seq 0 (nrows df))))).
Proof.
  intros _. unfold app1_report. cbv zeta. simpl get. do 3 f_equal.
  unfold str_match_na_false. rewrite map_getcol, map_map, nrows_setcol.
  rewrite index_where_map_seq. apply filter_ext_in. intros i Hi.
  apply in_seq in Hi. rewrite at_setcol_same. unfold astype_str.
  rewrite map_getcol.
  rewrite (nth_map_seq (fun j => Str (str_ (at_ df j (py "Rating Date")))))
    by lia.
  reflexivity.
Qed.

(** In [app1.py] every row is reported: a row with an empty Rating Date
    by rule 1, a row whose date has the form of rule 6 by rule 2, which
    has no slash among its characters, and any other row by rule 6. *)
Lemma app1_every_row_is_reported (U : UnicodeDB) (df : DataFrame) (i : nat) :
  has_columns app1.accessed_columns df = true ->
  i < nrows df ->
  exists report bc ne dt e,
    fst (app1.validate_file U df) = Returns report /\
    get "blank_cells" report = Some (PyList bc) /\
    get "non_english_chars" report = Some (PyList ne) /\
    get "invalid_date_format" report = Some (PyList dt) /\
    Flask2.on_row (i + 2) e = true /\
    (In e bc \/ In e ne \/ In e dt).
Proof.
  intros Hc Hi. rewrite (app1_validate_file_returns U df Hc). simpl fst.
  assert (Hrd : In (py "Rating Date") (columns df)).
  { apply (has_columns_In _ _ _ Hc). apply mem_In. vm_compute. reflexivity. }
  pose proof (proj2 (mem_In _ _) Hrd) as Hm.
  exists (app1_report U df), (app1.blank_cells df), (app1.non_english_chars U df).
  eexists.
  cut (exists e, Flask2.on_row (i + 2) e = true /\
         (In e (app1.blank_cells df) \/ In e (app1.non_english_chars U df) \/
          In e (map (fun row =>
      Dict [ ("row", Int (row + 2));
             ("Rating Date",
              Val (Str (str_ (at_ (setcol df (py "Rating Date")
                                     (astype_str (getcol df (py "Rating Date"))))
                                  row (py "Rating Date"))))) ])
    (filter (fun i => negb (re_match (app1.date_format U)
                              (str_ (at_ df i (py "Rating Date")))))
            (seq 0 (nrows df)))))).
  { intros [e [He Hin]]. exists e.
    split; [reflexivity|]. split; [reflexivity|]. split; [reflexivity|].
    split; [exact (app1_date_rows U df Hm)|]. split; [exact He | exact Hin]. }
  destruct (at_ df i (py "Rating Date")) as [|v|b] eqn:Ex.
  - (* empty: rule 1 *)
    eexists. split; [|left].
    2:{ unfold app1.blank_cells. cbv zeta.
        assert (Hrow : existsb (fun c => isna (at_ df i c)) (columns df) = true).
        { apply existsb_exists. exists (py "Rating Date"). split; [exact Hrd|].
          now rewrite Ex. }
        assert (Hany : existsb (fun b => b)
                  (row_mask df (fun i => existsb (fun c => isna (at_ df i c))
                                           (columns df))) = true).
        { apply existsb_exists. exists true. split; [|reflexivity].
          unfold row_mask. apply in_map_iff. exists i. split; [exact Hrow|].
          apply in_seq. lia. }
        rewrite Hany, index_where_row_mask.
        apply in_map_iff. exists i. split; [reflexivity|].
        apply filter_In. split; [apply in_seq; lia | exact Hrow]. }
    unfold Flask2.on_row. simpl. apply Nat.eqb_refl.
  - destruct (re_match (app1.date_format U) v) eqn:Ed.
    + (* the form of a date: rule 2 *)
      exists (Dict [ ("row", Int (i + 2)); ("column", Val (Str (py "Rating Date")));
                     ("value", Val (Str v)) ]).
      split; [unfold Flask2.on_row; simpl; apply Nat.eqb_refl|].
      right. left. unfold app1.non_english_chars. cbv zeta.
      pose proof (well_formed_date_is_not_english U v Ed) as He.
      assert (Hcell : negb (if negb (isna (at_ df i (py "Rating Date")))
                            then re_match (app1.english U)
                                   (str_ (at_ df i (py "Rating Date")))
                            else true) = true).
      { rewrite Ex. simpl. now rewrite He. }
      apply in_flat_map. exists i. split.
      * unfold row_mask. rewrite map_map, index_where_map_seq. apply filter_In.
        split; [apply in_seq; lia|]. apply negb_true_iff.
        destruct (forallb _ (columns df)) eqn:F; [|reflexivity].
        rewrite forallb_forall in F. specialize (F _ Hrd).
        apply negb_true_iff in Hcell. congruence.
      * apply in_map_iff. exists (py "Rating Date"). split.
        -- now rewrite Ex.
        -- apply filter_In. split; assumption.
    + (* anything else: rule 6 *)
      eexists. split; [|right; right; apply in_map_iff; exists i; split; [reflexivity|];
               apply filter_In; split; [apply in_seq; lia|];
               cbv beta; rewrite Ex; simpl; now rewrite Ed].
      unfold Flask2.on_row. simpl. apply Nat.eqb_refl.
  - (* a flag, whose text is True or False: rule 6 *)
    eexists. split; [|right; right; apply in_map_iff; exists i; split; [reflexivity|];
             apply filter_In; split; [apply in_seq; lia|];
             cbv beta; rewrite Ex; destruct b; vm_compute; reflexivity].
    unfold Flask2.on_row. simpl. apply Nat.eqb_refl.
Qed.

(* ================================================================= *)
(** * App.py: how the function ends and what the report holds *)

Lemma ascending_map_filter_seq (p : nat -> bool) (d k n : nat) :
  ascending (map (fun i => i + d) (filter p (seq k n))) = true.
Proof.
  assert (G : forall n k lo, lo <= k ->
            match map (fun i => i + d) (filter p (seq k n)) with
            | [] => True | a :: _ => lo + d <= a end /\
            ascending (map (fun i => i + d) (filter p (seq k n))) = true).
  { clear. induction n as [|n IH]; intros k lo Hlo; simpl; [auto|].
    destruct (IH (S k) (S k) (le_n _)) as [Hh Ha].
    destruct (p k); simpl.
    - split; [lia|].
      destruct (map (fun i => i + d) (filter p (seq (S k) n))) as [|b t] eqn:E; [reflexivity|].
      apply andb_true_iff. split; [apply Nat.ltb_lt; lia|exact Ha].
    - split; [|exact Ha].
      destruct (map (fun i => i + d) (filter p (seq (S k) n))); [exact I|lia]. }
  apply (G n k k (le_n _)).
Qed.

Ltac outcome_cases :=
  repeat split; intros;
  repeat match goal with
         | H : exists _, _ |- _ => destruct H
         | H : _ /\ _ |- _ => destruct H
         end;
  try discriminate; try congruence; eauto.

(** X1.  How [validate_excel] ends, for every frame: it reaches its
    report exactly when every required column is there and no cell of
    Countries, Languages and Rating Date is empty; with every column
    there and such a cell empty it raises [TypeError]; it raises the
    [ValueError] of line 23 exactly when a required column is missing;
    and it never raises [KeyError]. *)
Theorem validate_excel_outcome (U : UnicodeDB) (df : DataFrame) :
  ((exists r, fst (App.validate_excel U df) = Returns r) <->
     has_columns App.required_columns df = true /\
     App.no_empty_cell df = true) /\
  (fst (App.validate_excel U df) = Raises TypeError <->
     has_columns App.required_columns df = true /\
     App.no_empty_cell df = false) /\
  ((exists missing, fst (App.validate_excel U df) = Raises (ValueError missing)) <->
     has_columns App.required_columns df = false) /\
  (forall c, fst (App.validate_excel U df) <> Raises (KeyError c)).
Proof.
  destruct (has_columns App.required_columns df) eqn:Hc.
  - destruct (App.no_empty_cell df) eqn:He.
    + rewrite (validate_excel_returns U df Hc He). simpl fst.
      outcome_cases.
    + rewrite (validate_excel_type_error U df Hc He).
      outcome_cases.
  - destruct (has_columns_false _ _ Hc) as [c [Hin Hout]].
    destruct (filter (fun col => negb (mem col (columns df))) App.required_columns)
      as [|m ms] eqn:E.
    + exfalso. eapply filter_nonempty in E; [exact E|exact Hin|].
      apply negb_true_iff. destruct (mem c (columns df)) eqn:Hm; [|reflexivity].
      apply mem_In in Hm. contradiction.
    + rewrite (schema_check_fails U df m ms E). simpl fst.
      outcome_cases.
Qed.

Lemma flagged_false_messages U df i :
  App.flagged U df i = false -> App.messages U df i = [].
Proof.
  unfold App.flagged, App.messages. rewrite !orb_false_iff.
  intros [[[[[[[-> ->] ->] ->] ->] ->] ->] ->]. reflexivity.
Qed.

Lemma in_report_iff U df i (m : pystr) :
  i < nrows df ->
  (exists msgs,
     In (i + 1, msgs)
        (map (fun i => (i + 1, App.messages U df i))
             (filter (App.flagged U df) (seq 0 (nrows df)))) /\
     In m msgs) <-> In m (App.messages U df i).
Proof.
  intros Hi. split.
  - intros [msgs [Hin Hm]]. apply in_map_iff in Hin as [j [Hj _]].
    injection Hj as Hj <-. assert (j = i) by lia. now subst j.
  - intros Hm. exists (App.messages U df i). split; [|exact Hm].
    apply in_map_iff. exists i. split; [reflexivity|].
    apply filter_In. split; [apply in_seq; lia|].
    destruct (App.flagged U df i) eqn:F; [reflexivity|].
    rewrite (flagged_false_messages _ _ _ F) in Hm. destruct Hm.
Qed.

Ltac message_origin :=
  unfold App.messages; rewrite !in_app_iff, !In_when; split;
  [ intros [H|[H|[H|[H|[H|[H|[H|H]]]]]]]; destruct H as [Hb He];
    try (exfalso; vm_compute in He; discriminate He); exact Hb
  | intros H; tauto ].

Lemma missing_message_origin U df i :
  In App.msg_missing (App.messages U df i) <-> App.missing_value df i = true.
Proof. message_origin. Qed.

Lemma duplicate_message_origin U df i :
  In (App.msg_duplicate (at_ df i (py "GTI"))) (App.messages U df i)
  <-> App.gti_duplicate df i = true.
Proof. message_origin. Qed.

Lemma non_english_message_origin U df i :
  In App.msg_non_english (App.messages U df i) <-> App.non_english_found U df i = true.
Proof. message_origin. Qed.

Lemma impact_blank_message_origin U df i :
  In App.msg_impact_blank (App.messages U df i) <-> App.impact_column_blank df i = true.
Proof. message_origin. Qed.

Lemma impact_invalid_message_origin U df i :
  In App.msg_impact_invalid (App.messages U df i) <-> App.impact_column_invalid df i = true.
Proof. message_origin. Qed.

Lemma when_nil (b : bool) (m : pystr) : App.when b m = [] -> b = false.
Proof. destruct b; [discriminate|reflexivity]. Qed.

Lemma flagged_true_messages U df i :
  App.flagged U df i = true -> App.messages U df i <> [].
Proof.
  unfold App.flagged, App.messages. intros F E.
  repeat (apply app_eq_nil in E as [?E E]).
  repeat match goal with
         | H : App.when _ _ = [] |- _ => apply when_nil in H; rewrite H in F
         end.
  discriminate F.
Qed.

Lemma when_length (b : bool) (m : pystr) : List.length (App.when b m) <= 1.
Proof. destruct b; simpl; lia. Qed.

(** X2.  The report [validate_excel] prints lists its rows in strictly
    ascending order, each under a number from 1 to the number of rows
    (index + 1), each with at least one and at most eight messages; and
    a row is listed exactly when one of the eight rules flags it. *)
Theorem report_rows_and_messages (U : UnicodeDB) (df df' : DataFrame) (r : App.report) :
  App.validate_excel U df = (Returns r, df') ->
  ascending (map fst r) = true /\
  (forall n msgs, In (n, msgs) r ->
     1 <= n <= nrows df /\ msgs <> [] /\ List.length msgs <= 8) /\
  (forall i, i < nrows df ->
     ((exists msgs, In (i + 1, msgs) r) <-> App.flagged U df i = true)).
Proof.
  intros H. apply validate_excel_returns_inv in H as (_ & _ & -> & _).
  split; [|split].
  - rewrite map_map. simpl. apply ascending_map_filter_seq.
  - intros n msgs Hin. apply in_map_iff in Hin as [j [Hj Hf]].
    injection Hj as <- <-. apply filter_In in Hf as [Hs Hf].
    apply in_seq in Hs. split; [lia|]. split.
    + now apply flagged_true_messages.
    + unfold App.messages. rewrite !length_app.
      pose proof when_length as W.
      repeat match goal with
             | |- context [List.length (App.when ?b ?m)] =>
                 let n := fresh "n" in
                 let E := fresh "E" in
                 pose proof (W b m) as E;
                 set (n := List.length (App.when b m)) in *; clearbody n
             end.
      lia.
  - intros i Hi. split.
    + intros [msgs Hin]. apply in_map_iff in Hin as [j [Hj Hf]].
      injection Hj as Hj _. assert (j = i) by lia. subst j.
      now apply filter_In in Hf.
    + intros Hf. exists (App.messages U df i). apply in_map_iff.
      exists i. split; [reflexivity|]. apply filter_In. split; [apply in_seq; lia|exact Hf].
Qed.

Lemma impact_columns_required (c : pystr) :
  In c App.impact_columns ->
  In c (filter (fun col => negb (pystr_eqb col (py "Other title names")))
               App.required_columns).
Proof.
  intros H. vm_compute in H. 
  repeat (destruct H as [<-|H]; [vm_compute; tauto|]). destruct H.
Qed.

Lemma blank_not_impact_value (x : cell) :
  App.blank x = true -> existsb (hash_eq x) App.impact_values = false.
Proof.
  destruct x as [|v|b]; simpl; try discriminate; [reflexivity|].
  destruct v; [reflexivity|discriminate].
Qed.

Lemma blank_cases (x : cell) : App.blank x = true <-> x = NaN \/ x = Str [].
Proof.
  destruct x as [|v|b]; simpl.
  - split; auto.
  - destruct v; simpl; split; auto; try discriminate.
    intros [H|H]; discriminate.
  - split; [discriminate|intros [H|H]; discriminate].
Qed.

(** X3.  In [App.py] an impact cell that is empty or the empty string
    is reported three times over: the row gets the message for missing
    required values, the message for blank impact columns and the
    message for invalid impact values. *)
Theorem blank_impact_cell_gets_three_messages
    (U : UnicodeDB) (df : DataFrame) (i : nat) (c : pystr) :
  has_columns App.required_columns df = true ->
  App.no_empty_cell df = true ->
  i < nrows df ->
  In c App.impact_columns ->
  at_ df i c = NaN \/ at_ df i c = Str [] ->
  exists report msgs,
    fst (App.validate_excel U df) = Returns report /\
    In (i + 1, msgs) report /\
    In App.msg_missing msgs /\
    In App.msg_impact_blank msgs /\
    In App.msg_impact_invalid msgs.
Proof.
  intros Hc He Hi Hin Hb. apply blank_cases in Hb.
  rewrite (validate_excel_returns U df Hc He). simpl fst.
  assert (B : App.impact_column_blank df i = true).
  { unfold App.impact_column_blank. apply existsb_exists. eauto. }
  assert (Mi : App.missing_value df i = true).
  { unfold App.missing_value. apply existsb_exists. exists c.
    split; [now apply impact_columns_required|exact Hb]. }
  assert (V : App.impact_column_invalid df i = true).
  { unfold App.impact_column_invalid. apply negb_true_iff.
    apply not_true_is_false. intros F.
    rewrite forallb_forall in F. specialize (F c Hin).
    rewrite (blank_not_impact_value _ Hb) in F. discriminate. }
  eexists. exists (App.messages U df i). split; [reflexivity|].
  split.
  - apply in_map_iff. exists i. split; [reflexivity|].
    apply filter_In. split; [apply in_seq; lia|].
    unfold App.flagged. rewrite Mi. reflexivity.
  - split; [now apply missing_message_origin|].
    split; [now apply impact_blank_message_origin
           |now apply impact_invalid_message_origin].
Qed.

(** X4.  The impact rules of [App.py], lines 51-53: a row gets the
    message for invalid values exactly when one of its six impact cells
    is not one of the strings None, Low, Medium and High, and the
    message for blank impact columns exactly when one of them is empty
    or the empty string. *)
Theorem impact_values_rule (U : UnicodeDB) (df : DataFrame) (i : nat) :
  has_columns App.required_columns df = true ->
  App.no_empty_cell df = true ->
  i < nrows df ->
  exists report,
    fst (App.validate_excel U df) = Returns report /\
    ((exists msgs, In (i + 1, msgs) report /\ In App.msg_impact_invalid msgs) <->
     exists c, In c App.impact_columns /\
               ~ In (at_ df i c) [ txt "None"; txt "Low"; txt "Medium"; txt "High" ]) /\
    ((exists msgs, In (i + 1, msgs) report /\ In App.msg_impact_blank msgs) <->
     exists c, In c App.impact_columns /\
               (at_ df i c = NaN \/ at_ df i c = Str [])).
Proof.
  intros Hc He Hi. rewrite (validate_excel_returns U df Hc He). simpl fst.
  eexists. split; [reflexivity|]. split.
  - rewrite (in_report_iff U df i _ Hi), impact_invalid_message_origin.
    unfold App.impact_column_invalid. rewrite negb_true_iff. split.
    + intros F.
      destruct (existsb (fun c => negb (existsb (hash_eq (at_ df i c)) App.impact_values))
                        App.impact_columns) eqn:E.
      * apply existsb_exists in E as [c [Hin Hn]]. exists c. split; [exact Hin|].
        apply negb_true_iff in Hn. intros HI.
        apply (existsb_hash_eq_In (at_ df i c) App.impact_values) in HI.
        congruence.
      * exfalso. 
        assert (A : forallb (fun c => existsb (hash_eq (at_ df i c)) App.impact_values)
                      App.impact_columns = true).
        { apply forallb_forall. intros c Hin.
          destruct (existsb (hash_eq (at_ df i c)) App.impact_values) eqn:E'; [reflexivity|].
          exfalso. apply not_true_iff_false in E. apply E. apply existsb_exists.
          exists c. split; [exact Hin|]. now rewrite E'. }
        congruence.
    + intros [c [Hin Hn]]. apply not_true_is_false. intros A.
      rewrite forallb_forall in A. specialize (A c Hin).
      apply existsb_hash_eq_In in A. exact (Hn A).
  - rewrite (in_report_iff U df i _ Hi), impact_blank_message_origin.
    unfold App.impact_column_blank. rewrite existsb_exists.
    split; intros [c [Hin Hb]]; exists c; (split; [exact Hin|]); now apply blank_cases.
Qed.

Lemma filter_length_two {A : Type} (q : A -> bool) (l : list A) (a b : A) :
  NoDup l -> In a l -> In b l -> a <> b -> q a = true -> q b = true ->
  2 <= List.length (filter q l).
Proof.
  intros Hnd Ha Hb Hab Qa Qb.
  change 2 with (List.length [a; b]).
  apply NoDup_incl_length.
  - repeat constructor; simpl; intuition.
  - intros x [<-|[<-|[]]]; apply filter_In; auto.
Qed.

Lemma existsb_false_forall {A : Type} (f : A -> bool) (l : list A) :
  existsb f l = false -> forall x, In x l -> f x = false.
Proof.
  induction l as [|a l IH]; simpl; intros H x; [tauto|].
  apply orb_false_iff in H as [Ha Hl]. intros [<-|Hx]; auto.
Qed.

Lemma filter_all_false {A : Type} (p : A -> bool) (l : list A) :
  (forall x, In x l -> p x = false) -> filter p l = [].
Proof.
  induction l as [|a l IH]; simpl; intros H; [reflexivity|].
  rewrite (H a (or_introl eq_refl)). apply IH. intros x Hx. apply H. now right.
Qed.

Lemma filter_length_other (q : nat -> bool) (n i : nat) :
  2 <= List.length (filter q (seq 0 n)) ->
  exists j, j < n /\ j <> i /\ q j = true.
Proof.
  intros H.
  destruct (existsb (fun j => negb (Nat.eqb i j) && q j) (seq 0 n)) eqn:E.
  - apply existsb_exists in E as [j [Hj Hq]]. apply in_seq in Hj.
    apply andb_true_iff in Hq as [Hne Hq]. apply negb_true_iff, Nat.eqb_neq in Hne.
    exists j. repeat split; [lia|congruence|exact Hq].
  - exfalso.
    assert (F : forall l, (forall j, In j l -> negb (Nat.eqb i j) && q j = false) ->
                          filter q l = filter (Nat.eqb i) (filter q l)).
    { induction l as [|x l IH]; intros Hl; [reflexivity|]. simpl.
      destruct (q x) eqn:Qx; simpl.
      - pose proof (Hl x (or_introl eq_refl)) as Hx. rewrite Qx, andb_true_r in Hx.
        apply negb_false_iff in Hx. rewrite Hx. f_equal. apply IH.
        intros j Hj. apply Hl. now right.
      - apply IH. intros j Hj. apply Hl. now right. }
    rewrite F in H.
    + destruct (Nat.lt_ge_cases i n) as [Hi|Hi].
      * rewrite (filter_eqb_filter_seq q i n Hi) in H. destruct (q i); simpl in H; lia.
      * assert (Z : filter (Nat.eqb i) (filter q (seq 0 n)) = []).
        { apply filter_all_false. intros j Hj. apply filter_In in Hj as [Hj _].
          apply in_seq in Hj. apply Nat.eqb_neq. lia. }
        rewrite Z in H. simpl in H. lia.
    + intros j Hj. exact (existsb_false_forall _ _ E j Hj).
Qed.

Lemma gti_duplicate_iff (df : DataFrame) (i : nat) :
  i < nrows df ->
  (App.gti_duplicate df i = true <->
   exists j, j < nrows df /\ j <> i /\
             at_ df j (py "GTI") = at_ df i (py "GTI")).
Proof.
  intros Hi. unfold App.gti_duplicate. cbv zeta.
  rewrite existsb_hash_eq_In, duplicated_select, filter_In.
  set (x := at_ df i (py "GTI")).
  assert (C : count x (getcol df (py "GTI")) =
              List.length (filter (fun j => hash_eq x (at_ df j (py "GTI")))
                                  (seq 0 (nrows df)))).
  { unfold count, getcol. rewrite filter_map_swap, length_map. reflexivity. }
  rewrite C. split.
  - intros [_ H]. apply Nat.leb_le in H.
    destruct (filter_length_other _ _ i H) as [j [Hj [Hne Hq]]].
    exists j. repeat split; auto. apply hash_eq_eq in Hq. symmetry. exact Hq.
  - intros [j [Hj [Hne He]]]. split.
    + unfold getcol. apply in_map_iff. exists i. split; [reflexivity|apply in_seq; lia].
    + apply Nat.leb_le. apply (filter_length_two _ _ i j).
      * apply seq_NoDup.
      * apply in_seq; lia.
      * apply in_seq; lia.
      * congruence.
      * apply hash_eq_refl.
      * apply hash_eq_eq. unfold x. symmetry. exact He.
Qed.

(* ================================================================= *)
(** * Rows without an identifier in the duplicate rule *)







(** X5.  The duplicate rule of [App.py], lines 26-27 and 74-75: row [i]
    gets the message that quotes its identifier exactly when another
    row holds the same GTI cell; two empty cells count as the same. *)
Theorem duplicate_message_rule (U : UnicodeDB) (df : DataFrame) (i : nat) :
  has_columns App.required_columns df = true ->
  App.no_empty_cell df = true ->
  i < nrows df ->
  exists report,
    fst (App.validate_excel U df) = Returns report /\
    ((exists msgs, In (i + 1, msgs) report /\
                   In (App.msg_duplicate (at_ df i (py "GTI"))) msgs) <->
     exists j, j < nrows df /\ j <> i /\
               at_ df j (py "GTI") = at_ df i (py "GTI")).
Proof.
  intros Hc He Hi. rewrite (validate_excel_returns U df Hc He). simpl fst.
  eexists. split; [reflexivity|].
  rewrite (in_report_iff U df i _ Hi), duplicate_message_origin.
  now apply gti_duplicate_iff.
Qed.

Lemma rev_last_newline (s r : pystr) (x : N) :
  rev s = x :: r -> s = rev r ++ [x].
Proof. intros E. rewrite <- (rev_involutive s), E. reflexivity. Qed.

Lemma re_match_cases (r : regex) (s : pystr) :
  re_match r s = true <->
  fullmatch r s = true \/ exists t, s = t ++ [10%N] /\ fullmatch r t = true.
Proof.
  unfold re_match. rewrite orb_true_iff. split; (intros [H|H]; [now left|right]).
  - destruct (rev s) as [|x q] eqn:E; [discriminate|].
    destruct (N.eqb_spec x 10) as [->|Hne].
    + exists (rev q). split; [now apply rev_last_newline|exact H].
    + destruct x as [|p]; [discriminate|].
      do 4 (destruct p as [p|p|]; try discriminate). now contradiction Hne.
  - destruct H as [t [-> H]]. rewrite rev_app_distr. simpl.
    now rewrite rev_involutive.
Qed.

Lemma app_english_class (U : UnicodeDB) (c : N) :
  fullmatch (alts [ rng "a" "z"; rng "A" "Z"; rng "0" "9"; re_s U;
                    chr ".,&()'"; code 34; chr "-" ]) [c]
  = app_english_char U c.
Proof.
  unfold alts, rng, chr, code, re_s. rewrite !fullmatch_Alt, !fullmatch_Cls.
  unfold app_english_char. eval_literals. cbn [existsb].
  rewrite (N.eqb_sym 34 c), !orb_false_r, !orb_assoc. reflexivity.
Qed.

Lemma forallb_pointwise {A : Type} (f g : A -> bool) (l : list A) :
  (forall x, f x = g x) -> forallb f l = forallb g l.
Proof. intros H. induction l as [|a l IH]; simpl; [reflexivity|]. now rewrite H, IH. Qed.

Lemma app_english_fullmatch (U : UnicodeDB) (v : pystr) :
  fullmatch (App.english_regex U) v = forallb (app_english_char U) v.
Proof.
  unfold App.english_regex. rewrite fullmatch_Star_chars.
  - apply forallb_pointwise. intros c. apply app_english_class.
  - intros u Hu. unfold alts, rng, chr, code, re_s in Hu.
    repeat (apply matches_alt_inv in Hu as [Hu|Hu];
            [apply matches_cls_inv in Hu as [c [-> _]]; now exists c|]).
    apply matches_cls_inv in Hu as [c [-> _]]. now exists c.
Qed.

Lemma app_english_match (U : UnicodeDB) (v : pystr) :
  re_match (App.english_regex U) v = forallb (app_english_char U) v.
Proof.
  apply bool_eq_iff. rewrite re_match_cases. split.
  - intros [H|[t [-> H]]]; rewrite app_english_fullmatch in H; [exact H|].
    rewrite forallb_app, H. reflexivity.
  - intros H. left. now rewrite app_english_fullmatch.
Qed.

Lemma forallb_false_exists {A : Type} (p : A -> bool) (l : list A) :
  forallb p l = false <-> exists x, In x l /\ p x = false.
Proof.
  induction l as [|a l IH]; simpl.
  - split; [discriminate|intros [x [[] _]]].
  - rewrite andb_false_iff, IH. split.
    + intros [H|[x [Hx Hp]]]; eauto.
    + intros [x [[<-|Hx] Hp]]; eauto.
Qed.

(** X6.  The character rule of [App.py], lines 35-37: a row gets the
    message exactly when one of Title Name, Producers, Directors and
    Production Company Name holds a string with a character that is not
    a letter a-z or A-Z, a digit, white space or one of the marks of the
    pattern.  An empty cell never triggers it, and no other column is
    looked at. *)
Theorem non_english_message_rule (U : UnicodeDB) (df : DataFrame) (i : nat) :
  has_columns App.required_columns df = true ->
  App.no_empty_cell df = true ->
  i < nrows df ->
  exists report,
    fst (App.validate_excel U df) = Returns report /\
    ((exists msgs, In (i + 1, msgs) report /\ In App.msg_non_english msgs) <->
     exists c v ch,
       In c [ py "Title Name"; py "Producers"; py "Directors";
              py "Production Company Name" ] /\
       at_ df i c = Str v /\ In ch v /\ app_english_char U ch = false).
Proof.
  intros Hc He Hi. rewrite (validate_excel_returns U df Hc He). simpl fst.
  eexists. split; [reflexivity|].
  rewrite (in_report_iff U df i _ Hi), non_english_message_origin.
  unfold App.non_english_found. rewrite existsb_exists. split.
  - intros [c [Hin Hm]]. destruct (at_ df i c) as [|v|b] eqn:E; try discriminate Hm.
    simpl in Hm. rewrite app_english_match in Hm.
    destruct (forallb (app_english_char U) v) eqn:F; [discriminate Hm|].
    apply forallb_false_exists in F as [ch [Hch Hf]].
    exists c, v, ch. auto.
  - intros [c [v [ch [Hin [E [Hch Hf]]]]]]. exists c. split; [exact Hin|].
    rewrite E. simpl. rewrite app_english_match.
    assert (F : forallb (app_english_char U) v = false)
      by (apply forallb_false_exists; eauto).
    now rewrite F.
Qed.

(* ================================================================= *)
(** * Flask2.py, app1.py and Flask.py: the outcome and the rules *)

Lemma strings_false_iff (df : DataFrame) (c : pystr) :
  strings df c = false <->
  exists i, i < nrows df /\ is_str (at_ df i c) = false.
Proof.
  unfold strings. rewrite forallb_false_exists. split.
  - intros [i [Hi H]]. apply in_seq in Hi. exists i. split; [lia|exact H].
  - intros [i [Hi H]]. exists i. split; [apply in_seq; lia|exact H].
Qed.

(** X7.  How [Flask2.validate_file] ends once the frame is loaded: it
    raises [TypeError] exactly when the frame has both Countries and
    Languages and a row where one of the two cells is not a string (an
    empty cell); otherwise it returns the report of six categories; it
    raises nothing else. *)
Theorem flask2_validate_file_outcome (U : UnicodeDB) (df : DataFrame) :
  (Flask2.validate_file U df = Raises TypeError <->
   In (py "Countries") (columns df) /\ In (py "Languages") (columns df) /\
   exists i, i < nrows df /\
     (is_str (at_ df i (py "Countries")) = false \/
      is_str (at_ df i (py "Languages")) = false)) /\
  (Flask2.validate_file U df <> Raises TypeError ->
   Flask2.validate_file U df = Returns (Dict [ ("errors", Flask2.errors U df) ])) /\
  (forall e, Flask2.validate_file U df = Raises e -> e = TypeError).
Proof.
  assert (N : Flask2.numbers_filled df = false <->
     In (py "Countries") (columns df) /\ In (py "Languages") (columns df) /\
     exists i, i < nrows df /\
       (is_str (at_ df i (py "Countries")) = false \/
        is_str (at_ df i (py "Languages")) = false)).
  { unfold Flask2.numbers_filled.
    rewrite orb_false_iff, negb_false_iff, andb_true_iff, andb_false_iff,
      !mem_In, !strings_false_iff.
    split.
    - intros [[Hc Hl] [[i [Hi H]]|[i [Hi H]]]]; repeat split; eauto.
    - intros [Hc [Hl [i [Hi [H|H]]]]]; repeat split; eauto. }
  destruct (Flask2.numbers_filled df) eqn:F.
  - rewrite (flask2_validate_file_returns U df F).
    split; [|split].
    + split; [discriminate|]. intros H. apply N in H. discriminate.
    + reflexivity.
    + discriminate.
  - rewrite (flask2_validate_file_raises U df F).
    split; [|split].
    + split; [intros _; now apply N|reflexivity].
    + intros H. now contradiction H.
    + intros e H. now injection H as <-.
Qed.

Lemma unique_from_spec (l seen : list cell) :
  NoDup (unique_from seen l) /\
  (forall x, In x (unique_from seen l) <-> In x l /\ ~ In x seen).
Proof.
  revert seen. induction l as [|a l IH]; intros seen; simpl.
  - split; [constructor|]. intros x. tauto.
  - destruct (existsb (hash_eq a) seen) eqn:E.
    + destruct (IH seen) as [Hnd Hin]. split; [exact Hnd|].
      intros x. rewrite Hin. apply existsb_hash_eq_In in E.
      split; [tauto|]. intros [[<-|Hx] Hs]; [contradiction|tauto].
    + destruct (IH (a :: seen)) as [Hnd Hin]. split.
      * constructor; [|exact Hnd]. rewrite Hin. simpl. tauto.
      * intros x. simpl. rewrite Hin. simpl.
        assert (Ha : ~ In a seen).
        { intros Ha. apply existsb_hash_eq_In in Ha. congruence. }
        split.
        -- intros [<-|[Hx Hs]]; [tauto|tauto].
        -- intros [[<-|Hx] Hs]; [now left|].
           destruct (hash_eq a x) eqn:Eax.
           ++ apply hash_eq_eq in Eax. now left.
           ++ right. split; [exact Hx|]. intros [->|H]; [|contradiction].
              rewrite hash_eq_refl in Eax. discriminate.
Qed.

Lemma unique_NoDup (l : list cell) : NoDup (unique l).
Proof. apply unique_from_spec. Qed.

Lemma unique_In (l : list cell) (x : cell) : In x (unique l) <-> In x l.
Proof. unfold unique. rewrite (proj2 (unique_from_spec l [])). simpl. tauto. Qed.

Lemma count_rows (df : DataFrame) (c : pystr) (x : cell) :
  count x (getcol df c) =
  List.length (filter (fun i => hash_eq x (at_ df i c)) (seq 0 (nrows df))).
Proof. unfold count, getcol. now rewrite filter_map_swap, length_map. Qed.

Lemma count_pos (x : cell) (g : Series) : In x g -> 1 <= count x g.
Proof.
  intros H. unfold count.
  assert (I : In x (filter (hash_eq x) g)).
  { apply filter_In. split; [exact H|apply hash_eq_refl]. }
  destruct (filter (hash_eq x) g); [destruct I|simpl; lia].
Qed.

Lemma hash_eq_py_eq (x v : cell) : v <> NaN -> hash_eq v x = py_eq x v.
Proof.
  intros Hv. destruct v as [|s|b]; [contradiction| |]; destruct x as [|t|c]; simpl;
    try reflexivity.
  - apply bool_eq_iff. rewrite !pystr_eqb_eq. split; congruence.
  - destruct b, c; reflexivity.
Qed.

(** X8.  The clusters of [Flask2.py] rule 3: every cluster belongs to an
    identifier that two or more rows hold, and lists the rows whose GTI
    equals it: at least two for a string, none for the empty
    identifier, for which [==] is never true.  No identifier has two
    clusters. *)
Theorem duplicate_clusters_well_formed (df : DataFrame) :
  (forall e, In e (Flask2.duplicate_gti df) ->
     exists v rows,
       e = Dict [ ("GTI", Val v); ("rows", row_numbers rows) ] /\
       rows = filter (fun i => py_eq (at_ df i (py "GTI")) v)
                     (seq 0 (nrows df)) /\
       2 <= count v (getcol df (py "GTI")) /\
       (v <> NaN -> 2 <= List.length rows) /\
       (v = NaN -> rows = [])) /\
  (forall v,
     List.length (filter (Flask2.has_gti v) (Flask2.duplicate_gti df)) <= 1).
Proof.
  split.
  - intros e He. unfold Flask2.duplicate_gti in He.
    destruct (mem (py "GTI") (columns df)); [|contradiction].
    cbv zeta in He. apply in_map_iff in He as [v [<- Hv]].
    apply (proj1 (unique_In _ _)) in Hv. rewrite duplicated_select in Hv.
    apply filter_In in Hv as [_ Hc]. apply Nat.leb_le in Hc.
    exists v. eexists. split; [reflexivity|]. rewrite cluster_rows.
    split; [reflexivity|]. split; [exact Hc|]. split.
    + intros Hn. rewrite count_rows in Hc.
      rewrite (filter_ext _ (fun i => hash_eq v (at_ df i (py "GTI")))).
      * exact Hc.
      * intros i. symmetry. now apply hash_eq_py_eq.
    + intros ->. apply filter_all_false. intros i _.
      destruct (at_ df i (py "GTI")); reflexivity.
  - intros v. unfold Flask2.duplicate_gti.
    destruct (mem (py "GTI") (columns df)); [|simpl; lia].
    cbv zeta. rewrite filter_map_swap.
    rewrite (filter_ext _ (fun x => hash_eq x v)) by (intros x; reflexivity).
    rewrite unique_filter, length_map.
    destruct (existsb _ _); simpl; lia.
Qed.



Lemma loose_date_spec (U : UnicodeDB) (t : pystr) :
  re_match (Flask2.date_format U) t = true <->
  dd_dd_dddd U t = true \/
  exists t', t = t' ++ [10%N] /\ dd_dd_dddd U t' = true.
Proof.
  change (Flask2.date_format U) with (app1.date_format U).
  rewrite re_match_cases, loose_date_fullmatch. split.
  - intros [H|[t' [-> H]]]; [now left|right]. exists t'.
    rewrite loose_date_fullmatch in H. now split.
  - intros [H|[t' [-> H]]]; [now left|right]. exists t'.
    rewrite loose_date_fullmatch. now split.
Qed.

Lemma in_rows_iff {A : Type} (f : A -> pyval) (p : nat -> bool) (n i : nat)
    (g : nat -> A) (k : string) :
  i < n ->
  In (Dict (("row", Int (i + 2)) :: [(k, f (g i))]))
     (map (fun row => Dict (("row", Int (row + 2)) :: [(k, f (g row))]))
          (filter p (seq 0 n)))
  <-> p i = true.
Proof.
  intros Hi. rewrite in_map_iff. split.
  - intros [j [Hj Hf]]. injection Hj as Hj _. assert (j = i) by lia. subst j.
    now apply filter_In in Hf.
  - intros Hp. exists i. split; [reflexivity|]. apply filter_In.
    split; [apply in_seq; lia|exact Hp].
Qed.

(** X10.  The date rule of [Flask2.py], lines 85-92, on a frame on
    which the function returns: row [i] is reported exactly when the
    text of its Rating Date is not two digits, a slash, two digits, a
    slash and four digits (with or without one newline at the end);
    the month and the day are not range-checked.  An empty cell reads
    as the text nan and is reported, with the value [NaN]. *)
Theorem flask2_date_rule (U : UnicodeDB) (df : DataFrame) (i : nat) :
  Flask2.numbers_filled df = true ->
  In (py "Rating Date") (columns df) ->
  i < nrows df ->
  exists errors dates,
    Flask2.validate_file U df = Returns (Dict [ ("errors", errors) ]) /\
    get "invalid_date_format" errors = Some (PyList dates) /\
    (In (Dict [ ("row", Int (i + 2));
                ("Rating Date", Val (at_ df i (py "Rating Date"))) ]) dates
     <-> ~ (dd_dd_dddd U (str_ (at_ df i (py "Rating Date"))) = true \/
            exists t, str_ (at_ df i (py "Rating Date")) = t ++ [10%N] /\
                      dd_dd_dddd U t = true)) /\
    (at_ df i (py "Rating Date") = NaN ->
     In (Dict [ ("row", Int (i + 2)); ("Rating Date", Val NaN) ]) dates).
Proof.
  intros Hf Hc Hi. rewrite (flask2_validate_file_returns U df Hf).
  exists (Flask2.errors U df), (Flask2.date_rows U df).
  split; [reflexivity|]. split; [reflexivity|].
  assert (R : In (Dict [ ("row", Int (i + 2));
                ("Rating Date", Val (at_ df i (py "Rating Date"))) ])
                 (Flask2.date_rows U df)
              <-> re_match (Flask2.date_format U)
                    (str_ (at_ df i (py "Rating Date"))) <> true).
  { unfold Flask2.date_rows. apply mem_In in Hc. rewrite Hc.
    rewrite (in_rows_iff Val _ (nrows df) i
               (fun j => at_ df j (py "Rating Date")) "Rating Date" Hi).
    rewrite negb_true_iff. symmetry. apply not_true_iff_false. }
  split.
  - rewrite R, loose_date_spec. tauto.
  - intros E. rewrite <- E. apply R. rewrite E. vm_compute. discriminate.
Qed.

(** X11.  How [app1.validate_file] ends once the frame is loaded.  On
    a frame with rows it raises [KeyError] for the first of GTI,
    Countries, Languages, Age Rating ID and Rating Date that the frame
    lacks.  On a frame without rows GTI is not asked for, since
    [duplicated] answers before it looks for the column, and the first
    missing one of the other four raises [KeyError].  A frame with rows
    and no column at all raises [IndexingError] at line 44.  A raise
    leaves the frame as loaded; when nothing is missing the function
    returns its report and leaves Rating Date converted to text. *)
Theorem app1_validate_file_outcome (U : UnicodeDB) (df : DataFrame) :
  app1.validate_file U df =
  if (0 <? nrows df) && (List.length (columns df) =? 0)
  then (Raises IndexingError, df)
  else
    match find (fun c => negb (mem c (columns df)))
               ((if nrows df =? 0 then [] else [ py "GTI" ]) ++
                [ py "Countries"; py "Languages"; py "Age Rating ID";
                  py "Rating Date" ]) with
    | Some c => (Raises (KeyError c), df)
    | None =>
        (Returns (app1_report U df),
         setcol df (py "Rating Date")
                (astype_str (getcol df (py "Rating Date"))))
    end.
Proof.
  unfold app1.validate_file, app1.selected_duplicates, app1.invalid_date_format,
    bind, frame, assign, ret, raise.
  destruct (nrows df) as [|n]; cbn [Nat.eqb Nat.ltb Nat.leb andb app].
  2: (destruct (columns df) as [|c l] eqn:Hc; [reflexivity|];
      cbn [List.length Nat.eqb]; rewrite <- Hc; clear Hc).
  all: simpl find.
  2: destruct (mem (py "GTI") (columns df)) eqn:H1;
       [rewrite (column_present _ _ H1) | (now rewrite (column_absent _ _ H1))].
  all: destruct (mem (py "Countries") (columns df)) eqn:H2;
    [rewrite (column_present _ _ H2) | (now rewrite (column_absent _ _ H2))].
  all: destruct (mem (py "Languages") (columns df)) eqn:H3;
    [rewrite (column_present _ _ H3) | (now rewrite (column_absent _ _ H3))].
  all: destruct (mem (py "Age Rating ID") (columns df)) eqn:H4;
    [rewrite (column_present _ _ H4) | (now rewrite (column_absent _ _ H4))].
  all: destruct (mem (py "Rating Date") (columns df)) eqn:H5;
    [rewrite (column_present _ _ H5) | (now rewrite (column_absent _ _ H5))].
  all: reflexivity.
Qed.

(** A sheet without rows that lacks the column GTI: rule 3 does not
    raise, and the report has six empty categories. *)
Lemma app1_header_only_sheet :
  mem (py "GTI") (columns header_only_frame) = false /\
  fst (app1.validate_file ascii_only header_only_frame) =
    Returns (Dict [ ("blank_cells", PyList []);
                    ("non_english_chars", PyList []);
                    ("duplicate_gtis", PyList []);
                    ("invalid_country_language", PyList []);
                    ("invalid_age_rating", PyList []);
                    ("invalid_date_format", PyList []) ]).
Proof. split; vm_compute; reflexivity. Qed.

Lemma not_In_mem (c : pystr) (l : list pystr) : ~ In c l -> mem c l = false.
Proof.
  intros H. destruct (mem c l) eqn:E; [|reflexivity].
  apply mem_In in E. contradiction.
Qed.

(** X12.  [Flask.validate_file] raises on no frame: every rule that
    reads a column first tests that the column is there.  The report
    has the six categories; the category of a rule whose column is
    missing is empty, and without Rating Date the frame is left as
    loaded. *)
Theorem flask_validate_file_never_raises (U : UnicodeDB) (df : DataFrame) :
  exists r,
    fst (Flask.validate_file U df) = Returns r /\
    keys r = [ "blank_cells"; "non_english_chars"; "duplicate_gtis";
               "invalid_country_language"; "invalid_age_rating";
               "invalid_date_format" ] /\
    (~ In (py "GTI") (columns df) ->
     get "duplicate_gtis" r = Some (PyList [])) /\
    (~ (In (py "Countries") (columns df) /\ In (py "Languages") (columns df)) ->
     get "invalid_country_language" r = Some (PyList [])) /\
    (~ In (py "Age Rating ID") (columns df) ->
     get "invalid_age_rating" r = Some (PyList [])) /\
    (~ In (py "Rating Date") (columns df) ->
     get "invalid_date_format" r = Some (PyList []) /\
     snd (Flask.validate_file U df) = df).
Proof.
  exists (flask_report U df). split; [apply flask_validate_file_returns|].
  split; [reflexivity|]. unfold flask_report. cbv zeta. simpl get.
  split; [|split; [|split]].
  - intros H. now rewrite (not_In_mem _ _ H).
  - intros H.
    destruct (mem (py "Countries") (columns df)) eqn:E1; [|reflexivity].
    destruct (mem (py "Languages") (columns df)) eqn:E2; [|reflexivity].
    exfalso. apply H. split; now apply mem_In.
  - intros H. now rewrite (not_In_mem _ _ H).
  - intros H. rewrite (not_In_mem _ _ H). split; [reflexivity|].
    unfold Flask.validate_file, Flask.invalid_date_format, bind, frame, ret.
    now rewrite (not_In_mem _ _ H).
Qed.

Lemma isna_NaN (x : cell) : isna x = true <-> x = NaN.
Proof. destruct x; simpl; split; congruence. Qed.

Lemma column_has_blank (df : DataFrame) (c : pystr) :
  existsb isna (getcol df c) = true <->
  exists j, j < nrows df /\ at_ df j c = NaN.
Proof.
  rewrite existsb_exists. unfold getcol. split.
  - intros [x [Hx Hn]]. apply in_map_iff in Hx as [j [<- Hj]].
    apply in_seq in Hj. exists j. split; [lia|now apply isna_NaN].
  - intros [j [Hj Hn]]. exists (at_ df j c). split.
    + apply in_map_iff. exists j. split; [reflexivity|apply in_seq; lia].
    + now apply isna_NaN.
Qed.

Lemma app1_blank_cells_rows (df : DataFrame) :
  app1.blank_cells df =
  map (fun row =>
         Dict [ ("row", Int (row + 2));
                ("columns",
                 names (filter (fun c => existsb isna (getcol df c))
                               (columns df))) ])
      (filter (fun i => existsb (fun c => isna (at_ df i c)) (columns df))
              (seq 0 (nrows df))).
Proof.
  unfold app1.blank_cells. cbv zeta. rewrite index_where_row_mask.
  destruct (existsb (fun b => b) (row_mask df _)) eqn:E; [reflexivity|].
  assert (Z : filter (fun i => existsb (fun c => isna (at_ df i c)) (columns df))
                     (seq 0 (nrows df)) = []).
  { apply filter_all_false. intros i Hi.
    apply (existsb_false_forall (fun b : bool => b) _ E).
    unfold row_mask.
    now apply (in_map (fun i => existsb (fun c => isna (at_ df i c)) (columns df))). }
  now rewrite Z.
Qed.

(** C6, as the code has it.  Rule 1 of [Flask2.validate_file]: a cell is
    blank when it is empty; the column Other Title Name(s) never makes a
    row offend; a row with an empty cell in another column gets exactly
    one violation, and its column list is the row's own empty columns.
    Rule 1 of [Flask.validate_file] exempts no column: a row gets
    exactly one violation when any of its cells is empty. *)
Theorem blank_rule_per_row (U : UnicodeDB) (df : DataFrame) (i : nat) :
  i < nrows df ->
  filter (Flask2.on_row (i + 2)) (Flask2.blank_cells df) =
    (if existsb (fun c => negb (pystr_eqb c (py "Other Title Name(s)")) &&
                          isna (at_ df i c))
                (columns df)
     then [ Dict [ ("row", Int (i + 2));
                   ("columns", names (filter (fun c => isna (at_ df i c))
                                             (columns df))) ] ]
     else []) /\
  (Flask2.numbers_filled df = true ->
   exists errors,
     Flask2.validate_file U df = Returns (Dict [ ("errors", errors) ]) /\
     get "blank_cells" errors = Some (PyList (Flask2.blank_cells df))) /\
  (exists report violations columns_listed,
     fst (Flask.validate_file U df) = Returns report /\
     get "blank_cells" report = Some (PyList violations) /\
     filter (Flask2.on_row (i + 2)) violations =
       if existsb (fun c => isna (at_ df i c)) (columns df)
       then [ Dict [ ("row", Int (i + 2)); ("columns", columns_listed) ] ]
       else []).
Proof.
  intros Hi.
  assert (R : forall j, Flask2.on_row (i + 2)
                (Dict [ ("row", Int (j + 2)) ]) = Nat.eqb i j).
  { intros j. unfold Flask2.on_row. simpl.
    destruct (Nat.eqb_spec (j + 2) (i + 2)), (Nat.eqb_spec i j);
      try lia; reflexivity. }
  split; [|split].
  - rewrite blank_cells_rows, filter_map_swap.
    rewrite (filter_ext _ (Nat.eqb i)) by (intros j; apply (R j)).
    rewrite filter_eqb_filter_seq by assumption.
    assert (E : forall l, existsb (fun c => isna (at_ df i c))
                  (filter (fun col => negb (pystr_eqb col (py "Other Title Name(s)"))) l)
                = existsb (fun c => negb (pystr_eqb c (py "Other Title Name(s)")) &&
                                    isna (at_ df i c)) l).
    { intros l. induction l as [|c l IH]; simpl; [reflexivity|].
      destruct (pystr_eqb c (py "Other Title Name(s)")); simpl; now rewrite IH. }
    rewrite E. now destruct (existsb _ (columns df)).
  - intros Hf. rewrite (flask2_validate_file_returns U df Hf).
    eexists. split; reflexivity.
  - exists (flask_report U df), (app1.blank_cells df),
      (names (filter (fun c => existsb isna (getcol df c)) (columns df))).
    split; [apply flask_validate_file_returns|]. split; [reflexivity|].
    rewrite app1_blank_cells_rows, filter_map_swap.
    rewrite (filter_ext _ (Nat.eqb i)) by (intros j; apply (R j)).
    rewrite filter_eqb_filter_seq by assumption.
    now destruct (existsb _ (columns df)).
Qed.

Lemma blank_rule_witness :
  Flask2.numbers_filled blank_frame = true /\
  1 < nrows blank_frame /\
  0 < nrows blank_frame /\
  filter (Flask2.on_row 3) (Flask2.blank_cells blank_frame) =
    [ Dict [ ("row", Int 3);
             ("columns", PyList [ Val (txt "GTI");
                                  Val (txt "Other Title Name(s)") ]) ] ] /\
  filter (Flask2.on_row 2) (Flask2.blank_cells blank_frame) = [] /\
  (exists errors,
     Flask2.validate_file ascii_only blank_frame
       = Returns (Dict [ ("errors", errors) ]) /\
     get "blank_cells" errors = Some (PyList (Flask2.blank_cells blank_frame))) /\
  exists report violations columns_listed,
    fst (Flask.validate_file ascii_only blank_frame) = Returns report /\
    get "blank_cells" report = Some (PyList violations) /\
    filter (Flask2.on_row 2) violations =
      [ Dict [ ("row", Int 2); ("columns", columns_listed) ] ].
Proof.
  assert (Hf : Flask2.numbers_filled blank_frame = true)
    by (vm_compute; reflexivity).
  assert (Hi : 1 < nrows blank_frame) by (vm_compute; lia).
  assert (H0 : 0 < nrows blank_frame) by (vm_compute; lia).
  split; [exact Hf|]. split; [exact Hi|]. split; [exact H0|].
  destruct (blank_rule_per_row ascii_only blank_frame 1 Hi) as [H1 [H2 _]].
  destruct (blank_rule_per_row ascii_only blank_frame 0 H0) as [H3 [_ H4]].
  split; [exact H1|]. split; [exact H3|]. split; [exact (H2 Hf)|].
  exact H4.
Defined.

(** Against C6 as the specification words it: [Flask.py] has no exempt
    column.  Row 0 of [blank_frame] lacks nothing but its other title
    names, and rule 1 of [Flask.validate_file] reports it, as row 2,
    with a column list that names GTI, which the row has filled. *)
Lemma blank_rule_counterexample :
  at_ blank_frame 0 (py "GTI") = txt "A1" /\
  filter (fun c => isna (at_ blank_frame 0 c)) (columns blank_frame)
    = [ py "Other Title Name(s)" ] /\
  exists report violations,
    fst (Flask.validate_file ascii_only blank_frame) = Returns report /\
    get "blank_cells" report = Some (PyList violations) /\
    filter (Flask2.on_row 2) violations =
      [ Dict [ ("row", Int 2);
               ("columns", PyList [ Val (txt "GTI");
                                    Val (txt "Other Title Name(s)") ]) ] ].
Proof.
  split; [vm_compute; reflexivity|]. split; [vm_compute; reflexivity|].
  eexists. eexists. split; [vm_compute; reflexivity|].
  split; vm_compute; reflexivity.
Qed.

(** X13.  Rule 1 of [Flask.py] and [app1.py]: a row with an empty cell
    is listed, and every entry carries the same list of columns: the
    columns with an empty cell in any row of the table.  So a row is
    charged with columns that it has filled. *)
Theorem blank_rows_share_one_column_list
    (U : UnicodeDB) (df : DataFrame) (i : nat) :
  i < nrows df ->
  (exists c, In c (columns df) /\ at_ df i c = NaN) ->
  exists r bc cs,
    fst (Flask.validate_file U df) = Returns r /\
    get "blank_cells" r = Some (PyList bc) /\
    In (Dict [ ("row", Int (i + 2)); ("columns", names cs) ]) bc /\
    (forall c, In c cs <->
       In c (columns df) /\ exists j, j < nrows df /\ at_ df j c = NaN) /\
    (forall e, In e bc -> get "columns" e = Some (names cs)).
Proof.
  intros Hi [c [Hc Hn]].
  exists (flask_report U df), (app1.blank_cells df),
    (filter (fun c => existsb isna (getcol df c)) (columns df)).
  split; [apply flask_validate_file_returns|]. split; [reflexivity|].
  rewrite app1_blank_cells_rows. split; [|split].
  - apply in_map_iff. exists i. split; [reflexivity|].
    apply filter_In. split; [apply in_seq; lia|].
    apply existsb_exists. exists c. split; [exact Hc|now apply isna_NaN].
  - intros c'. rewrite filter_In, column_has_blank. reflexivity.
  - intros e He. apply in_map_iff in He as [j [<- _]]. reflexivity.
Qed.

(** X14.  Rule 4 of [app1.py] reports row [i] exactly when
    [str.isdigit] fails on its Countries or on its Languages cell, and
    at most once. *)
Theorem country_language_rule_exact (U : UnicodeDB) (df : DataFrame) (i : nat) :
  has_columns app1.accessed_columns df = true ->
  i < nrows df ->
  exists report violations,
    fst (app1.validate_file U df) = Returns report /\
    get "invalid_country_language" report = Some (PyList violations) /\
    ((exists e, In e violations /\ Flask2.on_row (i + 2) e = true) <->
     digits U (at_ df i (py "Countries")) = false \/
     digits U (at_ df i (py "Languages")) = false) /\
    List.length (filter (Flask2.on_row (i + 2)) violations) <= 1.
Proof.
  intros Hc Hi. rewrite (app1_validate_file_returns U df Hc). simpl fst.
  exists (app1_report U df), (app1.invalid_country_language U df).
  split; [reflexivity|]. split; [reflexivity|].
  rewrite app1_invalid_country_language_rows. split.
  - rewrite <- andb_false_iff, <- negb_true_iff. split.
    + intros [e [He Hr]]. apply in_map_iff in He as [j [<- Hj]].
      unfold Flask2.on_row in Hr. simpl in Hr. apply Nat.eqb_eq in Hr.
      assert (j = i) by lia. subst j. now apply filter_In in Hj.
    + intros H. eexists. split.
      * apply in_map_iff. exists i. split; [reflexivity|].
        apply filter_In. split; [apply in_seq; lia|exact H].
      * unfold Flask2.on_row. simpl. apply Nat.eqb_refl.
  - rewrite filter_map_swap, length_map.
    rewrite (filter_ext _ (Nat.eqb i)).
    + rewrite (filter_eqb_filter_seq _ i (nrows df) Hi).
      destruct (negb _); simpl; lia.
    + intros j. unfold Flask2.on_row. simpl.
      destruct (Nat.eqb_spec (j + 2) (i + 2)), (Nat.eqb_spec i j); try reflexivity; lia.
Qed.

Lemma app1_english_class (U : UnicodeDB) (c : N) :
  fullmatch (alts [ rng "A" "Z"; rng "a" "z"; rng "0" "9"; re_s U;
                    chr ".,!?;:'"; code 34; chr "-" ]) [c]
  = app1_english_char U c.
Proof.
  unfold alts, rng, chr, code, re_s. rewrite !fullmatch_Alt, !fullmatch_Cls.
  unfold app1_english_char. eval_literals. cbn [existsb].
  rewrite (N.eqb_sym 34 c), !orb_false_r, !orb_assoc. reflexivity.
Qed.

Lemma app1_english_match (U : UnicodeDB) (v : pystr) :
  re_match (app1.english U) v = forallb (app1_english_char U) v.
Proof.
  assert (F : forall t, fullmatch (app1.english U) t
                        = forallb (app1_english_char U) t).
  { intros t. unfold app1.english. rewrite fullmatch_Star_chars.
    - apply forallb_pointwise. intros c. apply app1_english_class.
    - intros u Hu. unfold alts, rng, chr, code, re_s in Hu.
      repeat (apply matches_alt_inv in Hu as [Hu|Hu];
              [apply matches_cls_inv in Hu as [c [-> _]]; now exists c|]).
      apply matches_cls_inv in Hu as [c [-> _]]. now exists c. }
  apply bool_eq_iff. rewrite re_match_cases. split.
  - intros [H|[t [-> H]]]; rewrite F in H; [exact H|].
    rewrite forallb_app, H. reflexivity.
  - intros H. left. now rewrite F.
Qed.

Lemma app1_non_english_chars_In (U : UnicodeDB) (df : DataFrame) (e : pyval) :
  In e (app1.non_english_chars U df) <->
  exists i c,
    i < nrows df /\ In c (columns df) /\ at_ df i c <> NaN /\
    (exists ch, In ch (str_ (at_ df i c)) /\ app1_english_char U ch = false) /\
    e = Dict [ ("row", Int (i + 2)); ("column", Val (Str c));
               ("value", Val (Str (str_ (at_ df i c)))) ].
Proof.
  assert (C : forall i c,
            negb (if negb (isna (at_ df i c))
                  then re_match (app1.english U) (str_ (at_ df i c))
                  else true) = true <->
            at_ df i c <> NaN /\
            exists ch, In ch (str_ (at_ df i c)) /\ app1_english_char U ch = false).
  { intros i c. rewrite app1_english_match, <- forallb_false_exists.
    destruct (at_ df i c) as [|v|b]; simpl.
    - split; [discriminate|intros [H _]; now contradiction H].
    - rewrite negb_true_iff. split; [intros H; split; [discriminate|exact H]|tauto].
    - rewrite negb_true_iff. split; [intros H; split; [discriminate|exact H]|tauto]. }
  unfold app1.non_english_chars. cbv zeta. rewrite in_flat_map. split.
  - intros [i [Hi He]]. apply in_map_iff in He as [c [<- Hc]].
    apply filter_In in Hc as [Hc Hm]. apply C in Hm as [Hn Hch].
    unfold row_mask in Hi. rewrite map_map, index_where_map_seq in Hi.
    apply filter_In in Hi as [Hi _]. apply in_seq in Hi.
    exists i, c. repeat split; auto. lia.
  - intros [i [c [Hi [Hc [Hn [Hch ->]]]]]]. exists i.
    assert (Hm := proj2 (C i c) (conj Hn Hch)). split.
    + unfold row_mask. rewrite map_map, index_where_map_seq. apply filter_In.
      split; [apply in_seq; lia|]. apply negb_true_iff.
      apply forallb_false_exists. exists c. split; [exact Hc|].
      now apply negb_true_iff.
    + apply in_map_iff. exists c. split; [reflexivity|].
      apply filter_In. split; [exact Hc|exact Hm].
Qed.

Lemma loose_date_has_slash (U : UnicodeDB) (v : pystr) :
  dd_dd_dddd U v = true \/ (exists t, v = t ++ [10%N] /\ dd_dd_dddd U t = true) ->
  In 47%N v.
Proof.
  assert (S : forall t, dd_dd_dddd U t = true -> In 47%N t).
  { intros t H.
    destruct t as [|a [|b [|s1 [|c [|d [|s2 [|y1 [|y2 [|y3 [|y4 [|z t]]]]]]]]]]];
      try discriminate H.
    cbn [dd_dd_dddd] in H. rewrite !andb_true_iff in H.
    destruct H as [[[[[[[[[_ _] Hs] _] _] _] _] _] _] _].
    apply N.eqb_eq in Hs. subst s1. simpl. auto. }
  intros [H|[t [-> H]]]; [now apply S|]. apply in_or_app. left. now apply S.
Qed.

(** X15.  In [app1.py] rule 2 and rule 6 disagree on every well-formed
    date: a Rating Date of the form rule 6 accepts has a slash, which
    the pattern of rule 2 does not admit, so the cell is reported among
    the non-English values, and rule 6 reports nothing for the row. *)
Theorem well_formed_date_fails_rule_2
    (U : UnicodeDB) (df : DataFrame) (i : nat) (v : pystr) :
  has_columns app1.accessed_columns df = true ->
  i < nrows df ->
  at_ df i (py "Rating Date") = Str v ->
  dd_dd_dddd U v = true \/
    (exists t, v = t ++ [10%N] /\ dd_dd_dddd U t = true) ->
  exists report ne dt,
    fst (app1.validate_file U df) = Returns report /\
    get "non_english_chars" report = Some (PyList ne) /\
    get "invalid_date_format" report = Some (PyList dt) /\
    In (Dict [ ("row", Int (i + 2)); ("column", Val (Str (py "Rating Date")));
               ("value", Val (Str v)) ]) ne /\
    (forall e, In e dt -> Flask2.on_row (i + 2) e = false).
Proof.
  intros Hc Hi Ev Hd. rewrite (app1_validate_file_returns U df Hc). simpl fst.
  assert (Hrd : In (py "Rating Date") (columns df)).
  { apply (has_columns_In _ _ _ Hc). apply mem_In. vm_compute. reflexivity. }
  pose proof (proj2 (mem_In _ _) Hrd) as Hm.
  exists (app1_report U df), (app1.non_english_chars U df). eexists.
  split; [reflexivity|]. split; [reflexivity|].
  split; [exact (app1_date_rows U df Hm)|]. split.
  - apply app1_non_english_chars_In. exists i, (py "Rating Date").
    rewrite Ev. simpl str_. repeat split; auto; [discriminate|].
    exists 47%N. split; [now apply (loose_date_has_slash U)|reflexivity].
  - intros e He. apply in_map_iff in He as [j [<- Hj]].
    unfold Flask2.on_row. simpl. apply Nat.eqb_neq. intros E.
    assert (j = i) by lia. subst j. apply filter_In in Hj as [_ Hj].
    rewrite Ev in Hj. simpl in Hj. apply negb_true_iff in Hj.
    apply (proj2 (loose_date_spec U v)) in Hd.
    change (Flask2.date_format U) with (app1.date_format U) in Hd. congruence.
Qed.

(** X16.  The entries of [app1.py] rule 2 are exactly these: one for
    every cell that is not empty and whose text has a character the
    pattern of line 36 does not admit, with row + 2, the column and the
    text of the cell. *)
Theorem app1_non_english_entries (U : UnicodeDB) (df : DataFrame) :
  has_columns app1.accessed_columns df = true ->
  exists report ne,
    fst (app1.validate_file U df) = Returns report /\
    get "non_english_chars" report = Some (PyList ne) /\
    forall e, In e ne <->
      exists i c,
        i < nrows df /\ In c (columns df) /\ at_ df i c <> NaN /\
        (exists ch, In ch (str_ (at_ df i c)) /\ app1_english_char U ch = false) /\
        e = Dict [ ("row", Int (i + 2)); ("column", Val (Str c));
                   ("value", Val (Str (str_ (at_ df i c)))) ].
Proof.
  intros Hc. rewrite (app1_validate_file_returns U df Hc). simpl fst.
  exists (app1_report U df), (app1.non_english_chars U df).
  split; [reflexivity|]. split; [reflexivity|].
  intros e. apply app1_non_english_chars_In.
Qed.

(* ================================================================= *)
(** * Flask3.py: the rules and the loop of rule 2 *)

Lemma flask3_country_language (num : N -> bool) (df : DataFrame) :
  Flask3.invalid_country_language num df = flask3_country_language_rows num df.
Proof.
  unfold Flask3.invalid_country_language, flask3_country_language_rows.
  destruct (mem (py "Countries") (columns df) && mem (py "Languages") (columns df));
    [|reflexivity].
  cbv zeta. unfold Flask3.notna, Flask3.str_isnumeric.
  rewrite !map_getcol, and_map, map_map, and_map, map_map, and_map, map_map.
  rewrite index_where_map_seq. f_equal. apply filter_ext. intros i.
  unfold flask3_numeric.
  destruct (at_ df i (py "Countries")), (at_ df i (py "Languages")); simpl;
    rewrite ?andb_true_r, ?andb_false_r; reflexivity.
Qed.

Lemma flask3_age (df : DataFrame) :
  Flask3.invalid_age_rating df = flask3_age_rows df.
Proof.
  unfold Flask3.invalid_age_rating, flask3_age_rows.
  destruct (mem (py "Age Rating ID") (columns df)); [|reflexivity].
  cbv zeta. unfold Flask3.notna, isin.
  rewrite !map_getcol, !map_map, and_map, index_where_map_seq. reflexivity.
Qed.

Lemma flask3_date (U : UnicodeDB) (df : DataFrame) :
  Flask3.invalid_date_format U df = Flask3.Done (flask3_date_rows U df).
Proof.
  unfold Flask3.invalid_date_format, flask3_date_rows.
  destruct (mem (py "Rating Date") (columns df)); [|reflexivity].
  cbv zeta. unfold invert, str_match, astype_str. rewrite map_getcol, map_map.
  simpl cell_match.
  rewrite (all_bool_map (fun i => re_match (Flask3.date_format U)
                                   (str_ (at_ df i (py "Rating Date"))))).
  unfold Flask3.notna. rewrite map_getcol, !map_map, and_map, index_where_map_seq.
  reflexivity.
Qed.

Lemma flask3_non_english_chars_cases (df : DataFrame) :
  Flask3.non_english_chars df =
  match Flask3.stacked df with
  | [] => Flask3.Done []
  | [_] => Flask3.Fails Flask3.NotEnoughValues
  | [_; (row, _)] => Flask3.Fails (Flask3.NoSuchColumn row)
  | _ => Flask3.Fails Flask3.TooManyValues
  end.
Proof.
  unfold Flask3.non_english_chars.
  destruct (Flask3.stacked df) as [|[r1 c1] [|[r2 c2] [|p l]]]; reflexivity.
Qed.

Lemma flask3_validate_file_cases (U : UnicodeDB) (num : N -> bool) (df : DataFrame) :
  Flask3.validate_file U num df =
  match Flask3.stacked df with
  | [] => Flask3.Done (flask3_report U num df)
  | [_] => Flask3.Fails Flask3.NotEnoughValues
  | [_; (row, _)] => Flask3.Fails (Flask3.NoSuchColumn row)
  | _ => Flask3.Fails Flask3.TooManyValues
  end.
Proof.
  unfold Flask3.validate_file.
  rewrite flask3_non_english_chars_cases, flask3_date, flask3_country_language,
    flask3_age.
  destruct (Flask3.stacked df) as [|[r1 c1] [|[r2 c2] [|p l]]]; reflexivity.
Qed.

Lemma flask3_mask_spec (df : DataFrame) (i : nat) (c : pystr) :
  Flask3.non_english_mask df i c = true <->
  at_ df i c <> NaN /\ exists ch, In ch (str_ (at_ df i c)) /\ (128 <= ch)%N.
Proof.
  unfold Flask3.non_english_mask. cbv zeta.
  assert (E : forall s, existsb (fun ch => negb (is_ascii ch)) s = true <->
                        exists ch, In ch s /\ (128 <= ch)%N).
  { intros s. rewrite existsb_exists. split; intros [ch [H A]]; exists ch;
      (split; [exact H|]); unfold is_ascii in *.
    - apply negb_true_iff, N.leb_gt in A. lia.
    - apply negb_true_iff, N.leb_gt. lia. }
  destruct (at_ df i c) as [|v|b]; simpl negb; cbv iota.
  - split; [discriminate|intros [H _]; now contradiction H].
  - rewrite E. split; [intros H; split; [discriminate|exact H]|tauto].
  - rewrite E. split; [intros H; split; [discriminate|exact H]|tauto].
Qed.

Lemma flask3_stacked_In (df : DataFrame) (i : nat) (c : pystr) :
  In (i, c) (Flask3.stacked df) <->
  i < nrows df /\ In c (columns df) /\ Flask3.non_english_mask df i c = true.
Proof.
  unfold Flask3.stacked. rewrite in_flat_map. split.
  - intros [j [Hj H]]. apply in_flat_map in H as [d [Hd H]].
    destruct (Flask3.non_english_mask df j d) eqn:M; [|destruct H].
    destruct H as [H|[]]. injection H as -> ->. apply in_seq in Hj.
    repeat split; auto; lia.
  - intros [Hi [Hc M]]. exists i. split; [apply in_seq; lia|].
    apply in_flat_map. exists c. split; [exact Hc|]. rewrite M. now left.
Qed.

(** X17.  [Flask3.validate_file] fails exactly when some cell holds a
    character outside ASCII: the loop of line 60 unpacks what
    [zip] makes of the index pairs and cannot go through once there is
    a pair.  So a report that is returned always has an empty
    non_english_chars list, next to the other five categories and an
    empty dictionary of warnings. *)
Theorem flask3_non_ascii_character_aborts
    (U : UnicodeDB) (uni_isnumeric : N -> bool) (df : DataFrame) :
  ((exists e, Flask3.validate_file U uni_isnumeric df = Flask3.Fails e) <->
   exists i c,
     i < nrows df /\ In c (columns df) /\ at_ df i c <> NaN /\
     exists ch, In ch (str_ (at_ df i c)) /\ (128 <= ch)%N) /\
  (forall report,
     Flask3.validate_file U uni_isnumeric df = Flask3.Done report ->
     exists errors,
       get "errors" report = Some errors /\
       get "warnings" report = Some (Dict []) /\
       keys errors = [ "blank_cells"; "non_english_chars"; "duplicate_gti";
                       "invalid_country_language"; "invalid_age_rating";
                       "invalid_date_format" ] /\
       get "non_english_chars" errors = Some (PyList [])).
Proof.
  rewrite flask3_validate_file_cases. split.
  - split.
    + intros [e He].
      destruct (Flask3.stacked df) as [|[i c] l] eqn:S; [discriminate He|].
      assert (I : In (i, c) (Flask3.stacked df)) by (rewrite S; now left).
      apply flask3_stacked_In in I as [Hi [Hc M]].
      apply flask3_mask_spec in M as [Hn Hch]. exists i, c. auto.
    + intros [i [c [Hi [Hc [Hn Hch]]]]].
      assert (I : In (i, c) (Flask3.stacked df)).
      { apply flask3_stacked_In. repeat split; auto. now apply flask3_mask_spec. }
      destruct (Flask3.stacked df) as [|[r1 c1] [|[r2 c2] [|p l]]]; [destruct I| | |];
        eexists; reflexivity.
  - intros report H.
    destruct (Flask3.stacked df) as [|[r1 c1] [|[r2 c2] [|p l]]]; try discriminate H.
    injection H as <-. eexists. split; [reflexivity|]. repeat split.
Qed.

(** X18.  The exception [Flask3.validate_file] ends with, by the number
    of cells with a character outside ASCII: one cell gives a tuple too
    short to unpack, two cells make [df.at] look up the row label of
    the second cell as a column, three or more give a tuple too
    long. *)
Theorem flask3_abort_kinds
    (U : UnicodeDB) (uni_isnumeric : N -> bool) (df : DataFrame) :
  (List.length (Flask3.stacked df) = 1 ->
   Flask3.validate_file U uni_isnumeric df = Flask3.Fails Flask3.NotEnoughValues) /\
  (forall p row col, Flask3.stacked df = [p; (row, col)] ->
   Flask3.validate_file U uni_isnumeric df
   = Flask3.Fails (Flask3.NoSuchColumn row)) /\
  (3 <= List.length (Flask3.stacked df) ->
   Flask3.validate_file U uni_isnumeric df = Flask3.Fails Flask3.TooManyValues) /\
  (forall i c, In (i, c) (Flask3.stacked df) <->
     i < nrows df /\ In c (columns df) /\ at_ df i c <> NaN /\
     exists ch, In ch (str_ (at_ df i c)) /\ (128 <= ch)%N).
Proof.
  rewrite flask3_validate_file_cases. split; [|split; [|split]].
  - destruct (Flask3.stacked df) as [|[r1 c1] [|[r2 c2] [|p l]]]; simpl;
      try discriminate; reflexivity.
  - intros p row col ->. now destruct p.
  - destruct (Flask3.stacked df) as [|[r1 c1] [|[r2 c2] [|p l]]]; simpl;
      try lia; reflexivity.
  - intros i c. rewrite flask3_stacked_In, flask3_mask_spec. tauto.
Qed.

Lemma rows_on_row (rest : nat -> list (string * pyval)) (p : nat -> bool)
    (n i : nat) :
  i < n ->
  (exists e,
     In e (map (fun row => Dict (("row", Int (row + 2)) :: rest row))
               (filter p (seq 0 n))) /\
     Flask2.on_row (i + 2) e = true) <-> p i = true.
Proof.
  intros Hi. split.
  - intros [e [He Hr]]. apply in_map_iff in He as [j [<- Hj]].
    unfold Flask2.on_row in Hr. simpl in Hr. apply Nat.eqb_eq in Hr.
    assert (j = i) by lia. subst j. now apply filter_In in Hj.
  - intros Hp. eexists. split.
    + apply in_map_iff. exists i. split; [reflexivity|].
      apply filter_In. split; [apply in_seq; lia|exact Hp].
    + unfold Flask2.on_row. simpl. apply Nat.eqb_refl.
Qed.

Lemma flask3_done_inv (U : UnicodeDB) (num : N -> bool) (df : DataFrame) report :
  Flask3.validate_file U num df = Flask3.Done report ->
  report = flask3_report U num df.
Proof.
  rewrite flask3_validate_file_cases.
  destruct (Flask3.stacked df) as [|[r1 c1] [|[r2 c2] [|p l]]]; try discriminate.
  now intros [= <-].
Qed.

Lemma flask3_loose_date_spec (U : UnicodeDB) (t : pystr) :
  re_match (Flask3.date_format U) t = true <->
  dd_dd_dddd U t = true \/
  exists t', t = t' ++ [10%N] /\ dd_dd_dddd U t' = true.
Proof. exact (loose_date_spec U t). Qed.

(** X19.  Rules 5 and 6 of [Flask3.py] on a returned report: row [i] is
    in the age rating list exactly when the column is there, the cell
    is not empty and it is not one of 2, 9, 154 and 147; it is in the
    date list exactly when the column is there, the cell is not empty
    and its text is not two digits, a slash, two digits, a slash and
    four digits.  An empty cell passes both rules. *)
Theorem flask3_rules_5_and_6_skip_empty_cells
    (U : UnicodeDB) (uni_isnumeric : N -> bool) (df : DataFrame)
    (report : pyval) (i : nat) :
  Flask3.validate_file U uni_isnumeric df = Flask3.Done report ->
  i < nrows df ->
  exists errors ages dates,
    get "errors" report = Some errors /\
    get "invalid_age_rating" errors = Some (PyList ages) /\
    get "invalid_date_format" errors = Some (PyList dates) /\
    ((exists e, In e ages /\ Flask2.on_row (i + 2) e = true) <->
     In (py "Age Rating ID") (columns df) /\
     at_ df i (py "Age Rating ID") <> NaN /\
     ~ In (at_ df i (py "Age Rating ID"))
          [ txt "2"; txt "9"; txt "154"; txt "147" ]) /\
    ((exists e, In e dates /\ Flask2.on_row (i + 2) e = true) <->
     In (py "Rating Date") (columns df) /\
     at_ df i (py "Rating Date") <> NaN /\
     ~ (dd_dd_dddd U (str_ (at_ df i (py "Rating Date"))) = true \/
        exists t, str_ (at_ df i (py "Rating Date")) = t ++ [10%N] /\
                  dd_dd_dddd U t = true)).
Proof.
  intros H Hi. apply flask3_done_inv in H. subst report.
  exists (Dict [
            ("blank_cells", PyList (Flask3.blank_cells df));
            ("non_english_chars", PyList []);
            ("duplicate_gti", PyList (Flask3.duplicate_gti df));
            ("invalid_country_language",
             PyList (flask3_country_language_rows uni_isnumeric df));
            ("invalid_age_rating", PyList (flask3_age_rows df));
            ("invalid_date_format", PyList (flask3_date_rows U df)) ]),
    (flask3_age_rows df), (flask3_date_rows U df).
  split; [reflexivity|]. split; [reflexivity|]. split; [reflexivity|]. split.
  - unfold flask3_age_rows. rewrite <- mem_In.
    destruct (mem (py "Age Rating ID") (columns df)).
    + rewrite (rows_on_row _ _ _ i Hi), andb_true_iff, !negb_true_iff.
      pose proof (existsb_hash_eq_In (at_ df i (py "Age Rating ID"))
                    Flask3.valid_age_ratings) as V.
      split.
      * intros [Hn Hv]. split; [reflexivity|]. split.
        -- intros E. rewrite E in Hn. discriminate Hn.
        -- intros G. apply V in G. congruence.
      * intros [_ [Hn Hv]]. split.
        -- destruct (at_ df i (py "Age Rating ID"));
             [now contradiction Hn|reflexivity|reflexivity].
        -- apply not_true_is_false. intros G. apply Hv. now apply V.
    + split; [intros [e [[] _]]|intros [H _]; discriminate].
  - unfold flask3_date_rows. rewrite <- mem_In.
    destruct (mem (py "Rating Date") (columns df)).
    + rewrite (rows_on_row _ _ _ i Hi), andb_true_iff, !negb_true_iff.
      rewrite <- flask3_loose_date_spec.
      split.
      * intros [Hn Hv]. split; [reflexivity|]. split.
        -- intros E. rewrite E in Hn. discriminate Hn.
        -- congruence.
      * intros [_ [Hn Hv]]. split.
        -- destruct (at_ df i (py "Rating Date"));
             [now contradiction Hn|reflexivity|reflexivity].
        -- now apply not_true_is_false.
    + split; [intros [e [[] _]]|intros [H _]; discriminate].
Qed.

Lemma flask3_blank_cells_In (df : DataFrame) (e : pyval) :
  In e (Flask3.blank_cells df) <->
  exists i c,
    i < nrows df /\ In c (columns df) /\ In c Flask3.non_blank_columns /\
    at_ df i c = NaN /\
    e = Dict [ ("row", Int (i + 2)); ("column", Val (Str c));
               ("message", Val (txt "Cannot be blank (None is allowed).")) ].
Proof.
  unfold Flask3.blank_cells. rewrite in_flat_map. split.
  - intros [c [Hc He]].
    destruct (mem c Flask3.non_blank_columns) eqn:M; [|destruct He].
    cbv zeta in He. rewrite map_getcol, index_where_map_seq in He.
    apply in_map_iff in He as [i [<- Hi]]. apply filter_In in Hi as [Hi Hn].
    apply in_seq in Hi. apply isna_NaN in Hn. apply mem_In in M.
    exists i, c. repeat split; auto. lia.
  - intros [i [c [Hi [Hc [Hm [Hn ->]]]]]]. exists c. split; [exact Hc|].
    apply mem_In in Hm. rewrite Hm. cbv zeta.
    rewrite map_getcol, index_where_map_seq. apply in_map_iff.
    exists i. split; [reflexivity|]. apply filter_In.
    split; [apply in_seq; lia|now apply isna_NaN].
Qed.

(** X20.  Rule 1 of [Flask3.py] on a returned report: the blank cells
    listed are exactly the empty cells of the six impact columns, one
    entry per cell, with row + 2, the column and the fixed message.  An
    empty cell of any other column is not reported. *)
Theorem flask3_blank_rule_covers_impact_columns_only
    (U : UnicodeDB) (uni_isnumeric : N -> bool) (df : DataFrame)
    (report : pyval) :
  Flask3.validate_file U uni_isnumeric df = Flask3.Done report ->
  exists errors blanks,
    get "errors" report = Some errors /\
    get "blank_cells" errors = Some (PyList blanks) /\
    forall e, In e blanks <->
      exists i c,
        i < nrows df /\ In c (columns df) /\
        In c [ py "Violence Impact"; py "Drug Use Impact"; py "Themes Impact";
               py "Language Impact"; py "Nudity Impact"; py "Sex Impact" ] /\
        at_ df i c = NaN /\
        e = Dict [ ("row", Int (i + 2)); ("column", Val (Str c));
                   ("message", Val (txt "Cannot be blank (None is allowed).")) ].
Proof.
  intros H. apply flask3_done_inv in H. subst report.
  eexists. exists (Flask3.blank_cells df).
  split; [reflexivity|]. split; [reflexivity|].
  intros e. apply flask3_blank_cells_In.
Qed.

Lemma ascii_frame_stacked (df : DataFrame) :
  ascii_frame df = true -> Flask3.stacked df = [].
Proof.
  intros H. unfold Flask3.stacked. apply flat_map_nil. intros i Hi.
  apply flat_map_nil. intros c Hc.
  destruct (Flask3.non_english_mask df i c) eqn:M; [|reflexivity].
  exfalso. apply flask3_mask_spec in M as [_ [ch [Hch A]]].
  unfold ascii_frame in H. rewrite forallb_forall in H.
  specialize (H i Hi). rewrite forallb_forall in H. specialize (H c Hc).
  rewrite forallb_forall in H. specialize (H ch Hch).
  unfold is_ascii in H. apply N.leb_le in H. lia.
Qed.

(** X21.  An empty Countries or Languages cell in an ASCII frame with
    both columns: [Flask2.validate_file] raises [TypeError], while
    [Flask3.validate_file], which tests [notna()] first, returns a
    report that lists the row under invalid_country_language. *)
Theorem empty_country_flask2_raises_flask3_reports
    (U : UnicodeDB) (uni_isnumeric : N -> bool) (df : DataFrame) (i : nat) :
  In (py "Countries") (columns df) ->
  In (py "Languages") (columns df) ->
  ascii_frame df = true ->
  i < nrows df ->
  at_ df i (py "Countries") = NaN \/ at_ df i (py "Languages") = NaN ->
  Flask2.validate_file U df = Raises TypeError /\
  exists report errors violations,
    Flask3.validate_file U uni_isnumeric df = Flask3.Done report /\
    get "errors" report = Some errors /\
    get "invalid_country_language" errors = Some (PyList violations) /\
    In (Dict [ ("row", Int (i + 2));
               ("Countries", Val (at_ df i (py "Countries")));
               ("Languages", Val (at_ df i (py "Languages"))) ]) violations.
Proof.
  intros Hc Hl Ha Hi Hn. split.
  - apply flask2_validate_file_raises. unfold Flask2.numbers_filled.
    apply mem_In in Hc, Hl. rewrite Hc, Hl. simpl.
    apply andb_false_iff.
    destruct Hn as [Hn|Hn]; [left|right]; apply strings_false_iff; exists i;
      (split; [exact Hi|]); now rewrite Hn.
  - rewrite flask3_validate_file_cases, (ascii_frame_stacked df Ha).
    eexists. eexists. exists (flask3_country_language_rows uni_isnumeric df).
    split; [reflexivity|]. split; [reflexivity|]. split; [reflexivity|].
    unfold flask3_country_language_rows.
    apply mem_In in Hc, Hl. rewrite Hc, Hl. simpl.
    apply in_map_iff. exists i. split; [reflexivity|].
    apply filter_In. split; [apply in_seq; lia|].
    destruct Hn as [Hn|Hn]; rewrite Hn; simpl; [reflexivity|].
    now rewrite andb_false_r.
Qed.

(** X22.  Rule 4 of [Flask3.py] on a returned report: row [i] is listed
    exactly unless both its Countries and its Languages cell are
    strings on which [str.isnumeric] holds. *)
Theorem flask3_country_language_rule
    (U : UnicodeDB) (uni_isnumeric : N -> bool) (df : DataFrame)
    (report : pyval) (i : nat) :
  Flask3.validate_file U uni_isnumeric df = Flask3.Done report ->
  In (py "Countries") (columns df) ->
  In (py "Languages") (columns df) ->
  i < nrows df ->
  exists errors violations,
    get "errors" report = Some errors /\
    get "invalid_country_language" errors = Some (PyList violations) /\
    ((exists e, In e violations /\ Flask2.on_row (i + 2) e = true) <->
     ~ ((exists v, at_ df i (py "Countries") = Str v /\
                   Flask3.py_isnumeric uni_isnumeric v = true) /\
        (exists v, at_ df i (py "Languages") = Str v /\
                   Flask3.py_isnumeric uni_isnumeric v = true))).
Proof.
  intros H Hc Hl Hi. apply flask3_done_inv in H. subst report.
  eexists. exists (flask3_country_language_rows uni_isnumeric df).
  split; [reflexivity|]. split; [reflexivity|].
  unfold flask3_country_language_rows.
  apply mem_In in Hc, Hl. rewrite Hc, Hl. simpl andb. cbv iota.
  rewrite (rows_on_row _ _ _ i Hi), negb_true_iff, <- not_true_iff_false,
    andb_true_iff.
  assert (N : forall x, flask3_numeric uni_isnumeric x = true <->
                        exists v, x = Str v /\
                                  Flask3.py_isnumeric uni_isnumeric v = true).
  { intros x. destruct x as [|v|b]; simpl.
    - split; [discriminate|intros [v [E _]]; discriminate].
    - split; [intros E; exists v; auto|intros [w [[= <-] E]]; exact E].
    - split; [discriminate|intros [v [E _]]; discriminate]. }
  rewrite !N. reflexivity.
Qed.

(* ================================================================= *)
(** * File names: the test of the upload and the choice of a reader *)

Lemma rfind_None (c : N) (s : pystr) : Files.rfind c s = None <-> ~ In c s.
Proof.
  induction s as [|x s IH]; simpl; [tauto|].
  destruct (Files.rfind c s) as [i|].
  - split; [discriminate|]. intros H. exfalso.
    assert (G : ~ In c s) by tauto. apply IH in G. discriminate.
  - destruct (N.eqb_spec x c) as [->|Hne].
    + split; [discriminate|]. intros H. exfalso. apply H. now left.
    + split; [|reflexivity]. intros _ [E|H]; [congruence|].
      now apply (proj1 IH eq_refl).
Qed.

Lemma rfind_Some (c : N) (s : pystr) (i : nat) :
  Files.rfind c s = Some i <->
  exists a b, s = a ++ c :: b /\ List.length a = i /\ ~ In c b.
Proof.
  revert i. induction s as [|x s IH]; intros i; simpl.
  - split; [discriminate|]. intros [a [b [E _]]]. destruct a; discriminate.
  - destruct (Files.rfind c s) as [j|] eqn:R.
    + split.
      * intros [= <-]. destruct (proj1 (IH j) eq_refl) as [a [b [-> [<- Hb]]]].
        exists (x :: a), b. auto.
      * intros [a [b [E [<- Hb]]]]. destruct a as [|y a].
        -- simpl in E. injection E as -> ->.
           apply rfind_None in Hb. congruence.
        -- simpl in E. injection E as -> ->. simpl. f_equal.
           assert (G : Some j = Some (List.length a)); [|injection G as ->; reflexivity].
           apply IH. exists a, b. auto.
    + pose proof (proj1 (rfind_None c s) R) as Hs.
      destruct (N.eqb_spec x c) as [->|Hne].
      * split.
        -- intros [= <-]. exists [], s. auto.
        -- intros [a [b [E [<- Hb]]]]. destruct a as [|y a]; [reflexivity|].
           simpl in E. injection E as -> ->. exfalso. apply Hs.
           apply in_or_app. right. now left.
      * split; [discriminate|]. intros [a [b [E [<- Hb]]]]. exfalso.
        destruct a as [|y a]; simpl in E; injection E as -> ->; [congruence|].
        apply Hs. apply in_or_app. right. now left.
Qed.

Lemma existsb_eqb_In (c : N) (s : pystr) : existsb (N.eqb c) s = true <-> In c s.
Proof.
  rewrite existsb_exists. split.
  - intros [x [Hx E]]. apply N.eqb_eq in E. now subst.
  - intros H. exists c. split; [exact H|apply N.eqb_refl].
Qed.

Lemma skipn_app_exact {A : Type} (a b : list A) : skipn (List.length a) (a ++ b) = b.
Proof. induction a; simpl; auto. Qed.

Lemma firstn_app_exact {A : Type} (a b : list A) : firstn (List.length a) (a ++ b) = a.
Proof. induction a; simpl; [now destruct b|]. now f_equal. Qed.

Lemma skipn_after {A : Type} (a b : list A) (x : A) :
  skipn (S (List.length a)) (a ++ x :: b) = b.
Proof. induction a; simpl; auto. Qed.

Lemma rsplit1_last (s a b : pystr) :
  s = a ++ 46%N :: b -> ~ In 46%N b -> Files.rsplit1 46 s = [a; b].
Proof.
  intros -> Hb. unfold Files.rsplit1.
  assert (R : Files.rfind 46 (a ++ 46%N :: b) = Some (List.length a)).
  { apply rfind_Some. exists a, b. auto. }
  rewrite R. rewrite firstn_app_exact. f_equal. f_equal.
  change (a ++ 46%N :: b) with (a ++ [46%N] ++ b). rewrite app_assoc.
  replace (S (List.length a)) with (List.length (a ++ [46%N])).
  - apply skipn_app_exact.
  - rewrite length_app. simpl. lia.
Qed.

Lemma allowed_extension (uni_lower : pystr -> pystr) (ext : pystr) :
  mem (Files.lower uni_lower ext) Files.ALLOWED_EXTENSIONS = true <->
  Files.lower uni_lower ext = py "xlsx" \/ Files.lower uni_lower ext = py "csv".
Proof.
  rewrite mem_In. simpl. split.
  - intros [H|[H|[]]]; [left|right]; now symmetry.
  - intros [H|H]; [left|right; left]; now symmetry.
Qed.

Lemma allowed_file_rsplit (uni_lower : pystr -> pystr) (filename : pystr) :
  In 46%N filename ->
  exists stem ext,
    filename = stem ++ 46%N :: ext /\ ~ In 46%N ext /\
    Files.allowed_file uni_lower filename
    = Some (mem (Files.lower uni_lower ext) Files.ALLOWED_EXTENSIONS).
Proof.
  intros E. unfold Files.allowed_file.
  rewrite (proj2 (existsb_eqb_In 46 filename) E).
  destruct (Files.rfind 46 filename) as [i|] eqn:R.
  2:{ apply rfind_None in R. contradiction. }
  apply rfind_Some in R as [a [b [Hs [Hi Hb]]]].
  exists a, b. split; [exact Hs|]. split; [exact Hb|].
  now rewrite (rsplit1_last filename a b Hs Hb).
Qed.

Lemma allowed_file_accepts (uni_lower : pystr -> pystr) (filename : pystr) :
  Files.allowed_file uni_lower filename = Some true ->
  exists stem ext,
    filename = stem ++ 46%N :: ext /\ ~ In 46%N ext /\
    (Files.lower uni_lower ext = py "xlsx" \/
     Files.lower uni_lower ext = py "csv").
Proof.
  intros H.
  destruct (existsb (N.eqb 46) filename) eqn:E.
  - apply existsb_eqb_In in E.
    destruct (allowed_file_rsplit uni_lower filename E)
      as [stem [ext [Hs [Hb Ha]]]].
    rewrite Ha in H. injection H as H.
    exists stem, ext. split; [exact Hs|]. split; [exact Hb|].
    now apply allowed_extension.
  - unfold Files.allowed_file in H. rewrite E in H. discriminate H.
Qed.

(** X24.  The CSV branch of [Flask.py], [Flask2.py] and [Flask3.py]
    passes the keyword [errors] to [pd.read_csv].  With a reader that
    refuses that keyword, as [pd.read_csv] does, no path with the
    suffix csv is ever validated: [Flask.validate_file] raises the
    exception of the reader, and [Flask2.validate_file] and
    [Flask3.validate_file] return its message under the key error. *)
Theorem csv_files_are_never_validated
    (uni_lower : pystr -> pystr)
    (read_excel read_csv : Files.kwargs -> pystr -> Files.read_result)
    (U : UnicodeDB) (uni_isnumeric : N -> bool) (file_path : pystr) :
  (forall arguments p,
     In "errors" (map fst arguments) ->
     exists message, read_csv arguments p = Files.ReadError message) ->
  Files.lower uni_lower (Files.suffix file_path) = py ".csv" ->
  (exists message,
     Files.flask_validate_file uni_lower read_excel read_csv U file_path
     = Files.Failed (Files.ReaderRaised message)) /\
  (exists message,
     Files.flask2_validate_file uni_lower read_excel read_csv U file_path
     = Files.Ok (Dict [ ("error", Val (Str message)) ])) /\
  (exists message,
     Files.flask3_validate_file uni_lower read_excel read_csv U uni_isnumeric
       file_path
     = Files.Ok (Dict [ ("error", Val (Str message)) ])).
Proof.
  intros Hcsv Hext.
  destruct (Hcsv [ ("dtype", "str"); ("encoding", "utf-8"); ("errors", "ignore") ]
                 file_path) as [m Hm]; [simpl; auto|].
  destruct (Hcsv [ ("dtype", "str"); ("encoding", "latin1"); ("errors", "replace") ]
                 file_path) as [m' Hm']; [simpl; auto|].
  unfold Files.flask_validate_file, Files.flask2_validate_file,
    Files.flask3_validate_file, Files.load.
  rewrite Hext. simpl pystr_eqb. cbv iota. rewrite Hm, Hm'.
  split; [|split]; eexists; reflexivity.
Qed.

Lemma split_nonempty (c : N) (s : pystr) : Files.split c s <> [].
Proof.
  induction s as [|x s IH]; simpl; [discriminate|].
  destruct (N.eqb x c); [discriminate|].
  destruct (Files.split c s); discriminate.
Qed.

Lemma split_no_sep (c : N) (s : pystr) : ~ In c s -> Files.split c s = [s].
Proof.
  induction s as [|x s IH]; simpl; intros H; [reflexivity|].
  destruct (N.eqb_spec x c) as [->|Hne]; [exfalso; apply H; now left|].
  rewrite IH by tauto. reflexivity.
Qed.

Lemma split_app (c : N) (a b : pystr) :
  Files.split c (a ++ c :: b) = Files.split c a ++ Files.split c b.
Proof.
  induction a as [|x a IH]; simpl.
  - now rewrite N.eqb_refl.
  - destruct (N.eqb x c); [now rewrite IH|].
    rewrite IH. destruct (Files.split c a) as [|h t] eqn:E; [|reflexivity].
    now apply split_nonempty in E.
Qed.

Lemma last_app_single {A : Type} (l : list A) (x d : A) : last (l ++ [x]) d = x.
Proof. induction l as [|a l IH]; simpl; [reflexivity|]. destruct (l ++ [x]) eqn:E; [now destruct l|exact IH]. Qed.

Lemma path_name_last (d b : pystr) :
  ~ In 47%N b -> b <> [] -> b <> py "." ->
  Files.path_name b = b /\ Files.path_name (d ++ 47%N :: b) = b.
Proof.
  intros Hb Hn Hd.
  assert (K : negb (pystr_eqb b []) && negb (pystr_eqb b (py ".")) = true).
  { apply andb_true_iff. split; apply negb_true_iff, pystr_eqb_neq; assumption. }
  unfold Files.path_name. split.
  - rewrite (split_no_sep 47 b Hb). simpl filter. rewrite K. reflexivity.
  - rewrite split_app, (split_no_sep 47 b Hb), filter_app. simpl filter.
    rewrite K. apply last_app_single.
Qed.

Lemma suffix_of_name (stem e p : pystr) :
  Files.path_name p = stem ++ 46%N :: e ->
  ~ In 46%N e -> stem <> [] -> e <> [] ->
  Files.suffix p = 46%N :: e.
Proof.
  intros Hp He Hs Hn. unfold Files.suffix. cbv zeta. rewrite Hp.
  assert (R : Files.rfind 46 (stem ++ 46%N :: e) = Some (List.length stem)).
  { apply rfind_Some. exists stem, e. auto. }
  rewrite R. rewrite length_app. simpl List.length.
  assert (L1 : (0 <? List.length stem) = true).
  { apply Nat.ltb_lt. destruct stem; [now contradiction Hs|simpl; lia]. }
  assert (L2 : (List.length stem <? List.length stem + S (List.length e) - 1) = true).
  { apply Nat.ltb_lt. destruct e; [now contradiction Hn|simpl; lia]. }
  rewrite L1, L2. simpl andb. cbv iota. apply skipn_app_exact.
Qed.

Lemma lower_ascii (uni_lower : pystr -> pystr) (s : pystr) :
  forallb is_ascii s = true -> Files.lower uni_lower s = map Files.ascii_lower s.
Proof. intros H. unfold Files.lower. now rewrite H. Qed.

(** The extension [os.path.splitext] finds starts with a dot, and the
    path ends in a last component made of a stem, that dot and the rest
    of the extension. *)
Lemma splitext_ext_shape (p : pystr) (x : N) (ext : pystr) :
  Files.splitext_ext p = x :: ext ->
  exists stem,
    x = 46%N /\ ~ In 46%N ext /\ ~ In 47%N ext /\ ~ In 47%N stem /\
    stem <> [] /\ stem <> py "." /\
    (p = stem ++ 46%N :: ext \/ exists d, p = d ++ 47%N :: stem ++ 46%N :: ext).
Proof.
  unfold Files.splitext_ext. cbv zeta.
  destruct (Files.rfind 46 p) as [di|] eqn:Rd; [|discriminate].
  apply rfind_Some in Rd as [a [b [Hp [Hla Hb]]]].
  destruct (Files.rfind 47 p) as [si|] eqn:Rs.
  - apply rfind_Some in Rs as [a' [b' [Hp' [Hla' Hb']]]].
    destruct (S si <=? di) eqn:L; [|discriminate]. apply Nat.leb_le in L.
    cbn [andb].
    assert (D : exists stem, a = a' ++ 47%N :: stem /\ b' = stem ++ 46%N :: b).
    { rewrite Hp in Hp'. apply app_eq_app in Hp' as [l [[E1 E2]|[E1 E2]]].
      - destruct l as [|y l].
        + simpl in E2. injection E2 as E2 _. discriminate E2.
        + simpl in E2. injection E2 as -> ->. exists l. split; [exact E1|reflexivity].
      - exfalso. subst a'. rewrite length_app in Hla'.
        destruct l as [|y l]; [simpl in E2; injection E2 as E2 _; discriminate E2|].
        simpl in Hla'. lia. }
    destruct D as [stem [Ea Eb']].
    assert (Sk : skipn (S si) p = stem ++ 46%N :: b).
    { rewrite Hp, Ea, <- Hla', <- app_assoc. simpl app. apply skipn_after. }
    assert (Ld : di - S si = List.length stem).
    { rewrite <- Hla, Ea, length_app. simpl. lia. }
    rewrite Sk, Ld, firstn_app_exact.
    destruct (existsb (fun c => negb (N.eqb c 46)) stem) eqn:Ex; [|discriminate].
    rewrite Hp, <- Hla, skipn_app_exact. intros [= <- <-].
    exists stem. split; [reflexivity|]. split; [exact Hb|].
    assert (Hstem : ~ In 47%N stem /\ ~ In 47%N b).
    { rewrite Eb' in Hb'. split; intros G; apply Hb'; apply in_or_app;
        [now left|right; now right]. }
    destruct Hstem as [Hs1 Hs2]. split; [exact Hs2|]. split; [exact Hs1|].
    split; [intros ->; discriminate Ex|]. split; [intros ->; discriminate Ex|].
    right. exists a'. rewrite Ea, <- app_assoc. reflexivity.
  - apply rfind_None in Rs. cbn [andb Nat.leb]. rewrite Nat.sub_0_r. cbn [skipn].
    rewrite Hp, <- Hla, firstn_app_exact, skipn_app_exact.
    destruct (existsb (fun c => negb (N.eqb c 46)) a) eqn:Ex; [|discriminate].
    intros [= <- <-]. exists a. split; [reflexivity|]. split; [exact Hb|].
    assert (Hstem : ~ In 47%N a /\ ~ In 47%N b).
    { rewrite Hp in Rs. split; intros G; apply Rs; apply in_or_app;
        [now left|right; now right]. }
    destruct Hstem as [Hs1 Hs2]. split; [exact Hs2|]. split; [exact Hs1|].
    split; [intros ->; discriminate Ex|]. split; [intros ->; discriminate Ex|].
    now left.
Qed.

Lemma splitext_ext_is_suffix (uni_lower : pystr -> pystr) (p : pystr) :
  Files.lower uni_lower (Files.splitext_ext p) = py ".xlsx" \/
  Files.lower uni_lower (Files.splitext_ext p) = py ".csv" ->
  Files.suffix p = Files.splitext_ext p.
Proof.
  intros H. destruct (Files.splitext_ext p) as [|x ext] eqn:E.
  { exfalso. destruct H as [H|H]; vm_compute in H; discriminate H. }
  destruct (splitext_ext_shape p x ext E)
    as [stem [-> [He1 [He2 [Hs1 [Hs2 [Hs3 Hp]]]]]]].
  assert (Hn : ext <> []).
  { intros ->. destruct H as [H|H]; vm_compute in H; discriminate H. }
  set (b := stem ++ 46%N :: ext).
  assert (B1 : ~ In 47%N b).
  { unfold b. intros G. apply in_app_or in G as [G|[G|G]]; [tauto|discriminate G|tauto]. }
  assert (B2 : b <> []) by (unfold b; destruct stem; discriminate).
  assert (B3 : b <> py ".").
  { unfold b. destruct stem as [|y [|z stem]]; [now contradiction Hs2| |discriminate].
    simpl. intros [= _ G]. }
  destruct (path_name_last [] b B1 B2 B3) as [P1 _].
  apply (suffix_of_name stem ext p); auto.
  destruct Hp as [->|[d ->]]; [exact P1|].
  now destruct (path_name_last d b B1 B2 B3) as [_ P2].
Qed.

(** X25.  Whatever [load_file] of [Fileformat.py] loads,
    [app1.validate_file] loads the same way: the extension
    [os.path.splitext] finds is then the suffix [pathlib] finds, the
    script reads the same frame with the same reader, and goes on to
    its rules with it. *)
Theorem load_file_agrees_with_app1
    (uni_lower : pystr -> pystr)
    (read_excel read_csv : Files.kwargs -> pystr -> Files.read_result)
    (U : UnicodeDB) (file_path : pystr) (df : DataFrame) :
  Files.load_file uni_lower read_excel read_csv file_path = Files.Ok df ->
  Files.suffix file_path = Files.splitext_ext file_path /\
  Files.load uni_lower read_excel read_csv [ ("dtype", "str") ] file_path
    = Some (Files.Loaded df) /\
  Files.app1_validate_file uni_lower read_excel read_csv U file_path
    = match fst (app1.validate_file U df) with
      | Returns r => Files.Ok r
      | Raises e => Files.Failed (Files.RuleRaised e)
      end.
Proof.
  unfold Files.load_file, Files.app1_validate_file, Files.load. cbv zeta.
  intros H.
  assert (S : Files.suffix file_path = Files.splitext_ext file_path).
  { apply (splitext_ext_is_suffix uni_lower).
    destruct (pystr_eqb (Files.lower uni_lower (Files.splitext_ext file_path))
                        (py ".xlsx")) eqn:E1.
    - left. now apply pystr_eqb_eq.
    - destruct (pystr_eqb (Files.lower uni_lower (Files.splitext_ext file_path))
                          (py ".csv")) eqn:E2; [|discriminate H].
      right. now apply pystr_eqb_eq. }
  rewrite S. split; [reflexivity|].
  destruct (pystr_eqb (Files.lower uni_lower (Files.splitext_ext file_path))
                      (py ".xlsx")).
  - destruct (read_excel [ ("dtype", "str") ] file_path); [|discriminate H].
    injection H as ->. split; reflexivity.
  - destruct (pystr_eqb (Files.lower uni_lower (Files.splitext_ext file_path))
                        (py ".csv")); [|discriminate H].
    destruct (read_csv [ ("dtype", "str") ] file_path); [|discriminate H].
    injection H as ->. split; reflexivity.
Qed.

Lemma ascii_lower_no_slash (ext t : pystr) :
  map Files.ascii_lower ext = t -> ~ In 47%N t -> ~ In 47%N ext.
Proof.
  intros <- H G. apply H. apply in_map_iff. exists 47%N. split; [reflexivity|exact G].
Qed.

Lemma last_slash_split (stem : pystr) :
  (~ In 47%N stem) \/
  exists d s2, stem = d ++ 47%N :: s2 /\ ~ In 47%N s2.
Proof.
  destruct (Files.rfind 47 stem) as [i|] eqn:R.
  - apply rfind_Some in R as [a [b [E [_ Hb]]]]. right. exists a, b. auto.
  - left. now apply rfind_None.
Qed.

Lemma suffix_of_dot_name (p ext : pystr) :
  Files.path_name p = 46%N :: ext -> ~ In 46%N ext -> Files.suffix p = [].
Proof.
  intros Hp He. unfold Files.suffix. cbv zeta. rewrite Hp.
  assert (R : Files.rfind 46 (46%N :: ext) = Some 0).
  { apply rfind_Some. exists [], ext. auto. }
  rewrite R. reflexivity.
Qed.

Lemma suffix_by_stem (d s2 ext : pystr) :
  ~ In 47%N s2 -> ~ In 47%N ext -> ~ In 46%N ext -> ext <> [] ->
  Files.suffix (d ++ 47%N :: s2 ++ 46%N :: ext)
  = match s2 with [] => [] | _ => 46%N :: ext end.
Proof.
  intros H2 He1 He2 Hn.
  set (b := s2 ++ 46%N :: ext).
  assert (B1 : ~ In 47%N b).
  { unfold b. intros G. apply in_app_or in G as [G|[G|G]]; [tauto|discriminate G|tauto]. }
  assert (B2 : b <> []) by (unfold b; destruct s2; discriminate).
  assert (B3 : b <> py ".").
  { unfold b. destruct s2 as [|y [|z s2]]; simpl.
    - intros [= G]. now apply Hn.
    - intros [= _ G].
    - discriminate. }
  destruct (path_name_last d b B1 B2 B3) as [_ P].
  destruct s2 as [|y s2].
  - now apply (suffix_of_dot_name _ ext).
  - apply (suffix_of_name (y :: s2) ext); auto. discriminate.
Qed.

(** X23.  [allowed_file] of [Flask.py] and [Flask3.py]: the index 1 is
    never out of range, and a name is accepted exactly when it has a
    dot and the text after its last dot is xlsx or csv once put in
    lower case. *)
Theorem allowed_file_spec (uni_lower : pystr -> pystr) (filename : pystr) :
  (exists b, Files.allowed_file uni_lower filename = Some b) /\
  (Files.allowed_file uni_lower filename = Some true <->
   exists stem ext,
     filename = stem ++ 46%N :: ext /\ ~ In 46%N ext /\
     (Files.lower uni_lower ext = py "xlsx" \/
      Files.lower uni_lower ext = py "csv")).
Proof.
  destruct (existsb (N.eqb 46) filename) eqn:E.
  - apply existsb_eqb_In in E.
    destruct (allowed_file_rsplit uni_lower filename E)
      as [a [b [Hs [Hb Ha]]]].
    rewrite Ha. split; [eexists; reflexivity|]. split.
    + intros [= H]. exists a, b. split; [exact Hs|]. split; [exact Hb|].
      now apply allowed_extension.
    + intros [stem [ext [Hs' [Hb' H]]]].
      assert (Eb : b = ext).
      { assert (R1 : Files.rsplit1 46 filename = [stem; ext])
          by now apply rsplit1_last.
        rewrite (rsplit1_last filename a b Hs Hb) in R1. now injection R1. }
      subst ext. f_equal. now apply allowed_extension.
  - unfold Files.allowed_file. rewrite E.
    split; [eexists; reflexivity|]. split; [discriminate|].
    intros [stem [ext [-> _]]]. exfalso.
    assert (H : In 46%N (stem ++ 46%N :: ext))
      by (apply in_or_app; right; now left).
    apply existsb_eqb_In in H. congruence.
Qed.

Lemma last_In {A : Type} (l : list A) (d : A) : l <> [] -> In (last l d) l.
Proof.
  induction l as [|a l IH]; [intros H; now contradiction H|]. intros _.
  destruct l as [|b l]; [now left|]. right. apply IH. discriminate.
Qed.

Lemma last_app_cons {A : Type} (a l : list A) (x d : A) :
  last (a ++ x :: l) d = last (x :: l) d.
Proof.
  induction a as [|y a IH]; [reflexivity|].
  simpl app. rewrite <- IH. destruct (a ++ x :: l) eqn:E; [now destruct a|reflexivity].
Qed.

Lemma ends_in_slash (d s2 : pystr) :
  ~ In 47%N s2 ->
  N.eqb (last (d ++ 47%N :: s2) 47%N) 47 = match s2 with [] => true | _ => false end.
Proof.
  intros H. rewrite last_app_cons. destruct s2 as [|y s2]; [reflexivity|].
  apply N.eqb_neq. intros E. apply H.
  change (last (47%N :: y :: s2) 47%N) with (last (y :: s2) 47%N) in E.
  rewrite <- E. apply last_In. discriminate.
Qed.

Lemma ends_in_slash_none (s : pystr) :
  ~ In 47%N s ->
  N.eqb (last s 47%N) 47 = match s with [] => true | _ => false end.
Proof.
  intros H. destruct s as [|y s]; [reflexivity|].
  apply N.eqb_neq. intros E. apply H. rewrite <- E. apply last_In. discriminate.
Qed.

Lemma join_uploads (c : N) (f : pystr) :
  Files.join (py "uploads") (c :: f)
  = if N.eqb c 47 then c :: f else py "uploads" ++ 47%N :: c :: f.
Proof.
  destruct (N.eqb_spec c 47) as [->|Hne]; [reflexivity|].
  unfold Files.join. destruct c as [|q]; [reflexivity|].
  do 6 (destruct q as [q|q|]; try reflexivity). now contradiction Hne.
Qed.

Lemma upload_suffix (uni_lower : pystr -> pystr) (filename : pystr) :
  forallb is_ascii filename = true ->
  Files.allowed_file uni_lower filename = Some true ->
  exists stem ext,
    filename = stem ++ 46%N :: ext /\ ~ In 46%N ext /\
    In (Files.lower uni_lower (46%N :: ext)) [ py ".xlsx"; py ".csv" ] /\
    Files.suffix (Files.upload_path filename)
    = if N.eqb (last stem 47%N) 47 then [] else 46%N :: ext.
Proof.
  intros Ha H. apply allowed_file_accepts in H as [stem [ext [Hf [He Hl]]]].
  exists stem, ext. split; [exact Hf|]. split; [exact He|].
  assert (Ae : forallb is_ascii ext = true).
  { rewrite Hf, forallb_app in Ha. apply andb_true_iff in Ha as [_ Ha].
    simpl in Ha. exact Ha. }
  rewrite (lower_ascii uni_lower ext Ae) in Hl.
  assert (L : Files.lower uni_lower (46%N :: ext)
              = 46%N :: map Files.ascii_lower ext).
  { rewrite lower_ascii; [reflexivity|]. simpl. exact Ae. }
  assert (Hs : ~ In 47%N ext).
  { destruct Hl as [Hl|Hl]; apply (ascii_lower_no_slash _ _ Hl);
      vm_compute; intuition discriminate. }
  assert (Hn : ext <> []).
  { intros ->. destruct Hl as [Hl|Hl]; discriminate Hl. }
  split.
  { rewrite L. destruct Hl as [-> | ->]; simpl; auto. }
  unfold Files.upload_path.
  destruct filename as [|c f'] eqn:Ef.
  { destruct stem; discriminate Hf. }
  rewrite (join_uploads c f'), Hf.
  destruct (last_slash_split stem) as [Hno|[d [s2 [Es H2]]]].
  - rewrite (ends_in_slash_none stem Hno).
    assert (C : N.eqb c 47 = false).
    { apply N.eqb_neq. intros ->. destruct stem as [|y stem].
      - simpl in Hf. discriminate Hf.
      - simpl in Hf. injection Hf as <- _. apply Hno. now left. }
    rewrite C.
    rewrite (suffix_by_stem (py "uploads") stem ext Hno Hs He Hn).
    destruct stem; reflexivity.
  - rewrite Es, (ends_in_slash d s2 H2).
    destruct (N.eqb c 47).
    + rewrite <- app_assoc. simpl app.
      rewrite (suffix_by_stem d s2 ext H2 Hs He Hn). destruct s2; reflexivity.
    + replace (py "uploads" ++ 47%N :: (d ++ 47%N :: s2) ++ 46%N :: ext)
        with ((py "uploads" ++ 47%N :: d) ++ 47%N :: s2 ++ 46%N :: ext)
        by (rewrite <- !app_assoc; reflexivity).
      rewrite (suffix_by_stem _ s2 ext H2 Hs He Hn). destruct s2; reflexivity.
Qed.

(** X26.  [upload_file] of [Flask3.py] hands the names [allowed_file]
    accepts to [validate_file].  For an ASCII name, with the stem
    before its last dot: when the stem is empty or ends in a slash (a
    name that is only an extension, like .csv), the saved path has no
    suffix and [validate_file] answers that the format is unsupported;
    otherwise the suffix is the accepted extension and a reader is
    chosen. *)
Theorem accepted_upload_may_be_unsupported
    (uni_lower : pystr -> pystr)
    (read_excel read_csv : Files.kwargs -> pystr -> Files.read_result)
    (U : UnicodeDB) (uni_isnumeric : N -> bool) (filename : pystr) :
  forallb is_ascii filename = true ->
  Files.allowed_file uni_lower filename = Some true ->
  exists stem ext,
    filename = stem ++ 46%N :: ext /\ ~ In 46%N ext /\
    (stem = [] \/ (exists d, stem = d ++ [47%N]) ->
     Files.suffix (Files.upload_path filename) = [] /\
     Files.flask3_validate_file uni_lower read_excel read_csv U uni_isnumeric
       (Files.upload_path filename)
     = Files.Ok (Dict [ ("error",
         Val (txt "Unsupported file format. Only .xlsx and .csv are allowed.")) ])) /\
    (stem <> [] -> (forall d, stem <> d ++ [47%N]) ->
     Files.suffix (Files.upload_path filename) = 46%N :: ext /\
     In (Files.lower uni_lower (Files.suffix (Files.upload_path filename)))
        [ py ".xlsx"; py ".csv" ]).
Proof.
  intros Ha H.
  destruct (upload_suffix uni_lower filename Ha H)
    as [stem [ext [Hf [He [Hl Hs]]]]].
  exists stem, ext. split; [exact Hf|]. split; [exact He|].
  assert (E : N.eqb (last stem 47%N) 47 = true <->
              stem = [] \/ exists d, stem = d ++ [47%N]).
  { rewrite N.eqb_eq. split.
    - intros L. destruct stem as [|y stem]; [now left|]. right.
      assert (Hne : y :: stem <> []) by discriminate.
      destruct (exists_last Hne) as [d [z Ez]]. exists d. rewrite Ez in *.
      rewrite last_last in L. now subst z.
    - intros [->|[d ->]]; [reflexivity|]. apply last_last. }
  split.
  - intros Hd. apply E in Hd. rewrite Hd in Hs. split; [exact Hs|].
    unfold Files.flask3_validate_file, Files.load. rewrite Hs. reflexivity.
  - intros H1 H2.
    destruct (N.eqb (last stem 47%N) 47) eqn:L.
    + exfalso. destruct (proj1 E eq_refl) as [G|[d G]]; [exact (H1 G)|exact (H2 d G)].
    + rewrite Hs. split; [reflexivity|exact Hl].
Qed.

(* ================================================================= *)
(** * The properties on sample data *)

Lemma report_rows_and_messages_witness :
  exists r df',
    App.validate_excel ascii_only age_ten_frame = (Returns r, df') /\
    r = [ (1, [ App.msg_age_rating (txt "10") ]) ] /\
    ascending (map fst r) = true /\
    (forall n msgs, In (n, msgs) r ->
       1 <= n <= nrows age_ten_frame /\ msgs <> [] /\ List.length msgs <= 8).
Proof.
  assert (E : App.validate_excel ascii_only age_ten_frame
              = (Returns [ (1, [ App.msg_age_rating (txt "10") ]) ],
                 App.flagged_frame ascii_only age_ten_frame)).
  { rewrite validate_excel_returns by (vm_compute; reflexivity).
    vm_compute. reflexivity. }
  destruct (report_rows_and_messages ascii_only age_ten_frame _ _ E)
    as [H1 [H2 _]].
  eexists. eexists. split; [exact E|]. split; [reflexivity|].
  split; [exact H1|exact H2].
Defined.

Lemma blank_impact_cell_witness :
  has_columns App.required_columns impact_frame = true /\
  App.no_empty_cell impact_frame = true /\
  0 < nrows impact_frame /\
  In (py "Violence Impact") App.impact_columns /\
  at_ impact_frame 0 (py "Violence Impact") = NaN /\
  exists report msgs,
    fst (App.validate_excel ascii_only impact_frame) = Returns report /\
    In (0 + 1, msgs) report /\
    In App.msg_missing msgs /\
    In App.msg_impact_blank msgs /\
    In App.msg_impact_invalid msgs.
Proof.
  assert (Hc : has_columns App.required_columns impact_frame = true)
    by (vm_compute; reflexivity).
  assert (He : App.no_empty_cell impact_frame = true)
    by (vm_compute; reflexivity).
  assert (Hi : 0 < nrows impact_frame) by (vm_compute; lia).
  assert (Hin : In (py "Violence Impact") App.impact_columns)
    by (vm_compute; tauto).
  assert (Hn : at_ impact_frame 0 (py "Violence Impact") = NaN)
    by (vm_compute; reflexivity).
  repeat split; try assumption.
  exact (blank_impact_cell_gets_three_messages ascii_only impact_frame 0
           (py "Violence Impact") Hc He Hi Hin (or_introl Hn)).
Defined.

Lemma impact_values_rule_witness :
  has_columns App.required_columns impact_frame = true /\
  App.no_empty_cell impact_frame = true /\
  1 < nrows impact_frame /\
  at_ impact_frame 1 (py "Violence Impact") = txt "Severe" /\
  exists report,
    fst (App.validate_excel ascii_only impact_frame) = Returns report /\
    (exists msgs, In (1 + 1, msgs) report /\ In App.msg_impact_invalid msgs) /\
    ~ (exists msgs, In (1 + 1, msgs) report /\ In App.msg_impact_blank msgs).
Proof.
  assert (Hc : has_columns App.required_columns impact_frame = true)
    by (vm_compute; reflexivity).
  assert (He : App.no_empty_cell impact_frame = true)
    by (vm_compute; reflexivity).
  assert (Hi : 1 < nrows impact_frame) by (vm_compute; lia).
  repeat split; try assumption.
  destruct (impact_values_rule ascii_only impact_frame 1 Hc He Hi)
    as [report [Hr [Hv Hb]]].
  exists report. split; [exact Hr|]. split.
  - apply Hv. exists (py "Violence Impact"). split; [vm_compute; tauto|].
    vm_compute. intuition discriminate.
  - intros G. apply Hb in G as [c [Hin Hc']].
    vm_compute in Hin.
    repeat (destruct Hin as [<-|Hin];
            [vm_compute in Hc'; destruct Hc' as [Hc'|Hc']; discriminate Hc'|]).
    destruct Hin.
Defined.

Lemma duplicate_message_rule_witness :
  has_columns App.required_columns impact_frame = true /\
  App.no_empty_cell impact_frame = true /\
  0 < nrows impact_frame /\
  exists report,
    fst (App.validate_excel ascii_only impact_frame) = Returns report /\
    exists msgs, In (0 + 1, msgs) report /\
                 In (py "Duplicate GTI 'A1'") msgs.
Proof.
  assert (Hc : has_columns App.required_columns impact_frame = true)
    by (vm_compute; reflexivity).
  assert (He : App.no_empty_cell impact_frame = true)
    by (vm_compute; reflexivity).
  assert (Hi : 0 < nrows impact_frame) by (vm_compute; lia).
  repeat split; try assumption.
  destruct (duplicate_message_rule ascii_only impact_frame 0 Hc He Hi)
    as [report [Hr Hd]].
  exists report. split; [exact Hr|].
  apply Hd. exists 1. split; [vm_compute; lia|]. split; [discriminate|].
  vm_compute. reflexivity.
Defined.

Lemma non_english_message_rule_witness :
  has_columns App.required_columns impact_frame = true /\
  App.no_empty_cell impact_frame = true /\
  1 < nrows impact_frame /\
  exists report,
    fst (App.validate_excel ascii_only impact_frame) = Returns report /\
    exists msgs, In (1 + 1, msgs) report /\ In App.msg_non_english msgs.
Proof.
  assert (Hc : has_columns App.required_columns impact_frame = true)
    by (vm_compute; reflexivity).
  assert (He : App.no_empty_cell impact_frame = true)
    by (vm_compute; reflexivity).
  assert (Hi : 1 < nrows impact_frame) by (vm_compute; lia).
  repeat split; try assumption.
  destruct (non_english_message_rule ascii_only impact_frame 1 Hc He Hi)
    as [report [Hr Hd]].
  exists report. split; [exact Hr|].
  apply Hd. exists (py "Title Name"), (py "Am" ++ [233%N] ++ py "lie"), 233%N.
  split; [now left|]. split; [vm_compute; reflexivity|].
  split; [vm_compute; tauto|vm_compute; reflexivity].
Defined.

Lemma flask2_date_rule_witness :
  Flask2.numbers_filled loose_date_frame = true /\
  In (py "Rating Date") (columns loose_date_frame) /\
  1 < nrows loose_date_frame /\
  exists errors dates,
    Flask2.validate_file ascii_only loose_date_frame
      = Returns (Dict [ ("errors", errors) ]) /\
    get "invalid_date_format" errors = Some (PyList dates) /\
    In (Dict [ ("row", Int 3); ("Rating Date", Val NaN) ]) dates /\
    ~ In (Dict [ ("row", Int 2); ("Rating Date", Val (txt "13/45/2024")) ]) dates.
Proof.
  assert (Hf : Flask2.numbers_filled loose_date_frame = true)
    by (vm_compute; reflexivity).
  assert (Hc : In (py "Rating Date") (columns loose_date_frame))
    by (vm_compute; tauto).
  assert (H1 : 1 < nrows loose_date_frame) by (vm_compute; lia).
  assert (H0 : 0 < nrows loose_date_frame) by (vm_compute; lia).
  repeat split; try assumption.
  destruct (flask2_date_rule ascii_only loose_date_frame 1 Hf Hc H1)
    as [errors [dates [Hr [Hg [_ Hn]]]]].
  destruct (flask2_date_rule ascii_only loose_date_frame 0 Hf Hc H0)
    as [errors' [dates' [Hr' [Hg' [Hd _]]]]].
  rewrite Hr in Hr'. injection Hr' as <-. rewrite Hg in Hg'. injection Hg' as <-.
  exists errors, dates. split; [exact Hr|]. split; [exact Hg|]. split.
  - apply Hn. vm_compute. reflexivity.
  - intros G. apply Hd in G. apply G. left. vm_compute. reflexivity.
Defined.

Lemma blank_rows_share_one_column_list_witness :
  0 < nrows blank_frame /\
  at_ blank_frame 0 (py "GTI") = txt "A1" /\
  at_ blank_frame 0 (py "Other Title Name(s)") = NaN /\
  exists r bc,
    fst (Flask.validate_file ascii_only blank_frame) = Returns r /\
    get "blank_cells" r = Some (PyList bc) /\
    In (Dict [ ("row", Int 2);
               ("columns", PyList [ Val (txt "GTI");
                                    Val (txt "Other Title Name(s)") ]) ]) bc.
Proof.
  assert (H0 : 0 < nrows blank_frame) by (vm_compute; lia).
  repeat split; try assumption.
  destruct (blank_rows_share_one_column_list ascii_only blank_frame 0 H0)
    as [r [bc [cs [Hr [Hg [Hin _]]]]]].
  { exists (py "Other Title Name(s)"). split; [vm_compute; tauto|].
    vm_compute. reflexivity. }
  exists r, bc. split; [exact Hr|]. split; [exact Hg|].
  rewrite flask_validate_file_returns in Hr. injection Hr as <-.
  vm_compute in Hg. injection Hg as <-. vm_compute. auto.
Defined.

Lemma country_language_rule_exact_witness :
  has_columns app1.accessed_columns bad_numbers_frame = true /\
  0 < nrows bad_numbers_frame /\
  at_ bad_numbers_frame 0 (py "Countries") = txt "AU" /\
  exists report violations,
    fst (app1.validate_file ascii_only bad_numbers_frame) = Returns report /\
    get "invalid_country_language" report = Some (PyList violations) /\
    (exists e, In e violations /\ Flask2.on_row 2 e = true) /\
    List.length (filter (Flask2.on_row 2) violations) <= 1.
Proof.
  assert (Hc : has_columns app1.accessed_columns bad_numbers_frame = true)
    by (vm_compute; reflexivity).
  assert (H0 : 0 < nrows bad_numbers_frame) by (vm_compute; lia).
  repeat split; try assumption.
  destruct (country_language_rule_exact ascii_only bad_numbers_frame 0 Hc H0)
    as [report [violations [Hr [Hg [Hiff Hl]]]]].
  exists report, violations. split; [exact Hr|]. split; [exact Hg|].
  split; [|exact Hl]. apply Hiff. left. vm_compute. reflexivity.
Defined.

Lemma well_formed_date_fails_rule_2_witness :
  has_columns app1.accessed_columns bad_numbers_frame = true /\
  0 < nrows bad_numbers_frame /\
  at_ bad_numbers_frame 0 (py "Rating Date") = txt "01/15/2024" /\
  dd_dd_dddd ascii_only (py "01/15/2024") = true /\
  exists report ne,
    fst (app1.validate_file ascii_only bad_numbers_frame) = Returns report /\
    get "non_english_chars" report = Some (PyList ne) /\
    In (Dict [ ("row", Int 2); ("column", Val (txt "Rating Date"));
               ("value", Val (txt "01/15/2024")) ]) ne.
Proof.
  assert (Hc : has_columns app1.accessed_columns bad_numbers_frame = true)
    by (vm_compute; reflexivity).
  assert (H0 : 0 < nrows bad_numbers_frame) by (vm_compute; lia).
  assert (Hv : at_ bad_numbers_frame 0 (py "Rating Date") = Str (py "01/15/2024"))
    by (vm_compute; reflexivity).
  assert (Hd : dd_dd_dddd ascii_only (py "01/15/2024") = true)
    by (vm_compute; reflexivity).
  repeat split; try assumption.
  destruct (well_formed_date_fails_rule_2 ascii_only bad_numbers_frame 0
              (py "01/15/2024") Hc H0 Hv (or_introl Hd))
    as [report [ne [dt [Hr [Hg [_ [Hin _]]]]]]].
  exists report, ne. split; [exact Hr|]. split; [exact Hg|exact Hin].
Defined.

Lemma app1_non_english_entries_witness :
  has_columns app1.accessed_columns bad_numbers_frame = true /\
  exists report ne,
    fst (app1.validate_file ascii_only bad_numbers_frame) = Returns report /\
    get "non_english_chars" report = Some (PyList ne) /\
    In (Dict [ ("row", Int 2); ("column", Val (txt "Rating Date"));
               ("value", Val (txt "01/15/2024")) ]) ne /\
    ~ In (Dict [ ("row", Int 2); ("column", Val (txt "Countries"));
                 ("value", Val (txt "AU")) ]) ne.
Proof.
  assert (Hc : has_columns app1.accessed_columns bad_numbers_frame = true)
    by (vm_compute; reflexivity).
  split; [exact Hc|].
  destruct (app1_non_english_entries ascii_only bad_numbers_frame Hc)
    as [report [ne [Hr [Hg Hiff]]]].
  exists report, ne. split; [exact Hr|]. split; [exact Hg|]. split.
  - apply Hiff. exists 0, (py "Rating Date").
    split; [vm_compute; lia|]. split; [vm_compute; tauto|].
    split; [vm_compute; discriminate|]. split; [|vm_compute; reflexivity].
    exists 47%N. split; [vm_compute; tauto|vm_compute; reflexivity].
  - intros G. apply Hiff in G as [i [c [Hi [Hcol [Hn [[ch [Hch Hbad]] He]]]]]].
    injection He as Ei Ec Ev. assert (i = 0) by lia. subst i c.
    vm_compute in Hch.
    repeat (destruct Hch as [<-|Hch]; [vm_compute in Hbad; discriminate Hbad|]).
    destruct Hch.
Defined.

Lemma flask3_rules_5_and_6_witness :
  1 < nrows loose_date_frame /\
  at_ loose_date_frame 1 (py "Age Rating ID") = NaN /\
  at_ loose_date_frame 1 (py "Rating Date") = NaN /\
  exists report errors ages dates,
    Flask3.validate_file ascii_only ascii_numeric loose_date_frame
      = Flask3.Done report /\
    get "errors" report = Some errors /\
    get "invalid_age_rating" errors = Some (PyList ages) /\
    get "invalid_date_format" errors = Some (PyList dates) /\
    ~ (exists e, In e ages /\ Flask2.on_row 3 e = true) /\
    ~ (exists e, In e dates /\ Flask2.on_row 3 e = true).
Proof.
  assert (H1 : 1 < nrows loose_date_frame) by (vm_compute; lia).
  repeat split; try assumption.
  assert (E : Flask3.validate_file ascii_only ascii_numeric loose_date_frame
              = Flask3.Done (flask3_report ascii_only ascii_numeric loose_date_frame)).
  { rewrite flask3_validate_file_cases. vm_compute. reflexivity. }
  destruct (flask3_rules_5_and_6_skip_empty_cells ascii_only ascii_numeric
              loose_date_frame _ 1 E H1)
    as [errors [ages [dates [Hg [Ha [Hd [Hage Hdate]]]]]]].
  eexists. exists errors, ages, dates.
  split; [exact E|]. split; [exact Hg|]. split; [exact Ha|]. split; [exact Hd|].
  split.
  - intros G. apply Hage in G as [_ [G _]]. apply G. vm_compute. reflexivity.
  - intros G. apply Hdate in G as [_ [G _]]. apply G. vm_compute. reflexivity.
Defined.

Lemma flask3_blank_rule_witness :
  at_ blank_impact_frame 0 (py "GTI") = NaN /\
  at_ blank_impact_frame 0 (py "Violence Impact") = NaN /\
  exists report errors blanks,
    Flask3.validate_file ascii_only ascii_numeric blank_impact_frame
      = Flask3.Done report /\
    get "errors" report = Some errors /\
    get "blank_cells" errors = Some (PyList blanks) /\
    In (Dict [ ("row", Int 2); ("column", Val (txt "Violence Impact"));
               ("message", Val (txt "Cannot be blank (None is allowed).")) ])
       blanks /\
    ~ In (Dict [ ("row", Int 2); ("column", Val (txt "GTI"));
                 ("message", Val (txt "Cannot be blank (None is allowed).")) ])
         blanks.
Proof.
  repeat split.
  assert (E : Flask3.validate_file ascii_only ascii_numeric blank_impact_frame
              = Flask3.Done (flask3_report ascii_only ascii_numeric
                               blank_impact_frame)).
  { rewrite flask3_validate_file_cases. vm_compute. reflexivity. }
  destruct (flask3_blank_rule_covers_impact_columns_only ascii_only ascii_numeric
              blank_impact_frame _ E)
    as [errors [blanks [Hg [Hb Hiff]]]].
  eexists. exists errors, blanks.
  split; [exact E|]. split; [exact Hg|]. split; [exact Hb|]. split.
  - apply Hiff. exists 0, (py "Violence Impact").
    split; [vm_compute; lia|]. split; [vm_compute; tauto|].
    split; [vm_compute; tauto|]. split; vm_compute; reflexivity.
  - intros G. apply Hiff in G as [i [c [_ [_ [Hin [_ He]]]]]].
    injection He as _ Ec. subst c. vm_compute in Hin.
    repeat (destruct Hin as [Hin|Hin]; [discriminate Hin|]). destruct Hin.
Defined.

Lemma empty_country_witness :
  In (py "Countries") (columns bad_numbers_frame) /\
  In (py "Languages") (columns bad_numbers_frame) /\
  ascii_frame bad_numbers_frame = true /\
  1 < nrows bad_numbers_frame /\
  at_ bad_numbers_frame 1 (py "Languages") = NaN /\
  Flask2.validate_file ascii_only bad_numbers_frame = Raises TypeError /\
  exists report errors violations,
    Flask3.validate_file ascii_only ascii_numeric bad_numbers_frame
      = Flask3.Done report /\
    get "errors" report = Some errors /\
    get "invalid_country_language" errors = Some (PyList violations) /\
    In (Dict [ ("row", Int 3); ("Countries", Val (txt "36"));
               ("Languages", Val NaN) ]) violations.
Proof.
  assert (Hc : In (py "Countries") (columns bad_numbers_frame))
    by (vm_compute; tauto).
  assert (Hl : In (py "Languages") (columns bad_numbers_frame))
    by (vm_compute; tauto).
  assert (Ha : ascii_frame bad_numbers_frame = true) by (vm_compute; reflexivity).
  assert (H1 : 1 < nrows bad_numbers_frame) by (vm_compute; lia).
  assert (Hn : at_ bad_numbers_frame 1 (py "Languages") = NaN)
    by (vm_compute; reflexivity).
  destruct (empty_country_flask2_raises_flask3_reports ascii_only ascii_numeric
              bad_numbers_frame 1 Hc Hl Ha H1 (or_intror Hn)) as [R2 R3].
  repeat split; assumption.
Defined.

Lemma flask3_country_language_rule_witness :
  In (py "Countries") (columns bad_numbers_frame) /\
  In (py "Languages") (columns bad_numbers_frame) /\
  0 < nrows bad_numbers_frame /\
  at_ bad_numbers_frame 0 (py "Countries") = txt "AU" /\
  exists report errors violations,
    Flask3.validate_file ascii_only ascii_numeric bad_numbers_frame
      = Flask3.Done report /\
    get "errors" report = Some errors /\
    get "invalid_country_language" errors = Some (PyList violations) /\
    exists e, In e violations /\ Flask2.on_row 2 e = true.
Proof.
  assert (Hc : In (py "Countries") (columns bad_numbers_frame))
    by (vm_compute; tauto).
  assert (Hl : In (py "Languages") (columns bad_numbers_frame))
    by (vm_compute; tauto).
  assert (H0 : 0 < nrows bad_numbers_frame) by (vm_compute; lia).
  repeat split; try assumption.
  assert (E : Flask3.validate_file ascii_only ascii_numeric bad_numbers_frame
              = Flask3.Done (flask3_report ascii_only ascii_numeric
                               bad_numbers_frame)).
  { rewrite flask3_validate_file_cases. vm_compute. reflexivity. }
  destruct (flask3_country_language_rule ascii_only ascii_numeric
              bad_numbers_frame _ 0 E Hc Hl H0)
    as [errors [violations [Hg [Hv Hiff]]]].
  eexists. exists errors, violations.
  split; [exact E|]. split; [exact Hg|]. split; [exact Hv|].
  apply Hiff. intros [[v [Ev Hnum]] _].
  vm_compute in Ev. injection Ev as <-. vm_compute in Hnum. discriminate Hnum.
Defined.

Lemma csv_files_witness :
  (forall arguments p,
     In "errors" (map fst arguments) ->
     exists message, sample_read_csv arguments p = Files.ReadError message) /\
  Files.lower ascii_lowering (Files.suffix (py "uploads/report.CSV")) = py ".csv" /\
  (exists message,
     Files.flask_validate_file ascii_lowering sample_read_excel sample_read_csv
       ascii_only (py "uploads/report.CSV")
     = Files.Failed (Files.ReaderRaised message)) /\
  (exists message,
     Files.flask2_validate_file ascii_lowering sample_read_excel sample_read_csv
       ascii_only (py "uploads/report.CSV")
     = Files.Ok (Dict [ ("error", Val (Str message)) ])) /\
  (exists message,
     Files.flask3_validate_file ascii_lowering sample_read_excel sample_read_csv
       ascii_only ascii_numeric (py "uploads/report.CSV")
     = Files.Ok (Dict [ ("error", Val (Str message)) ])).
Proof.
  assert (Hcsv : forall arguments p,
            In "errors" (map fst arguments) ->
            exists message,
              sample_read_csv arguments p = Files.ReadError message).
  { intros arguments p Hin. unfold sample_read_csv.
    assert (E : existsb (String.eqb "errors") (map fst arguments) = true).
    { apply existsb_exists. exists "errors". split; [exact Hin|reflexivity]. }
    rewrite E. eexists. reflexivity. }
  assert (Hext : Files.lower ascii_lowering (Files.suffix (py "uploads/report.CSV"))
                 = py ".csv") by (vm_compute; reflexivity).
  split; [exact Hcsv|]. split; [exact Hext|].
  exact (csv_files_are_never_validated ascii_lowering sample_read_excel
           sample_read_csv ascii_only ascii_numeric (py "uploads/report.CSV")
           Hcsv Hext).
Defined.

Lemma load_file_agrees_with_app1_witness :
  Files.load_file ascii_lowering sample_read_excel sample_read_csv
    (py "data/report.CSV") = Files.Ok bad_numbers_frame /\
  Files.suffix (py "data/report.CSV") = py ".CSV" /\
  Files.load ascii_lowering sample_read_excel sample_read_csv
    [ ("dtype", "str") ] (py "data/report.CSV")
    = Some (Files.Loaded bad_numbers_frame) /\
  exists r,
    Files.app1_validate_file ascii_lowering sample_read_excel sample_read_csv
      ascii_only (py "data/report.CSV") = Files.Ok r.
Proof.
  assert (E : Files.load_file ascii_lowering sample_read_excel sample_read_csv
                (py "data/report.CSV") = Files.Ok bad_numbers_frame)
    by (vm_compute; reflexivity).
  destruct (load_file_agrees_with_app1 ascii_lowering sample_read_excel
              sample_read_csv ascii_only (py "data/report.CSV")
              bad_numbers_frame E) as [Hs [Hl Hv]].
  split; [exact E|]. split; [rewrite Hs; vm_compute; reflexivity|].
  split; [exact Hl|]. rewrite Hv.
  rewrite app1_validate_file_returns by (vm_compute; reflexivity).
  eexists. reflexivity.
Defined.

Lemma accepted_upload_witness :
  forallb is_ascii (py ".csv") = true /\
  Files.allowed_file ascii_lowering (py ".csv") = Some true /\
  Files.upload_path (py ".csv") = py "uploads/.csv" /\
  Files.flask3_validate_file ascii_lowering sample_read_excel sample_read_csv
    ascii_only ascii_numeric (py "uploads/.csv")
  = Files.Ok (Dict [ ("error",
      Val (txt "Unsupported file format. Only .xlsx and .csv are allowed.")) ]) /\
  exists stem ext,
    py ".csv" = stem ++ 46%N :: ext /\ ~ In 46%N ext /\
    (stem = [] \/ (exists d, stem = d ++ [47%N]) ->
     Files.suffix (Files.upload_path (py ".csv")) = [] /\
     Files.flask3_validate_file ascii_lowering sample_read_excel sample_read_csv
       ascii_only ascii_numeric (Files.upload_path (py ".csv"))
     = Files.Ok (Dict [ ("error",
         Val (txt "Unsupported file format. Only .xlsx and .csv are allowed.")) ])) /\
    (stem <> [] -> (forall d, stem <> d ++ [47%N]) ->
     Files.suffix (Files.upload_path (py ".csv")) = 46%N :: ext /\
     In (Files.lower ascii_lowering (Files.suffix (Files.upload_path (py ".csv"))))
        [ py ".xlsx"; py ".csv" ]).
Proof.
  assert (Ha : forallb is_ascii (py ".csv") = true) by (vm_compute; reflexivity).
  assert (Hw : Files.allowed_file ascii_lowering (py ".csv") = Some true)
    by (vm_compute; reflexivity).
  split; [exact Ha|]. split; [exact Hw|]. split; [vm_compute; reflexivity|].
  split; [vm_compute; reflexivity|].
  exact (accepted_upload_may_be_unsupported ascii_lowering sample_read_excel
           sample_read_csv ascii_only ascii_numeric (py ".csv") Ha Hw).
Defined.
